(** * Batch package-operation coordinator of katoolin: a shallow embedding

    The development follows [core/utils.py] ([sanitize_command],
    [run_command]) and [core/tools.py] ([ToolManager]): the install, remove
    and upgrade batches, their per-package workers, the classification of
    the package manager's error text and the overall verdict.  It goes on
    with the methods for one tool, the queries of [ToolManager] and the file
    cache behind them ([core/cache.py]), the validation of input and the
    prompt ([core/utils.py]), the refresh of the package lists
    ([core/repository.py]) and the merge of the plugin categories
    ([core/ui.py]).

    Conventions of the embedding.
    - A Python [str] is a Rocq [string], a sequence of bytes.  The string
      functions act on the ASCII range as Python's do and leave the other
      bytes alone; the literals of the source that are not ASCII (the marks
      and the frame of the summaries) stand as their UTF-8 bytes.
    - A Python [int] is a [Z].
    - Effects (the external processes, the console, the variables shared by
      the workers of one batch) live in an explicit [State]; a function that
      may raise returns a [result].  An exception leaves the state as it was
      when it was raised, so a handler sees every update made before it.
    - [logging] calls, the progress bar and the spinner are not recorded;
      nor are the run times that the [@profile] decorator collects.
    - The thread pool of [ParallelExecutor.map] is run under the sequential
      schedule: the workers run one after the other, in the order of the
      input list. *)

From Stdlib Require Import String Ascii List ZArith QArith Lia Bool Arith.
From Stdlib Require Import DecimalString.
Import ListNotations.

Local Open Scope string_scope.
Local Open Scope Z_scope.

(* ===================================================================== *)
(** * Python string primitives *)
(* ===================================================================== *)

Module PyStr.

Definition LF : ascii := "010"%char.
Definition ESC : ascii := "027"%char.

(** [s.startswith(p)] *)
Fixpoint startswith (p s : string) : bool :=
  match p, s with
  | EmptyString, _ => true
  | String _ _, EmptyString => false
  | String a p', String b s' => Ascii.eqb a b && startswith p' s'
  end.

(** [p in s] *)
Fixpoint str_in (p s : string) : bool :=
  startswith p s ||
  match s with
  | EmptyString => false
  | String _ s' => str_in p s'
  end.

(** [c.lower()] for one character. *)
Definition lower_char (c : ascii) : ascii :=
  let n := nat_of_ascii c in
  if (andb (Nat.leb 65 n) (Nat.leb n 90)) then ascii_of_nat (n + 32) else c.

(** [s.lower()] *)
Fixpoint lower (s : string) : string :=
  match s with
  | EmptyString => EmptyString
  | String c s' => String (lower_char c) (lower s')
  end.

(** [c.isspace()]: tab, line feed, vertical tab, form feed, carriage
    return, the four separators 0x1c-0x1f and the space. *)
Definition isspace (c : ascii) : bool :=
  let n := nat_of_ascii c in
  (andb (Nat.leb 9 n) (Nat.leb n 13)) || (andb (Nat.leb 28 n) (Nat.leb n 32)).

(** [s.lstrip()] *)
Fixpoint lstrip (s : string) : string :=
  match s with
  | EmptyString => EmptyString
  | String c s' => if isspace c then lstrip s' else s
  end.

(** [s.rstrip()] *)
Fixpoint rstrip (s : string) : string :=
  match s with
  | EmptyString => EmptyString
  | String c s' =>
      match rstrip s' with
      | EmptyString => if isspace c then EmptyString else String c EmptyString
      | r => String c r
      end
  end.

(** [s.strip()] *)
Definition strip (s : string) : string := rstrip (lstrip s).

(** [s.replace(old, new)] for a one-character [old]. *)
Fixpoint replace (old : ascii) (new : string) (s : string) : string :=
  match s with
  | EmptyString => EmptyString
  | String c s' =>
      if Ascii.eqb c old then new ++ replace old new s'
      else String c (replace old new s')
  end.

(** [s.split(sep)] for a one-character [sep]; never the empty list. *)
Fixpoint split (sep : ascii) (s : string) : list string :=
  match s with
  | EmptyString => [EmptyString]
  | String c s' =>
      if Ascii.eqb c sep then EmptyString :: split sep s'
      else match split sep s' with
           | [] => [String c EmptyString]
           | w :: ws => String c w :: ws
           end
  end.

(** [sep.join(l)] *)
Definition join (sep : string) (l : list string) : string := String.concat sep l.

(** [len(s)] *)
Definition len (s : string) : Z := Z.of_nat (String.length s).

(** [s[:n]] for a non-negative [n]. *)
Definition slice_to (n : nat) (s : string) : string := String.substring 0 n s.

(** [str(n)] for an integer. *)
Definition str_of_int (n : Z) : string := NilZero.string_of_int (Z.to_int n).

(** Truth value of a string: [if s:]. *)
Definition truthy (s : string) : bool :=
  match s with EmptyString => false | _ => true end.

(** The longest prefix of [s] without white space: what [[^\s]+] consumes. *)
Fixpoint take_nonspace (s : string) : string :=
  match s with
  | EmptyString => EmptyString
  | String c s' => if isspace c then EmptyString else String c (take_nonspace s')
  end.

(** [s[len(p):]] when [s] starts with [p]. *)
Fixpoint drop_prefix (p s : string) : option string :=
  match p, s with
  | EmptyString, _ => Some s
  | String _ _, EmptyString => None
  | String a p', String b s' => if Ascii.eqb a b then drop_prefix p' s' else None
  end.

(** [re.search(p + r"([^\s]+)", s)] for a literal [p]: the group of the
    leftmost match, [None] when there is no match. *)
Fixpoint re_search_word_after (p s : string) : option string :=
  let here :=
    match drop_prefix p s with
    | Some rest =>
        match take_nonspace rest with
        | EmptyString => None
        | w => Some w
        end
    | None => None
    end in
  match here with
  | Some w => Some w
  | None =>
      match s with
      | EmptyString => None
      | String _ s' => re_search_word_after p s'
      end
  end.

(** [c.isupper()], [c.islower()], [c.isdigit()] and [c.isalnum()] for one
    character of the ASCII range. *)
Definition isupper (c : ascii) : bool :=
  let n := nat_of_ascii c in andb (Nat.leb 65 n) (Nat.leb n 90).

Definition islower (c : ascii) : bool :=
  let n := nat_of_ascii c in andb (Nat.leb 97 n) (Nat.leb n 122).

Definition isdigit (c : ascii) : bool :=
  let n := nat_of_ascii c in andb (Nat.leb 48 n) (Nat.leb n 57).

Definition isalnum (c : ascii) : bool := isupper c || islower c || isdigit c.

(** [c.upper()] for one character. *)
Definition upper_char (c : ascii) : ascii :=
  if islower c then ascii_of_nat (nat_of_ascii c - 32) else c.

(** [s.title()]: a cased character is put in upper case when the
    character before it is not cased, and in lower case otherwise. *)
Fixpoint title_from (previous_is_cased : bool) (s : string) : string :=
  match s with
  | EmptyString => EmptyString
  | String c s' =>
      String (if previous_is_cased then lower_char c else upper_char c)
             (title_from (isupper c || islower c) s')
  end.

Definition title (s : string) : string := title_from false s.

(** [c in chars] for one character [c]. *)
Fixpoint char_in (c : ascii) (chars : string) : bool :=
  match chars with
  | EmptyString => false
  | String d chars' => Ascii.eqb c d || char_in c chars'
  end.

(** [''.join(c for c in s if keep(c))] *)
Fixpoint keep_chars (keep : ascii -> bool) (s : string) : string :=
  match s with
  | EmptyString => EmptyString
  | String c s' => if keep c then String c (keep_chars keep s') else keep_chars keep s'
  end.

(** [''.join(f(c) for c in s)] for an [f] that gives one character. *)
Fixpoint map_chars (f : ascii -> ascii) (s : string) : string :=
  match s with
  | EmptyString => EmptyString
  | String c s' => String (f c) (map_chars f s')
  end.

(** [s.endswith(p)] *)
Fixpoint endswith (p s : string) : bool :=
  String.eqb p s ||
  match s with
  | EmptyString => false
  | String _ s' => endswith p s'
  end.

(** The line boundaries of [str.splitlines] in the ASCII range: line feed,
    vertical tab, form feed, carriage return and the separators 0x1c-0x1e. *)
Definition is_linebreak (c : ascii) : bool :=
  let n := nat_of_ascii c in
  (andb (Nat.leb 10 n) (Nat.leb n 13)) || (andb (Nat.leb 28 n) (Nat.leb n 30)).

Definition CR : ascii := "013"%char.

(** [s.splitlines()]: the lines without their boundaries; a carriage
    return followed by a line feed is one boundary, and a boundary at the
    end of the text opens no further line. *)
Fixpoint splitlines (s : string) : list string :=
  match s with
  | EmptyString => []
  | String c s' =>
      if is_linebreak c then
        EmptyString ::
        match s' with
        | String d s'' =>
            if Ascii.eqb c CR && Ascii.eqb d LF then splitlines s'' else splitlines s'
        | EmptyString => splitlines s'
        end
      else match splitlines s' with
           | [] => [String c EmptyString]
           | l :: ls => String c l :: ls
           end
  end.

(** [s.split(sep, 1)] for a one-character [sep]: one or two pieces. *)
Fixpoint split_once (sep : ascii) (s : string) : list string :=
  match s with
  | EmptyString => [EmptyString]
  | String c s' =>
      if Ascii.eqb c sep then [EmptyString; s']
      else match split_once sep s' with
           | [] => [String c EmptyString]
           | w :: ws => String c w :: ws
           end
  end.

(** [os.path.join(a, b)] on a POSIX system. *)
Definition path_join (a b : string) : string :=
  if startswith "/" b then b
  else if negb (truthy a) || endswith "/" a then a ++ b
  else a ++ "/" ++ b.

End PyStr.
Import PyStr.

(* ===================================================================== *)
(** * Exceptions, results, and the state of a run *)
(* ===================================================================== *)

(** The classes of [KatoolinError] that the coordinator meets, and any other
    Python [Exception]. *)
Inductive exn_class : Type :=
| RepositoryError
| ToolInstallationError
| PermissionError
| NetworkError
| SecurityError
| UserInputError
| OtherException.

Definition exn_class_eqb (a b : exn_class) : bool :=
  match a, b with
  | RepositoryError, RepositoryError
  | ToolInstallationError, ToolInstallationError
  | PermissionError, PermissionError
  | NetworkError, NetworkError
  | SecurityError, SecurityError
  | UserInputError, UserInputError
  | OtherException, OtherException => true
  | _, _ => false
  end.

(** [KatoolinError.__init__(message, details, suggestion)] *)
Record exn : Type := mkExn {
  klass : exn_class;
  message : string;
  details : option string;
  suggestion : option string
}.

(** [str(e)]: the full message built by [KatoolinError.__init__]. *)
Definition str_exn (e : exn) : string :=
  message e
  ++ match details e with
     | Some d => if truthy d then String LF "Details: " ++ d else ""
     | None => ""
     end
  ++ match suggestion e with
     | Some s => if truthy s then String LF "Suggestion: " ++ s else ""
     | None => ""
     end.

(** [raise Cls(msg)] *)
Definition simple_exn (c : exn_class) (msg : string) : exn := mkExn c msg None None.

Inductive result (A : Type) : Type :=
| Ret (a : A)
| Raise (e : exn).
Arguments Ret {A} a.
Arguments Raise {A} e.

(** What [subprocess.run(command, shell=True, ...)] does: the process
    completes with a return code and its two output streams, or the call
    itself raises (the text is [str(e)]). *)
Inductive completed : Type :=
| Completed (returncode : Z) (stdout stderr : string)
| RunRaised (text : string).

(** The collaborators outside the coordinator: the operating system that
    runs shell commands, the interactive prompt ([safe_input]) and the
    repository manager ([RepositoryManager.add_repository]). *)
Class Host : Type := {
  World : Type;
  subprocess_run : string -> World -> completed * World;
  safe_input : string -> World -> result string * World;
  add_repository : World -> result bool * World
}.

(** The variables that the workers of one batch share with the batch
    function ([nonlocal] in the source). *)
Record Shared : Type := mkShared {
  completed_tools : Z;
  failed_tools : list (string * string);
  skipped_tools : list (string * string);
  not_installed : Z;
  already_newest : Z
}.

Definition fresh_shared : Shared := mkShared 0 [] [] 0 0.

Section Machine.
Context {host : Host}.

Record State : Type := mkState {
  world : World;
  console : list string;
  shared : Shared
}.

Definition M (A : Type) : Type := State -> result A * State.

Definition ret {A} (a : A) : M A := fun st => (Ret a, st).

Definition bind {A B} (m : M A) (k : A -> M B) : M B :=
  fun st =>
    match m st with
    | (Ret a, st') => k a st'
    | (Raise e, st') => (Raise e, st')
    end.

Definition raise {A} (e : exn) : M A := fun st => (Raise e, st).

(** [try: m  except Exception as e: h e] *)
Definition try_except {A} (m : M A) (h : exn -> M A) : M A :=
  fun st =>
    match m st with
    | (Ret a, st') => (Ret a, st')
    | (Raise e, st') => h e st'
    end.

Definition lift_result {A} (r : result A) : M A := fun st => (r, st).

(** [print(line)] *)
Definition print (line : string) : M unit :=
  fun st => (Ret tt, mkState (world st) (console st ++ [line]) (shared st)).

Definition get_shared : M Shared := fun st => (Ret (shared st), st).

Definition set_shared (s : Shared) : M unit :=
  fun st => (Ret tt, mkState (world st) (console st) s).

Definition modify_shared (f : Shared -> Shared) : M unit :=
  fun st => (Ret tt, mkState (world st) (console st) (f (shared st))).

(** A call into the host that only touches the world. *)
Definition host_call {A} (f : World -> A * World) : M A :=
  fun st => let '(a, w) := f (world st) in
            (Ret a, mkState w (console st) (shared st)).

Definition host_call_result {A} (f : World -> result A * World) : M A :=
  fun st => let '(r, w) := f (world st) in
            (r, mkState w (console st) (shared st)).

End Machine.

Declare Scope py_scope.
Delimit Scope py_scope with py.
Notation "x <- m ;; k" := (bind m (fun x => k))
  (at level 61, m at next level, right associativity) : py_scope.
Notation "m ;; k" := (bind m (fun _ => k))
  (at level 61, right associativity) : py_scope.
Local Open Scope py_scope.

(* ===================================================================== *)
(** * core/utils.py *)
(* ===================================================================== *)

Module Colors.
Definition RED : string := String ESC "[1;31m".
Definition GREEN : string := String ESC "[1;32m".
Definition YELLOW : string := String ESC "[33m".
Definition CYAN : string := String ESC "[1;36m".
Definition RESET : string := String ESC "[0m".
End Colors.

Definition dangerous_patterns : list string :=
  [ ";"; "&&"; "||";
    "`"; "$("; "${";
    ">"; ">>"; "<";
    "|";
    "rm -rf /"; "rm -rf /*";
    "mkfs"; "dd if=/dev/zero";
    ":(){:|:&};:";
    "/etc/passwd"; "/etc/shadow" ].

(** The [SecurityError] that [sanitize_command] raises for [pattern]. *)
Definition security_error (pattern : string) : exn :=
  mkExn SecurityError
    ("Command contains potentially dangerous pattern: " ++ pattern)
    (Some ("The pattern '" ++ pattern ++ "' could be used for command injection"))
    (Some "Please review the command for security issues").

(** The [for pattern in dangerous_patterns] loop of [sanitize_command]. *)
Fixpoint sanitize_scan (patterns : list string) (command : string) : result string :=
  match patterns with
  | [] => Ret command
  | pattern :: rest =>
      if str_in pattern command then Raise (security_error pattern)
      else sanitize_scan rest command
  end.

Definition sanitize_command (command : string) : result string :=
  sanitize_scan dangerous_patterns command.

(** What [run_command] returns: the exit code alone, or the triple
    [(exit_code, stdout, stderr)] when the output is captured. *)
Inductive cmd_result : Type :=
| ExitCode (code : Z)
| Captured (code : Z) (stdout stderr : string).

(** [r == n] for the value returned by [run_command] and an integer. *)
Definition result_is (r : cmd_result) (n : Z) : bool :=
  match r with
  | ExitCode c => Z.eqb c n
  | Captured _ _ _ => false
  end.

Section Utils.
Context {host : Host}.

Definition run_command (command : string) (capture_output check_security : bool)
  : M cmd_result :=
  command <- (if check_security then lift_result (sanitize_command command)
              else ret command) ;;
  r <- host_call (subprocess_run command) ;;
  match r with
  | Completed returncode out err =>
      if capture_output then
        let stdout := if truthy out then strip out else "" in
        let stderr := if truthy err then strip err else "" in
        ret (Captured returncode stdout stderr)
      else ret (ExitCode returncode)
  | RunRaised text =>
      if capture_output then ret (Captured 1 "" text) else ret (ExitCode 1)
  end.

(** [result, stdout, stderr = r]: unpacking the returned value. *)
Definition unpack3 (r : cmd_result) : M (Z * string * string) :=
  match r with
  | Captured c o e => ret (c, o, e)
  | ExitCode _ =>
      raise (simple_exn OtherException "cannot unpack non-iterable int object")
  end.

End Utils.

(* ===================================================================== *)
(** * core/parallel.py *)
(* ===================================================================== *)

Section Parallel.
Context {host : Host}.

(** [ParallelExecutor.map(func, items)] under the sequential schedule:
    an empty list gives the empty list, an exception of a worker is
    raised again, the results come in the order of completion. *)
Fixpoint executor_map {A B} (func : A -> M B) (items : list A) : M (list B) :=
  match items with
  | [] => ret []
  | item :: rest =>
      r <- func item ;;
      rs <- executor_map func rest ;;
      ret (r :: rs)
  end.

End Parallel.

(** [sum(results)] for a list of booleans. *)
Definition sum_bools (results : list bool) : Z :=
  Z.of_nat (List.length (filter (fun b => b) results)).

(** [all(results)] *)
Definition all_bools (results : list bool) : bool := forallb (fun b => b) results.

(** [len(l)] for a list. *)
Definition len_list {A} (l : list A) : Z := Z.of_nat (List.length l).

(** [enumerate(l, start)] *)
Fixpoint enumerate {A} (l : list A) (start : Z) : list (Z * A) :=
  match l with
  | [] => []
  | x :: xs => (start, x) :: enumerate xs (start + 1)
  end.

(* ===================================================================== *)
(** * core/tools.py: the pure helpers of [ToolManager] *)
(* ===================================================================== *)

Definition name_variations : list (string * list string) :=
  [ ("acccheck", ["acccheck-kali"; "smb-enum"]);
    ("dnmap", ["dnmap-kali"; "distributed-nmap"]);
    ("enum4linux", ["enum4linux-ng"; "samba-enum"]);
    ("fragroute", ["fragroute-kali"; "libnet-fragroute"]);
    ("ghost-phisher", ["ghost-phisher-kali"]);
    ("golismero", ["golismero-kali"]);
    ("xplico", ["xplico-kali"]) ].

(** [d[key]] when [key in d], for a dictionary literal. *)
Fixpoint dict_get {V} (d : list (string * V)) (key : string) : option V :=
  match d with
  | [] => None
  | (k, v) :: rest => if String.eqb k key then Some v else dict_get rest key
  end.

Definition _get_alternative_package_names (tool_name : string) : list string :=
  let alternatives :=
    match dict_get name_variations tool_name with
    | Some names => names
    | None => []
    end in
  alternatives ++
  [ tool_name ++ "-kali";
    "kali-" ++ tool_name;
    replace "-"%char "" tool_name;
    replace "_"%char "-" tool_name;
    "python3-" ++ tool_name;
    tool_name ++ "-ng" ].

Definition skippable_patterns : list string :=
  [ "Unable to locate package";
    "has no installation candidate";
    "couldn't be found";
    "package not found" ].

Definition python_version_conflicts (stderr : string) : list bool :=
  [ str_in "python3-charset-normalizer" stderr && str_in "python3 (>= 3.13~)" stderr;
    str_in "python3-psycopg2" stderr && str_in "python3 (>= 3.13~)" stderr;
    str_in "python3-tk" stderr && str_in "python3 (>= 3.13~)" stderr;
    str_in "python3-zope.interface" stderr && str_in "python3 (>= 3.13~)" stderr;
    str_in "python3-pydantic-core" stderr && str_in "python3 (>= 3.13~)" stderr;
    str_in "python3-uvloop" stderr && str_in "python3 (>= 3.13~)" stderr ].

Definition _is_skippable_error (stderr : string) : bool :=
  if existsb (fun pattern => str_in pattern stderr) skippable_patterns then true
  else if existsb (fun b => b) (python_version_conflicts stderr) then true
  else if str_in "pkgProblemResolver::Resolve generated breaks" stderr then true
  else if str_in "python3 (>= 3.13~)" stderr && str_in "python3:amd64=3.12" stderr then true
  else if str_in "caused by held packages" stderr then true
  else false.

Definition _get_error_reason (stderr : string) : string :=
  if str_in "Unable to locate package" stderr then
    "Package not found in repositories"
  else if str_in "python3-charset-normalizer" stderr && str_in "python3 (>= 3.13~)" stderr then
    "Python 3.13+ required but system has 3.12 (version conflict)"
  else if str_in "python3-psycopg2" stderr && str_in "python3 (>= 3.13~)" stderr then
    "Python 3.13+ required but system has 3.12 (version conflict)"
  else if str_in "dependency" (lower stderr) && str_in "conflict" (lower stderr) then
    "Dependency conflicts (version mismatch)"
  else if str_in "broken" (lower stderr) then
    "Broken dependencies"
  else if str_in "Permission denied" stderr then
    "Permission denied"
  else if str_in "Could not resolve" stderr || str_in "Failed to fetch" stderr then
    "Network error"
  else if str_in "No space left" stderr then
    "Insufficient disk space"
  else if str_in "pkgProblemResolver::Resolve generated breaks" stderr then
    "Complex dependency conflicts detected"
  else
    let lines := map strip (filter (fun line => truthy (strip line)) (split LF stderr)) in
    let error_line :=
      match find (fun line => str_in "Error:" line) lines with
      | Some line => line
      | None => match lines with
                | line :: _ => line
                | [] => "Unknown error"
                end
      end in
    if len error_line >? 80 then slice_to 80 error_line ++ "..." else error_line.

(** The failure rate [actual_failures / installable_tools] and its test
    against [0.3].  Python divides and compares in binary64; the quotient
    of two integers below 2^50 is correctly rounded and rounding is
    monotone, so the test agrees with the exact one on rationals for every
    list that fits in memory. *)
Definition failure_rate (actual_failures installable_tools : Z) : Q :=
  (inject_Z actual_failures / inject_Z installable_tools)%Q.

Definition within_tolerance (rate : Q) : bool := Qle_bool rate (3 # 10).

Definition box_top : string :=
  "╔═══════════════════════════════════════════════════════════════╗".
Definition box_bottom : string :=
  "╚═══════════════════════════════════════════════════════════════╝".

(* ===================================================================== *)
(** * core/tools.py: the effectful methods of [ToolManager] *)
(* ===================================================================== *)

Section Tools.
Context {host : Host}.

(** [for x in l: body x] *)
Fixpoint for_each {A} (l : list A) (body : A -> M unit) : M unit :=
  match l with
  | [] => ret tt
  | x :: xs => body x ;; for_each xs body
  end.

(** The step that the fallback strategies repeat:
    [try: result, _, _ = run_command(cmd, capture_output=True);
          if result == 0: return True
     except Exception: pass].
    The value says whether the enclosing function returns [True] here. *)
Definition attempt (prepare : M unit) (cmd : string) : M bool :=
  try_except
    (prepare ;;
     r <- run_command cmd true true ;;
     t <- unpack3 r ;;
     let '(result, _, _) := t in
     ret (result =? 0))
    (fun _ => ret false).

(** The same step behind a [which tool] probe:
    [try: check = run_command("which tool");
          if check == 0: (the step above, without its own handler)
     except Exception: pass]. *)
Definition attempt_if_available (probe cmd : string) : M bool :=
  try_except
    (check <- run_command probe false true ;;
     if result_is check 0 then
       r <- run_command cmd true true ;;
       t <- unpack3 r ;;
       let '(result, _, _) := t in
       ret (result =? 0)
     else ret false)
    (fun _ => ret false).

(** [a] and, unless it returned [True], [b]. *)
Definition or_else (a b : M bool) : M bool :=
  done <- a ;; if (done : bool) then ret true else b.

Definition python_deps : list string :=
  [ "python3=3.12*"; "python3-dev=3.12*"; "python3-pip" ].

Definition _resolve_python_dependency_conflicts (tool_name stderr : string) : M bool :=
  (* Strategy 1: --no-install-recommends *)
  or_else (attempt (ret tt) ("apt install -y --no-install-recommends " ++ tool_name))
  (* Strategy 2: Python version pinning *)
  (or_else
     (if str_in "python3-" tool_name
         || existsb (String.eqb tool_name) ["enum4linux"; "xplico"]
      then attempt
             (for_each python_deps
                (fun dep => run_command ("apt install -y " ++ dep) true true ;; ret tt))
             ("apt install -y " ++ tool_name)
      else ret false)
  (* Strategy 3: apt-get instead of apt *)
  (or_else (attempt (ret tt) ("apt-get install -y " ++ tool_name))
  (* Strategy 4: aptitude *)
     (attempt_if_available "which aptitude" ("aptitude install -y " ++ tool_name)))).

(** The [for alt_name in alt_names] loop of [_try_installation_fallbacks]. *)
Fixpoint try_alternative_names (alt_names : list string) : M bool :=
  match alt_names with
  | [] => ret false
  | alt_name :: rest =>
      or_else (attempt (ret tt) ("apt install -y " ++ alt_name))
              (try_alternative_names rest)
  end.

Definition _try_installation_fallbacks (tool_name stderr : string) : M bool :=
  (* Strategy 1: Python dependency conflicts *)
  or_else
    (if str_in "dependency" (lower stderr) && str_in "python" (lower stderr)
     then _resolve_python_dependency_conflicts tool_name stderr
     else ret false)
  (* Strategy 2: --fix-broken *)
  (or_else
     (if str_in "dependency" (lower stderr) || str_in "broken" (lower stderr)
      then attempt (ret tt) ("apt install -f -y && apt install -y " ++ tool_name)
      else ret false)
  (* Strategy 3: alternative package names *)
  (or_else (try_alternative_names (_get_alternative_package_names tool_name))
  (* Strategy 4: snap *)
     (attempt_if_available "which snap" ("snap install " ++ tool_name)))).

(** ** Install *)

Definition _batch_install_tools (tools : list string) : M bool :=
  let tools_str := join " " tools in
  let install_cmd := "apt install -y " ++ tools_str in
  print (Colors.CYAN ++ "[*] Installing tools... This may take a while." ++ Colors.RESET) ;;
  r <- run_command install_cmd true true ;;
  t <- unpack3 r ;;
  let '(result, stdout, stderr) := t in
  if result =? 0 then
    let success_msg := "Successfully installed all tools" in
    print (Colors.GREEN ++ "[+] " ++ success_msg ++ Colors.RESET) ;;
    ret true
  else if str_in "Could not resolve" stderr || str_in "Failed to fetch" stderr then
    let error_msg := "Network error while installing tools: Could not fetch packages" in
    print (Colors.RED ++ "[!] " ++ error_msg ++ Colors.RESET) ;;
    raise (simple_exn NetworkError error_msg)
  else if str_in "Permission denied" stderr || str_in "requires root privileges" stderr then
    let error_msg := "Permission denied while installing tools. Please run as root." in
    print (Colors.RED ++ "[!] " ++ error_msg ++ Colors.RESET) ;;
    raise (simple_exn PermissionError error_msg)
  else if str_in "Unable to locate package" stderr then
    let package :=
      match re_search_word_after "Unable to locate package " stderr with
      | Some g => g
      | None => "some packages"
      end in
    let error_msg := "Package " ++ package ++ " not found in the repositories" in
    print (Colors.RED ++ "[!] " ++ error_msg ++ Colors.RESET) ;;
    raise (simple_exn ToolInstallationError error_msg)
  else
    let error_msg := "Failed to install some tools" in
    print (Colors.RED ++ "[!] " ++ error_msg ++ Colors.RESET) ;;
    raise (simple_exn ToolInstallationError error_msg).

Definition install_single_tool (tool_name : string) : M bool :=
  try_except
    (let install_cmd := "apt install -y " ++ tool_name in
     r <- run_command install_cmd true true ;;
     t <- unpack3 r ;;
     let '(result, stdout, stderr) := t in
     modify_shared (fun s => mkShared (completed_tools s + 1) (failed_tools s)
                               (skipped_tools s) (not_installed s) (already_newest s)) ;;
     if negb (result =? 0) then
       recovered <- _try_installation_fallbacks tool_name stderr ;;
       if (recovered : bool) then ret true
       else if _is_skippable_error stderr then
         modify_shared (fun s => mkShared (completed_tools s) (failed_tools s)
                                   (skipped_tools s ++ [(tool_name, _get_error_reason stderr)])
                                   (not_installed s) (already_newest s)) ;;
         ret true
       else
         modify_shared (fun s => mkShared (completed_tools s)
                                   (failed_tools s ++ [(tool_name, stderr)])
                                   (skipped_tools s) (not_installed s) (already_newest s)) ;;
         ret false
     else ret true)
    (fun e =>
       modify_shared (fun s => mkShared (completed_tools s)
                                 (failed_tools s ++ [(tool_name, str_exn e)])
                                 (skipped_tools s) (not_installed s) (already_newest s)) ;;
       ret false).

(** The line printed for one failed tool in the summaries. *)
Definition failure_line (entry : string * string) : string :=
  let '(tool, error) := entry in
  Colors.RED ++ "    - " ++ tool ++ ": " ++ _get_error_reason error ++ Colors.RESET.

Definition _parallel_install_tools (tools : list string) : M bool :=
  print (Colors.CYAN ++ "[*] Installing tools in parallel... This may take a while."
         ++ Colors.RESET) ;;
  let total_tools := len_list tools in
  set_shared fresh_shared ;;
  try_except
    (results <- executor_map install_single_tool tools ;;
     sh <- get_shared ;;
     let successful := sum_bools results in
     let failed := len_list (failed_tools sh) in
     let skipped := len_list (skipped_tools sh) in
     print (String LF (Colors.CYAN ++ box_top)) ;;
     print ("║" ++ Colors.YELLOW ++ " Installation Summary " ++ Colors.CYAN ++ "║") ;;
     print (box_bottom ++ Colors.RESET) ;;
     print (Colors.GREEN ++ "✓ Successfully installed: " ++ str_of_int successful ++ "/"
            ++ str_of_int total_tools ++ " tools" ++ Colors.RESET) ;;
     (if skipped >? 0 then
        print (Colors.YELLOW ++ "⚠ Skipped (unavailable): " ++ str_of_int skipped
               ++ " tools" ++ Colors.RESET) ;;
        for_each (skipped_tools sh)
          (fun '(tool, reason) =>
             print (Colors.YELLOW ++ "    - " ++ tool ++ ": " ++ reason ++ Colors.RESET))
      else ret tt) ;;
     (if failed >? 0 then
        print (Colors.RED ++ "✗ Failed: " ++ str_of_int failed ++ " tools" ++ Colors.RESET) ;;
        for_each (failed_tools sh) (fun entry => print (failure_line entry))
      else ret tt) ;;
     let actual_failures := failed in
     let installable_tools := total_tools - skipped in
     if installable_tools =? 0 then
       print (String LF (Colors.YELLOW
              ++ "[!] No tools were available for installation on this system"
              ++ Colors.RESET)) ;;
       ret false
     else if successful =? installable_tools then
       print (String LF (Colors.GREEN ++ "[+] Successfully installed all available tools"
              ++ Colors.RESET)) ;;
       ret true
     else if actual_failures =? 0 then
       print (String LF (Colors.GREEN
              ++ "[+] Installation completed - all available tools installed successfully"
              ++ Colors.RESET)) ;;
       ret true
     else
       if within_tolerance (failure_rate actual_failures installable_tools) then
         print (String LF (Colors.GREEN ++ "[+] Installation mostly successful ("
                ++ str_of_int successful ++ "/" ++ str_of_int installable_tools
                ++ " available tools installed)" ++ Colors.RESET)) ;;
         ret true
       else
         let error_msg := "Too many installation failures: " ++ str_of_int actual_failures
                          ++ "/" ++ str_of_int installable_tools
                          ++ " installable tools failed" in
         print (String LF (Colors.RED ++ "[!] " ++ error_msg ++ Colors.RESET)) ;;
         (if failed >? 0 then
            print (Colors.RED ++ "[!] Critical failures:" ++ Colors.RESET) ;;
            for_each (firstn 5 (failed_tools sh)) (fun entry => print (failure_line entry)) ;;
            (if failed >? 5 then
               print (Colors.RED ++ "    ... and " ++ str_of_int (failed - 5) ++ " more"
                      ++ Colors.RESET)
             else ret tt)
          else ret tt) ;;
         raise (simple_exn ToolInstallationError error_msg))
    (fun e =>
       let error_msg := "Error during parallel installation: " ++ str_exn e in
       print (String LF (Colors.RED ++ "[!] " ++ error_msg ++ Colors.RESET)) ;;
       raise (simple_exn ToolInstallationError error_msg)).

(** The handlers that close [install_tools] and [update_tools]: the four
    expected classes are raised again, anything else becomes a
    [ToolInstallationError]. *)
Definition reraise_or_wrap (expected : list exn_class) (what : string) (e : exn) : M bool :=
  if existsb (exn_class_eqb (klass e)) expected then raise e
  else
    let error_msg := what ++ str_exn e in
    print (Colors.RED ++ "Error: " ++ error_msg ++ Colors.RESET) ;;
    raise (simple_exn ToolInstallationError error_msg).

(** [if not self.repository_manager.add_repository(): raise RepositoryError(...)] *)
Definition ensure_repository : M unit :=
  print (Colors.CYAN ++ "[*] Checking repositories..." ++ Colors.RESET) ;;
  ok <- host_call_result add_repository ;;
  if (ok : bool) then ret tt
  else raise (simple_exn RepositoryError "Failed to add repository").

Definition install_tools (tools : list string) (skip_confirmation : bool) : M bool :=
  try_except
    (go_on <-
       (if negb skip_confirmation then
          print (Colors.CYAN ++ "[*] You are about to install " ++ Colors.YELLOW
                 ++ str_of_int (len_list tools) ++ Colors.CYAN ++ " tools:" ++ Colors.RESET) ;;
          for_each (enumerate tools 1)
            (fun '(i, tool) =>
               print (Colors.YELLOW ++ "   " ++ str_of_int i ++ ". " ++ tool ++ Colors.RESET)) ;;
          confirm <- host_call_result
                       (safe_input (String LF (Colors.YELLOW
                          ++ "Do you want to continue? [Y/n]: " ++ Colors.RESET))) ;;
          if String.eqb (lower confirm) "n" then
            print (Colors.YELLOW ++ "[*] Installation cancelled." ++ Colors.RESET) ;;
            ret false
          else ret true
        else ret true) ;;
     if negb go_on then ret false
     else
       ensure_repository ;;
       print (Colors.CYAN ++ "[*] Preparing to install " ++ str_of_int (len_list tools)
              ++ " tools..." ++ Colors.RESET) ;;
       if len_list tools <=? 3 then _batch_install_tools tools
       else _parallel_install_tools tools)
    (reraise_or_wrap [RepositoryError; NetworkError; PermissionError; ToolInstallationError]
       "Unexpected error installing tools: ").

End Tools.

Section ToolsRemoveUpdate.
Context {host : Host}.

(** ** Remove *)

Definition _batch_remove_tools (tools : list string) : M bool :=
  print (Colors.CYAN ++ "[*] Removing " ++ str_of_int (len_list tools) ++ " tools..."
         ++ Colors.RESET) ;;
  let tools_str := join " " tools in
  let remove_cmd := "apt remove -y " ++ tools_str in
  r <- run_command remove_cmd true true ;;
  t <- unpack3 r ;;
  let '(result, stdout, stderr) := t in
  if result =? 0 then
    let success_msg := "Successfully removed all tools" in
    print (Colors.GREEN ++ "[+] " ++ success_msg ++ Colors.RESET) ;;
    ret true
  else if str_in "Permission denied" stderr || str_in "requires root privileges" stderr then
    let error_msg := "Permission denied while removing tools. Please run as root." in
    print (Colors.RED ++ "[!] " ++ error_msg ++ Colors.RESET) ;;
    raise (simple_exn PermissionError error_msg)
  else if str_in "Unable to locate package" stderr || str_in "is not installed" stderr then
    let error_msg :=
      match re_search_word_after "Unable to locate package " stderr with
      | Some package => "Package " ++ package ++ " is not installed"
      | None => "Some packages are not installed"
      end in
    print (Colors.YELLOW ++ "[!] " ++ error_msg ++ Colors.RESET) ;;
    ret false
  else
    let error_msg := "Failed to remove some tools" in
    print (Colors.RED ++ "[!] " ++ error_msg ++ Colors.RESET) ;;
    raise (simple_exn ToolInstallationError error_msg).

Definition remove_single_tool (tool_name : string) : M bool :=
  try_except
    (let remove_cmd := "apt remove -y " ++ tool_name in
     r <- run_command remove_cmd true true ;;
     t <- unpack3 r ;;
     let '(result, stdout, stderr) := t in
     modify_shared (fun s => mkShared (completed_tools s + 1) (failed_tools s)
                               (skipped_tools s) (not_installed s) (already_newest s)) ;;
     if negb (result =? 0) then
       if str_in "Unable to locate package" stderr || str_in "is not installed" stderr then
         modify_shared (fun s => mkShared (completed_tools s) (failed_tools s)
                                   (skipped_tools s) (not_installed s + 1)
                                   (already_newest s)) ;;
         ret true
       else
         modify_shared (fun s => mkShared (completed_tools s)
                                   (failed_tools s ++ [(tool_name, stderr)])
                                   (skipped_tools s) (not_installed s) (already_newest s)) ;;
         ret false
     else ret true)
    (fun e =>
       modify_shared (fun s => mkShared (completed_tools s)
                                 (failed_tools s ++ [(tool_name, str_exn e)])
                                 (skipped_tools s) (not_installed s) (already_newest s)) ;;
       ret false).

(** The line printed for one failed tool by the remove and update batches. *)
Definition raw_failure_line (entry : string * string) : string :=
  let '(tool, error) := entry in
  Colors.RED ++ "    - " ++ tool ++ ": " ++ error ++ Colors.RESET.

Definition _parallel_remove_tools (tools : list string) : M bool :=
  print (Colors.CYAN ++ "[*] Removing tools in parallel... This may take a while."
         ++ Colors.RESET) ;;
  let total_tools := len_list tools in
  set_shared fresh_shared ;;
  try_except
    (results <- executor_map remove_single_tool tools ;;
     sh <- get_shared ;;
     if all_bools results then
       if not_installed sh =? len_list tools then
         let info_msg := "None of the specified tools were installed" in
         print (String LF (Colors.YELLOW ++ "[!] " ++ info_msg ++ Colors.RESET)) ;;
         ret false
       else if not_installed sh >? 0 then
         let success_msg := "Successfully removed "
                            ++ str_of_int (len_list tools - not_installed sh)
                            ++ " tools (" ++ str_of_int (not_installed sh)
                            ++ " were not installed)" in
         print (String LF (Colors.GREEN ++ "[+] " ++ success_msg ++ Colors.RESET)) ;;
         ret true
       else
         let success_msg := "Successfully removed all tools" in
         print (String LF (Colors.GREEN ++ "[+] " ++ success_msg ++ Colors.RESET)) ;;
         ret true
     else
       let error_msg := "Failed to remove " ++ str_of_int (len_list (failed_tools sh))
                        ++ " out of " ++ str_of_int total_tools ++ " tools" in
       print (String LF (Colors.RED ++ "[!] " ++ error_msg ++ Colors.RESET)) ;;
       for_each (failed_tools sh) (fun entry => print (raw_failure_line entry)) ;;
       raise (simple_exn ToolInstallationError error_msg))
    (fun e =>
       let error_msg := "Error during parallel removal: " ++ str_exn e in
       print (String LF (Colors.RED ++ "[!] " ++ error_msg ++ Colors.RESET)) ;;
       raise (simple_exn ToolInstallationError error_msg)).

Definition remove_tools (tools : list string) (skip_confirmation : bool) : M bool :=
  try_except
    (go_on <-
       (if negb skip_confirmation then
          print (Colors.RED ++ "[!] Warning: You are about to remove " ++ Colors.YELLOW
                 ++ str_of_int (len_list tools) ++ Colors.RED ++ " tools:" ++ Colors.RESET) ;;
          for_each (enumerate tools 1)
            (fun '(i, tool) =>
               print (Colors.YELLOW ++ "   " ++ str_of_int i ++ ". " ++ tool ++ Colors.RESET)) ;;
          print (Colors.RED ++ "[!] This action cannot be undone." ++ Colors.RESET) ;;
          confirm <- host_call_result
                       (safe_input (String LF (Colors.YELLOW
                          ++ "Are you sure you want to continue? [y/N]: " ++ Colors.RESET))) ;;
          if negb (String.eqb (lower confirm) "y") then
            print (Colors.YELLOW ++ "[*] Removal cancelled." ++ Colors.RESET) ;;
            ret false
          else ret true
        else ret true) ;;
     if negb go_on then ret false
     else if len_list tools <=? 3 then _batch_remove_tools tools
     else _parallel_remove_tools tools)
    (reraise_or_wrap [PermissionError; ToolInstallationError]
       "Unexpected error removing tools: ").

(** ** Update *)

Definition _batch_update_tools (tools : list string) : M bool :=
  let tools_str := join " " tools in
  let update_cmd := "apt install --only-upgrade -y " ++ tools_str in
  print (Colors.CYAN ++ "[*] Updating tools... This may take a while." ++ Colors.RESET) ;;
  r <- run_command update_cmd true true ;;
  t <- unpack3 r ;;
  let '(result, stdout, stderr) := t in
  if result =? 0 then
    let success_msg := "Successfully updated all tools" in
    print (Colors.GREEN ++ "[+] " ++ success_msg ++ Colors.RESET) ;;
    ret true
  else if str_in "Could not resolve" stderr || str_in "Failed to fetch" stderr then
    let error_msg := "Network error while updating tools: Could not fetch packages" in
    print (Colors.RED ++ "[!] " ++ error_msg ++ Colors.RESET) ;;
    raise (simple_exn NetworkError error_msg)
  else if str_in "Permission denied" stderr || str_in "requires root privileges" stderr then
    let error_msg := "Permission denied while updating tools. Please run as root." in
    print (Colors.RED ++ "[!] " ++ error_msg ++ Colors.RESET) ;;
    raise (simple_exn PermissionError error_msg)
  else if str_in "Unable to locate package" stderr then
    let package :=
      match re_search_word_after "Unable to locate package " stderr with
      | Some g => g
      | None => "some packages"
      end in
    let error_msg := "Package " ++ package ++ " not found in the repositories" in
    print (Colors.RED ++ "[!] " ++ error_msg ++ Colors.RESET) ;;
    raise (simple_exn ToolInstallationError error_msg)
  else if str_in "is already the newest version" stderr && str_in "0 upgraded" stderr then
    let info_msg := "All packages are already at their newest version" in
    print (Colors.GREEN ++ "[+] " ++ info_msg ++ Colors.RESET) ;;
    ret true
  else
    let error_msg := "Failed to update some tools" in
    print (Colors.RED ++ "[!] " ++ error_msg ++ Colors.RESET) ;;
    raise (simple_exn ToolInstallationError error_msg).

Definition update_single_tool (tool_name : string) : M bool :=
  try_except
    (let update_cmd := "apt install --only-upgrade -y " ++ tool_name in
     r <- run_command update_cmd true true ;;
     t <- unpack3 r ;;
     let '(result, stdout, stderr) := t in
     modify_shared (fun s => mkShared (completed_tools s + 1) (failed_tools s)
                               (skipped_tools s) (not_installed s) (already_newest s)) ;;
     if negb (result =? 0) then
       if str_in "is already the newest version" stderr then
         modify_shared (fun s => mkShared (completed_tools s) (failed_tools s)
                                   (skipped_tools s) (not_installed s)
                                   (already_newest s + 1)) ;;
         ret true
       else
         modify_shared (fun s => mkShared (completed_tools s)
                                   (failed_tools s ++ [(tool_name, stderr)])
                                   (skipped_tools s) (not_installed s) (already_newest s)) ;;
         ret false
     else ret true)
    (fun e =>
       modify_shared (fun s => mkShared (completed_tools s)
                                 (failed_tools s ++ [(tool_name, str_exn e)])
                                 (skipped_tools s) (not_installed s) (already_newest s)) ;;
       ret false).

Definition _parallel_update_tools (tools : list string) : M bool :=
  print (Colors.CYAN ++ "[*] Updating tools in parallel... This may take a while."
         ++ Colors.RESET) ;;
  let total_tools := len_list tools in
  set_shared fresh_shared ;;
  try_except
    (results <- executor_map update_single_tool tools ;;
     sh <- get_shared ;;
     if all_bools results then
       (if already_newest sh =? len_list tools then
          let info_msg := "All packages are already at their newest version" in
          print (String LF (Colors.GREEN ++ "[+] " ++ info_msg ++ Colors.RESET))
        else
          let success_msg :=
            "Successfully updated all tools"
            ++ (if already_newest sh >? 0
                then " (" ++ str_of_int (already_newest sh)
                     ++ " were already at the newest version)"
                else "") in
          print (String LF (Colors.GREEN ++ "[+] " ++ success_msg ++ Colors.RESET))) ;;
       ret true
     else
       let error_msg := "Failed to update " ++ str_of_int (len_list (failed_tools sh))
                        ++ " out of " ++ str_of_int total_tools ++ " tools" in
       print (String LF (Colors.RED ++ "[!] " ++ error_msg ++ Colors.RESET)) ;;
       for_each (failed_tools sh) (fun entry => print (raw_failure_line entry)) ;;
       raise (simple_exn ToolInstallationError error_msg))
    (fun e =>
       let error_msg := "Error during parallel update: " ++ str_exn e in
       print (String LF (Colors.RED ++ "[!] " ++ error_msg ++ Colors.RESET)) ;;
       raise (simple_exn ToolInstallationError error_msg)).

Definition update_tools (tools : list string) : M bool :=
  try_except
    (ensure_repository ;;
     print (Colors.CYAN ++ "[*] Preparing to update " ++ str_of_int (len_list tools)
            ++ " tools..." ++ Colors.RESET) ;;
     if len_list tools <=? 3 then _batch_update_tools tools
     else _parallel_update_tools tools)
    (reraise_or_wrap [RepositoryError; NetworkError; PermissionError; ToolInstallationError]
       "Unexpected error updating tools: ").

(** ** Queries *)

Definition check_installed (tool_name : string) : M bool :=
  try_except
    (let check_cmd := "dpkg -s " ++ tool_name
                      ++ " 2>/dev/null | grep -q 'Status: install ok installed'" in
     r <- run_command check_cmd false true ;;
     if result_is r 0 then ret true else ret false)
    (fun e =>
       let error_msg := "Error checking if tool " ++ tool_name ++ " is installed: "
                        ++ str_exn e in
       print (Colors.RED ++ "Error: " ++ error_msg ++ Colors.RESET) ;;
       raise (simple_exn ToolInstallationError error_msg)).

End ToolsRemoveUpdate.

(* ===================================================================== *)
(** * core/tools.py: the methods for one tool *)
(* ===================================================================== *)

Section SingleTool.
Context {host : Host}.

Definition remove_tool (tool_name : string) (skip_confirmation : bool) : M bool :=
  try_except
    (go_on <-
       (if negb skip_confirmation then
          print (Colors.RED ++ "[!] Warning: You are about to remove: " ++ Colors.YELLOW
                 ++ tool_name ++ Colors.RESET) ;;
          print (Colors.RED ++ "[!] This action cannot be undone." ++ Colors.RESET) ;;
          confirm <- host_call_result
                       (safe_input (Colors.YELLOW
                          ++ "Are you sure you want to continue? [y/N]: " ++ Colors.RESET)) ;;
          if negb (String.eqb (lower confirm) "y") then
            print (Colors.YELLOW ++ "[*] Removal cancelled." ++ Colors.RESET) ;;
            ret false
          else ret true
        else ret true) ;;
     if negb go_on then ret false
     else
       print (Colors.CYAN ++ "[*] Removing " ++ tool_name ++ "..." ++ Colors.RESET) ;;
       let remove_cmd := "apt remove -y " ++ tool_name in
       r <- run_command remove_cmd true true ;;
       t <- unpack3 r ;;
       let '(result, stdout, stderr) := t in
       if result =? 0 then
         let success_msg := "Successfully removed " ++ tool_name in
         print (Colors.GREEN ++ "[+] " ++ success_msg ++ Colors.RESET) ;;
         ret true
       else if str_in "Permission denied" stderr || str_in "requires root privileges" stderr then
         let error_msg := "Permission denied while removing " ++ tool_name
                          ++ ". Please run as root." in
         print (Colors.RED ++ "[!] " ++ error_msg ++ Colors.RESET) ;;
         raise (simple_exn PermissionError error_msg)
       else if str_in "Unable to locate package" stderr || str_in "is not installed" stderr then
         let error_msg := "Package " ++ tool_name ++ " is not installed" in
         print (Colors.YELLOW ++ "[!] " ++ error_msg ++ Colors.RESET) ;;
         ret false
       else
         let error_msg := "Failed to remove " ++ tool_name in
         print (Colors.RED ++ "[!] " ++ error_msg ++ Colors.RESET) ;;
         raise (simple_exn ToolInstallationError error_msg))
    (reraise_or_wrap [PermissionError; ToolInstallationError]
       ("Unexpected error removing tool " ++ tool_name ++ ": ")).

Definition update_tool (tool_name : string) : M bool :=
  try_except
    (ok <- host_call_result add_repository ;;
     (if (ok : bool) then ret tt
      else raise (simple_exn RepositoryError "Failed to add repository")) ;;
     let update_cmd := "apt install --only-upgrade -y " ++ tool_name in
     r <- run_command update_cmd true true ;;
     t <- unpack3 r ;;
     let '(result, stdout, stderr) := t in
     if result =? 0 then
       let success_msg := "Successfully updated " ++ tool_name in
       print (Colors.GREEN ++ "[+] " ++ success_msg ++ Colors.RESET) ;;
       ret true
     else if str_in "Could not resolve" stderr || str_in "Failed to fetch" stderr then
       let error_msg := "Network error while updating " ++ tool_name
                        ++ ": Could not fetch packages" in
       print (Colors.RED ++ "[!] " ++ error_msg ++ Colors.RESET) ;;
       raise (simple_exn NetworkError error_msg)
     else if str_in "Permission denied" stderr || str_in "requires root privileges" stderr then
       let error_msg := "Permission denied while updating " ++ tool_name
                        ++ ". Please run as root." in
       print (Colors.RED ++ "[!] " ++ error_msg ++ Colors.RESET) ;;
       raise (simple_exn PermissionError error_msg)
     else if str_in "Unable to locate package" stderr then
       let error_msg := "Package " ++ tool_name ++ " not found in the repositories" in
       print (Colors.RED ++ "[!] " ++ error_msg ++ Colors.RESET) ;;
       raise (simple_exn ToolInstallationError error_msg)
     else if str_in "is already the newest version" stderr then
       let info_msg := "Package " ++ tool_name ++ " is already the newest version" in
       print (Colors.GREEN ++ "[+] " ++ info_msg ++ Colors.RESET) ;;
       ret true
     else
       let error_msg := "Failed to update " ++ tool_name in
       print (Colors.RED ++ "[!] " ++ error_msg ++ Colors.RESET) ;;
       raise (simple_exn ToolInstallationError error_msg))
    (reraise_or_wrap [RepositoryError; NetworkError; PermissionError; ToolInstallationError]
       ("Unexpected error updating tool " ++ tool_name ++ ": ")).

End SingleTool.

(* ===================================================================== *)
(** * core/repository.py: refreshing the package lists *)
(* ===================================================================== *)

Section Repository.
Context {host : Host}.

(** [RepositoryManager.update_repositories]: the [RepositoryError] of a
    failed update is raised inside the [try] block, so it passes through
    the last handler, which looks for a network word in its text. *)
Definition update_repositories : M bool :=
  try_except
    (let update_cmd := "apt-get update -m" in
     r <- run_command update_cmd false true ;;
     if result_is r 0 then
       let success_msg := "Repositories updated successfully" in
       print (Colors.GREEN ++ "[+] " ++ success_msg ++ Colors.RESET) ;;
       ret true
     else
       let error_msg := "Failed to update repositories" in
       print (Colors.RED ++ "Error: " ++ error_msg ++ Colors.RESET) ;;
       raise (simple_exn RepositoryError error_msg))
    (fun e =>
       if exn_class_eqb (klass e) PermissionError then
         let error_msg := "Permission denied when updating repositories. Please run as root." in
         print (Colors.RED ++ "Error: " ++ error_msg ++ Colors.RESET) ;;
         raise (simple_exn PermissionError error_msg)
       else if str_in "network" (lower (str_exn e))
               || str_in "connection" (lower (str_exn e))
               || str_in "unreachable" (lower (str_exn e)) then
         let error_msg := "Network error updating repositories: " ++ str_exn e in
         print (Colors.RED ++ "Error: " ++ error_msg ++ Colors.RESET) ;;
         raise (simple_exn NetworkError error_msg)
       else
         let error_msg := "Unexpected error updating repositories: " ++ str_exn e in
         print (Colors.RED ++ "Error: " ++ error_msg ++ Colors.RESET) ;;
         raise (simple_exn RepositoryError error_msg)).

End Repository.

(* ===================================================================== *)
(** * core/utils.py: names of categories and validation of input *)
(* ===================================================================== *)

Definition format_category_name (category_name : string) : string :=
  let category_name := replace "_"%char " " category_name in
  title category_name.

(** The patterns that [validate_input] refuses; they are not those of
    [sanitize_command]. *)
Definition input_dangerous_patterns : list string :=
  [ ";"; "&&"; "||"; "`"; "$(";
    ">"; ">>"; "<";
    "|";
    "rm -rf"; "wget"; "curl";
    "/etc/passwd"; "/etc/shadow" ].

(** The [UserInputError] that [validate_input] raises for [pattern]. *)
Definition input_error (pattern : string) : exn :=
  mkExn UserInputError
    ("Input contains potentially dangerous pattern: " ++ pattern)
    (Some ("The pattern '" ++ pattern ++ "' could be used for command injection"))
    (Some "Please remove special characters and shell commands from your input").

(** The [for pattern in dangerous_patterns] loop of [validate_input]. *)
Fixpoint input_scan (patterns : list string) (user_input : string) : result string :=
  match patterns with
  | [] => Ret user_input
  | pattern :: rest =>
      if str_in pattern user_input then Raise (input_error pattern)
      else input_scan rest user_input
  end.

Section Validation.

(** [re.match(pattern, text)]: whether there is a match at the start of
    the text; the call raises on a pattern that is no regular expression. *)
Variable re_match : string -> string -> result bool.

Definition validate_input (user_input : string)
    (allowed_chars disallowed_chars : option string)
    (max_length : option Z) (pattern : option string) : result string :=
  if negb (truthy user_input) then Ret user_input
  else
    let too_long :=
      match max_length with
      | Some n => negb (n =? 0) && (len user_input >? n)
      | None => false
      end in
    if too_long then
      let n := match max_length with Some n => n | None => 0 end in
      Raise (mkExn UserInputError
               ("Input exceeds maximum length of " ++ str_of_int n ++ " characters")
               None
               (Some ("Please limit your input to " ++ str_of_int n ++ " characters")))
    else
      let matched :=
        match pattern with
        | Some p => if truthy p then re_match p user_input else Ret true
        | None => Ret true
        end in
      match matched with
      | Raise e => Raise e
      | Ret false =>
          let p := match pattern with Some p => p | None => "" end in
          Raise (mkExn UserInputError "Input contains invalid characters or format"
                   None (Some ("Input must match the pattern: " ++ p)))
      | Ret true =>
          let user_input :=
            match allowed_chars with
            | Some allowed =>
                if truthy allowed
                then keep_chars (fun c => char_in c allowed) user_input
                else user_input
            | None => user_input
            end in
          let user_input :=
            match disallowed_chars with
            | Some disallowed =>
                if truthy disallowed
                then keep_chars (fun c => negb (char_in c disallowed)) user_input
                else user_input
            | None => user_input
            end in
          input_scan input_dangerous_patterns user_input
      end.

End Validation.

(* ===================================================================== *)
(** * core/cache.py *)
(* ===================================================================== *)

(** The values that the cached methods of [ToolManager] return and find in
    their cache files: [None] (JSON [null]), a [str], or a [dict] from
    strings to strings, in the order of insertion. *)
Inductive pyval : Type :=
| PNone
| PStr (s : string)
| PDict (d : list (string * string)).

(** [v is None] *)
Definition is_none (v : pyval) : bool :=
  match v with PNone => true | _ => false end.

(** Truth value of a value: [if v:]. *)
Definition truthy_val (v : pyval) : bool :=
  match v with
  | PNone => false
  | PStr s => truthy s
  | PDict [] => false
  | PDict (_ :: _) => true
  end.

(** [d[key] = value]: an existing key keeps its place. *)
Fixpoint dict_set {V} (d : list (string * V)) (key : string) (value : V)
  : list (string * V) :=
  match d with
  | [] => [(key, value)]
  | (k, v) :: rest =>
      if String.eqb k key then (k, value) :: rest
      else (k, v) :: dict_set rest key value
  end.

(** What the [try] block of [Cache.get] makes of a cache file: the object
    that [json.load] gives, seen through [.get('timestamp', 0)] and
    [.get('value')]; or [Unreadable] when the block raises (the file cannot
    be opened, is no JSON object, or its time stamp is no number). *)
Inductive cache_file : Type :=
| Document (timestamp : option Q) (value : option pyval)
| Unreadable.

(** The file system and the clock.  Reading the clock and reading a file
    leave the world as it is; [json_dump] stands for
    [with open(path, 'w') as f: json.dump({'timestamp': .., 'value': ..}, f)]
    and says whether it went through.  Times are rationals and their
    difference is exact; binary64 can only differ from it for an age within
    one rounding step of the time to live. *)
Class Disk (host : Host) : Type := {
  time_time : World -> Q;
  path_exists : string -> World -> bool;
  json_load : string -> World -> cache_file;
  json_dump : string -> Q -> pyval -> World -> bool * World
}.

(** [a > b] on rationals. *)
Definition Qgt_bool (a b : Q) : bool := negb (Qle_bool a b).

Module Cache.

(** The attributes of a [Cache] once [__init__] is over: the directory
    (the one asked for, or [/tmp] when it could not be created) and the
    time to live in seconds. *)
Record t : Type := mk {
  cache_dir : string;
  ttl : Z
}.

Definition _get_cache_path (self : t) (key : string) : string :=
  let safe_key := map_chars (fun c => if isalnum c then c else "_"%char) key in
  path_join (cache_dir self) (safe_key ++ ".json").

Section Methods.
Context {host : Host} {disk : Disk host}.

(** A call into the host that reads the world. *)
Definition host_read {A} (f : World -> A) : M A :=
  fun st => (Ret (f (world st)), st).

Definition get (self : t) (key : string) (default : pyval) : M pyval :=
  let cache_path := _get_cache_path self key in
  present <- host_read (path_exists cache_path) ;;
  if negb present then ret default
  else
    cache_data <- host_read (json_load cache_path) ;;
    match cache_data with
    | Document timestamp value =>
        now <- host_read time_time ;;
        let timestamp := match timestamp with Some t => t | None => 0%Q end in
        if Qgt_bool (now - timestamp) (inject_Z (ttl self)) then ret default
        else ret (match value with Some v => v | None => PNone end)
    | Unreadable => ret default
    end.

Definition set (self : t) (key : string) (value : pyval) : M bool :=
  let cache_path := _get_cache_path self key in
  now <- host_read time_time ;;
  host_call (json_dump cache_path now value).

End Methods.
End Cache.

Section Cached.
Context {host : Host} {disk : Disk host}.

(** The wrapper that [@cached(ttl, key_prefix)] puts around [func], called
    with the positional arguments [args] (their [str]) and no keyword
    argument, as everywhere in the repository; [cache] is the [Cache] that
    the decorator built. *)
Definition cached (cache : Cache.t) (key_prefix func_name : string)
    (args : list string) (func : M pyval) : M pyval :=
  let key_parts := ([key_prefix; func_name] ++ args)%list in
  let cache_key := join ":" key_parts in
  cached_result <- Cache.get cache cache_key PNone ;;
  if negb (is_none cached_result) then ret cached_result
  else
    result <- func ;;
    Cache.set cache cache_key result ;;
    ret result.

End Cached.

(* ===================================================================== *)
(** * core/tools.py: versions, updates and the installation of one tool *)
(* ===================================================================== *)

(** [line.split(":", 1)[1].strip()] *)
Definition field_of (line : string) : result string :=
  match split_once ":"%char line with
  | _ :: value :: _ => Ret (strip value)
  | _ => Raise (simple_exn OtherException "list index out of range")
  end.

(** The body of the [for line in stdout.splitlines()] loop of
    [get_tool_info], on the variables [info], [description_lines] and
    [in_description]. *)
Definition tool_info_line (vars : list (string * string) * list string * bool)
    (line : string) : result (list (string * string) * list string * bool) :=
  let '(info, description_lines, in_description) := vars in
  if startswith "Package:" line then
    match field_of line with
    | Ret value => Ret (dict_set info "name" value, description_lines, in_description)
    | Raise e => Raise e
    end
  else if startswith "Version:" line then
    match field_of line with
    | Ret value => Ret (dict_set info "version" value, description_lines, in_description)
    | Raise e => Raise e
    end
  else if startswith "Description:" line then
    match field_of line with
    | Ret value => Ret (info, (description_lines ++ [value])%list, true)
    | Raise e => Raise e
    end
  else if startswith " " line && in_description then
    Ret (info, (description_lines ++ [strip line])%list, in_description)
  else if startswith "Homepage:" line then
    match field_of line with
    | Ret value => Ret (dict_set info "homepage" value, description_lines, false)
    | Raise e => Raise e
    end
  else if negb (truthy (strip line)) then
    Ret (info, description_lines, false)
  else Ret vars.

Fixpoint tool_info_lines (lines : list string)
    (vars : list (string * string) * list string * bool)
  : result (list (string * string) * list string * bool) :=
  match lines with
  | [] => Ret vars
  | line :: rest =>
      match tool_info_line vars line with
      | Ret vars' => tool_info_lines rest vars'
      | Raise e => Raise e
      end
  end.

(** The parsing part of [get_tool_info]: from the output of
    [apt-cache show] to the dictionary. *)
Definition parse_tool_info (stdout : string) : result (list (string * string)) :=
  match tool_info_lines (splitlines stdout) ([], [], false) with
  | Ret (info, description_lines, _) =>
      match description_lines with
      | [] => Ret info
      | _ :: _ => Ret (dict_set info "description" (join " " description_lines))
      end
  | Raise e => Raise e
  end.

(** One value of the dictionary that [check_for_updates] returns. *)
Record update_entry : Type := mkEntry {
  installed_version : pyval;
  available_version : pyval;
  status : string
}.

Section Queries.
Context {host : Host} {disk : Disk host}.

(** [str(self)] for the [ToolManager], the directories of the caches that
    the two decorators built, and [textwrap.wrap(text, width)]. *)
Variable self_str : string.
Variables version_dir info_dir : string.
Variable textwrap_wrap : string -> Z -> list string.

(** [get_installed_version] before it is decorated. *)
Definition get_installed_version_wrapped (tool_name : string) : M pyval :=
  try_except
    (installed <- check_installed tool_name ;;
     if negb installed then ret PNone
     else
       let version_cmd := "dpkg-query -W -f='${Version}' " ++ tool_name ++ " 2>/dev/null" in
       r <- run_command version_cmd true true ;;
       t <- unpack3 r ;;
       let '(result, stdout, stderr) := t in
       if (result =? 0) && truthy stdout then
         let version := strip stdout in
         ret (PStr version)
       else ret PNone)
    (fun e => ret PNone).

Definition get_installed_version (tool_name : string) : M pyval :=
  cached (Cache.mk version_dir 3600) "tool_version" "get_installed_version"
    [self_str; tool_name] (get_installed_version_wrapped tool_name).

(** The worker of [check_for_updates]. *)
Definition check_tool_update (tool_name : string) : M (string * update_entry) :=
  installed_version <- get_installed_version tool_name ;;
  if is_none installed_version then
    ret (tool_name, mkEntry PNone PNone "not_installed")
  else
    let check_cmd := "apt-get --simulate --quiet upgrade | grep -q '^Inst "
                     ++ tool_name ++ " '" in
    result <- run_command check_cmd false true ;;
    if result_is result 0 then
      let version_cmd := "apt-cache policy " ++ tool_name
                         ++ " | grep 'Candidate:' | awk '{print $2}'" in
      r <- run_command version_cmd true true ;;
      t <- unpack3 r ;;
      let '(_, available_version, _) := t in
      let available_version := strip available_version in
      ret (tool_name, mkEntry installed_version (PStr available_version) "update_available")
    else
      ret (tool_name, mkEntry installed_version installed_version "up_to_date").

(** [for tool_name, info in results: update_info[tool_name] = info] *)
Fixpoint collect (results : list (string * update_entry))
    (update_info : list (string * update_entry)) : list (string * update_entry) :=
  match results with
  | [] => update_info
  | (tool_name, info) :: rest => collect rest (dict_set update_info tool_name info)
  end.

(** [check_for_updates(tools)]; [None] is the default of [tools]. *)
Definition check_for_updates (tools : option (list string))
  : M (list (string * update_entry)) :=
  let update_info := [] in
  try_except
    (tools <-
       match tools with
       | None =>
           let list_cmd := "dpkg-query -W -f='${Package}\n'" in
           r <- run_command list_cmd true true ;;
           t <- unpack3 r ;;
           let '(result, stdout, stderr) := t in
           if result =? 0 then
             ret (Some (map strip (filter (fun line => truthy (strip line))
                                          (splitlines stdout))))
           else
             let error_msg := "Failed to get list of installed packages" in
             print (Colors.RED ++ "[!] " ++ error_msg ++ Colors.RESET) ;;
             ret None
       | Some tools => ret (Some tools)
       end ;;
     match tools with
     | None => ret []
     | Some tools =>
         print (Colors.CYAN ++ "[*] Updating package lists..." ++ Colors.RESET) ;;
         let update_cmd := "apt update -qq" in
         run_command update_cmd false true ;;
         print (Colors.CYAN ++ "[*] Checking for updates to "
                ++ str_of_int (len_list tools) ++ " tools..." ++ Colors.RESET) ;;
         results <- executor_map check_tool_update tools ;;
         ret (collect results update_info)
     end)
    (fun e =>
       let error_msg := "Error checking for updates: " ++ str_exn e in
       print (Colors.RED ++ "[!] " ++ error_msg ++ Colors.RESET) ;;
       ret []).

(** [get_tool_info] before it is decorated. *)
Definition get_tool_info_wrapped (tool_name : string) : M pyval :=
  try_except
    (let info_cmd := "apt-cache show " ++ tool_name in
     r <- run_command info_cmd true true ;;
     t <- unpack3 r ;;
     let '(result, stdout, stderr) := t in
     if negb (result =? 0) then
       let error_msg := "Error getting information for tool " ++ tool_name in
       print (Colors.RED ++ "[!] " ++ error_msg ++ Colors.RESET) ;;
       ret (PDict [])
     else
       info <- lift_result (parse_tool_info stdout) ;;
       ret (PDict info))
    (fun e =>
       let error_msg := "Error getting information for tool " ++ tool_name ++ ": "
                        ++ str_exn e in
       print (Colors.RED ++ "Error: " ++ error_msg ++ Colors.RESET) ;;
       ret (PDict [])).

Definition get_tool_info (tool_name : string) : M pyval :=
  cached (Cache.mk info_dir 3600) "tool_info" "get_tool_info"
    [self_str; tool_name] (get_tool_info_wrapped tool_name).

Definition install_tool (tool_name : string) (skip_confirmation : bool) : M bool :=
  try_except
    (go_on <-
       (if negb skip_confirmation then
          print (Colors.CYAN ++ "[*] Fetching information about " ++ Colors.YELLOW
                 ++ tool_name ++ Colors.CYAN ++ "..." ++ Colors.RESET) ;;
          tool_info <- get_tool_info tool_name ;;
          (if truthy_val tool_info then
             print (String LF (Colors.CYAN ++ box_top)) ;;
             print ("║" ++ Colors.YELLOW ++ " Tool Information " ++ Colors.CYAN ++ "║") ;;
             print (box_bottom ++ Colors.RESET ++ String LF "") ;;
             match tool_info with
             | PDict d =>
                 print (Colors.GREEN ++ "Name:" ++ Colors.RESET ++ " "
                        ++ match dict_get d "name" with
                           | Some name => name
                           | None => tool_name
                           end) ;;
                 match dict_get d "version" with
                 | Some version =>
                     print (Colors.GREEN ++ "Version:" ++ Colors.RESET ++ " " ++ version)
                 | None => ret tt
                 end ;;
                 match dict_get d "description" with
                 | Some description =>
                     print (Colors.GREEN ++ "Description:" ++ Colors.RESET) ;;
                     for_each (textwrap_wrap description 70)
                       (fun line => print ("  " ++ line))
                 | None => ret tt
                 end ;;
                 match dict_get d "homepage" with
                 | Some homepage =>
                     print (Colors.GREEN ++ "Homepage:" ++ Colors.RESET ++ " " ++ homepage)
                 | None => ret tt
                 end ;;
                 print ""
             | _ =>
                 raise (simple_exn OtherException "'str' object has no attribute 'get'")
             end
           else
             print (Colors.YELLOW ++ "[!] Could not fetch detailed information about "
                    ++ tool_name ++ "." ++ Colors.RESET ++ String LF "")) ;;
          confirm <- host_call_result
                       (safe_input (Colors.YELLOW
                          ++ "Do you want to install this tool? [Y/n]: " ++ Colors.RESET)) ;;
          if String.eqb (lower confirm) "n" then
            print (Colors.YELLOW ++ "[*] Installation cancelled." ++ Colors.RESET) ;;
            ret false
          else ret true
        else ret true) ;;
     if negb go_on then ret false
     else
       ensure_repository ;;
       print (Colors.CYAN ++ "[*] Installing " ++ tool_name
              ++ "... This may take a while." ++ Colors.RESET) ;;
       let install_cmd := "apt install -y " ++ tool_name in
       r <- run_command install_cmd true true ;;
       t <- unpack3 r ;;
       let '(result, stdout, stderr) := t in
       if result =? 0 then
         let success_msg := "Successfully installed " ++ tool_name in
         print (Colors.GREEN ++ "[+] " ++ success_msg ++ Colors.RESET) ;;
         let check_cmd := "which " ++ tool_name ++ " 2>/dev/null" in
         cmd_result <- run_command check_cmd false true ;;
         (if result_is cmd_result 0 then
            print (Colors.GREEN ++ "[+] You can now run the tool using: " ++ Colors.YELLOW
                   ++ tool_name ++ " [options]" ++ Colors.RESET)
          else ret tt) ;;
         ret true
       else if str_in "Could not resolve" stderr || str_in "Failed to fetch" stderr then
         let error_msg := "Network error while installing " ++ tool_name
                          ++ ": Could not fetch packages" in
         print (Colors.RED ++ "[!] " ++ error_msg ++ Colors.RESET) ;;
         raise (simple_exn NetworkError error_msg)
       else if str_in "Permission denied" stderr || str_in "requires root privileges" stderr then
         let error_msg := "Permission denied while installing " ++ tool_name
                          ++ ". Please run as root." in
         print (Colors.RED ++ "[!] " ++ error_msg ++ Colors.RESET) ;;
         raise (simple_exn PermissionError error_msg)
       else if str_in "Unable to locate package" stderr then
         let error_msg := "Package " ++ tool_name ++ " not found in the repositories" in
         print (Colors.RED ++ "[!] " ++ error_msg ++ Colors.RESET) ;;
         raise (simple_exn ToolInstallationError error_msg)
       else
         let error_msg := "Failed to install " ++ tool_name in
         print (Colors.RED ++ "[!] " ++ error_msg ++ Colors.RESET) ;;
         raise (simple_exn ToolInstallationError error_msg))
    (reraise_or_wrap [RepositoryError; NetworkError; PermissionError; ToolInstallationError]
       ("Unexpected error installing tool " ++ tool_name ++ ": ")).

End Queries.

(* ===================================================================== *)
(** * core/utils.py: the prompt *)
(* ===================================================================== *)

(** What [input(prompt)] does: a line is typed, the user interrupts
    ([KeyboardInterrupt]), or the input is at its end ([EOFError], with its
    text). *)
Inductive typed : Type :=
| Typed (line : string)
| Interrupted
| EndOfInput (text : string).

Class Terminal (host : Host) : Type := {
  input : string -> World -> typed * World
}.

Module Prompt.
Section SafeInput.
Context {host : Host} {terminal : Terminal host}.
Variable re_match : string -> string -> result bool.

Definition safe_input (prompt : string) (default : option string)
    (allowed_chars disallowed_chars : option string)
    (max_length : option Z) (pattern : option string) : M string :=
  line <- host_call (input prompt) ;;
  match line with
  | Typed user_input =>
      validated_input <-
        lift_result (validate_input re_match user_input allowed_chars disallowed_chars
                       max_length pattern) ;;
      (if negb (String.eqb validated_input user_input) then
         print (Colors.YELLOW ++ "Note: Your input was sanitized for security reasons."
                ++ Colors.RESET)
       else ret tt) ;;
      ret validated_input
  | Interrupted =>
      let message := "Operation cancelled by user." in
      print (String LF message) ;;
      ret (match default with Some d => d | None => "" end)
  | EndOfInput text =>
      let error_msg := "Error reading input from user" in
      raise (mkExn UserInputError error_msg (Some text)
               (Some "Try again or check your terminal settings"))
  end.

End SafeInput.
End Prompt.

(* ===================================================================== *)
(** * core/ui.py: the categories of [CategoryManager] *)
(* ===================================================================== *)

(** The data of a category: its name and its tools. *)
Definition category : Type := (string * list string)%type.

(** [d[key]] when [key in d], for a dictionary with integer keys. *)
Fixpoint int_dict_get {V} (d : list (Z * V)) (key : Z) : option V :=
  match d with
  | [] => None
  | (k, v) :: rest => if Z.eqb k key then Some v else int_dict_get rest key
  end.

(** [key in d] *)
Definition int_dict_mem {V} (d : list (Z * V)) (key : Z) : bool :=
  match int_dict_get d key with Some _ => true | None => false end.

(** [d[key] = value] *)
Fixpoint int_dict_set {V} (d : list (Z * V)) (key : Z) (value : V) : list (Z * V) :=
  match d with
  | [] => [(key, value)]
  | (k, v) :: rest =>
      if Z.eqb k key then (k, value) :: rest
      else (k, v) :: int_dict_set rest key value
  end.

(** [max(d.keys()) if d else 0] *)
Definition max_key {V} (d : list (Z * V)) : Z :=
  match d with
  | [] => 0
  | (k, _) :: rest => fold_left Z.max (map fst rest) k
  end.

(** The body of the loop that [CategoryManager.__init__] runs over the
    categories of the plugins, on [self.categories] and [max_id]. *)
Definition add_plugin_category (vars : list (Z * category) * Z) (item : Z * category)
  : list (Z * category) * Z :=
  let '(categories, max_id) := vars in
  let '(plugin_id, category_data) := item in
  let new_id := if negb (int_dict_mem categories plugin_id) then plugin_id
                else max_id + 1 in
  let categories := int_dict_set categories new_id category_data in
  if negb (new_id =? plugin_id) then (categories, new_id) else (categories, max_id).

(** The merge of the categories of the plugins into the built-in ones, as
    [CategoryManager.__init__] does it: the value of [self.categories]. *)
Definition merge_plugin_categories (categories plugin_categories : list (Z * category))
  : list (Z * category) :=
  let max_id := max_key categories in
  fst (fold_left add_plugin_category plugin_categories (categories, max_id)).

(* ===================================================================== *)
(** * Concrete hosts for the scenarios *)
(* ===================================================================== *)

(** A host whose package manager answers every command by a fixed function
    of the command line.  Its world is the list of the commands that were
    run, oldest first; the prompt answers [reply] and the repository is in
    place. *)
Definition scripted_host (reply : string) (answer : string -> completed) : Host :=
  {| World := list string;
     subprocess_run := fun command w => (answer command, (w ++ [command])%list);
     safe_input := fun _ w => (Ret reply, w);
     add_repository := fun w => (Ret true, w) |}.

(** The start of a run on a scripted host: nothing run, nothing printed. *)
Definition boot (reply : string) (answer : string -> completed)
  : @State (scripted_host reply answer) :=
  @mkState (scripted_host reply answer) [] [] fresh_shared.

(** Answers given by a table of command lines, with a default. *)
Definition answers (table : list (string * completed)) (default : completed)
  (command : string) : completed :=
  match dict_get table command with
  | Some c => c
  | None => default
  end.

(** The answer of a command that succeeds silently. *)
Definition ok : completed := Completed 0 "" "".

(** The error text of a package whose installation fails in [dpkg]. *)
Definition dpkg_failure : string :=
  "E: Sub-process /usr/bin/dpkg returned an error code (1)".

(** The answer of a shell that does not know the command. *)
Definition not_found : completed := Completed 127 "" "sh: 1: command not found".

(** A package manager for the install scenarios.  [apt install -y p1 .. pn]
    cannot locate the first package that is neither in [available] nor in
    [broken]; otherwise it fails in [dpkg] when one of the packages is in
    [broken], and succeeds when all of them are in [available].  Any other
    command line is not found by the shell. *)
Definition apt_install_like (available broken : list string) (command : string)
  : completed :=
  match drop_prefix "apt install -y " command with
  | Some packages =>
      let names := split " "%char packages in
      let known name := existsb (String.eqb name) (available ++ broken)%list in
      match find (fun name => negb (known name)) names with
      | Some missing => Completed 100 "" ("E: Unable to locate package " ++ missing)
      | None =>
          if existsb (fun name => existsb (String.eqb name) broken) names
          then Completed 100 "" dpkg_failure
          else ok
      end
  | None => not_found
  end.

(** Four tools, the last of which no repository has. *)
Definition fake_pkg_tools : list string :=
  ["nmap"; "wireshark"; "sqlmap"; "totally-fake-pkg-xyz"].
Definition fake_pkg_apt : string -> completed :=
  apt_install_like ["nmap"; "wireshark"; "sqlmap"] [].

(** Ten tools, four of which fail in [dpkg]. *)
Definition ten_tools : list string :=
  ["nmap"; "wireshark"; "sqlmap"; "hydra"; "john"; "nikto"; "aircrack-ng";
   "burpsuite"; "metasploit-framework"; "maltego"].
Definition ten_tools_apt : string -> completed :=
  apt_install_like ["nmap"; "wireshark"; "sqlmap"; "john"; "aircrack-ng";
                    "metasploit-framework"]
                   ["hydra"; "nikto"; "burpsuite"; "maltego"].

(** Four tools: two that no repository has, two that fail in [dpkg]. *)
Definition two_two_tools : list string := ["dnmap"; "golismero"; "hydra"; "nikto"].
Definition two_two_apt : string -> completed :=
  apt_install_like [] ["hydra"; "nikto"].

(** Four tools, the first of which is only packaged under another name. *)
Definition renamed_tools : list string := ["enum4linux"; "nmap"; "wireshark"; "sqlmap"].
Definition renamed_apt : string -> completed :=
  apt_install_like ["enum4linux-ng"; "nmap"; "wireshark"; "sqlmap"] [].

(** The three tools of the small-batch scenario. *)
Definition three_tools : list string := ["nmap"; "wireshark"; "totally-fake-pkg-xyz"].
Definition three_tools_apt : string -> completed :=
  apt_install_like ["nmap"; "wireshark"] [].

(** Removing [foo], which is not installed: the package manager reports it
    and fails; reports it and fails on the lock file as well; or reports it
    and exits with code 0. *)
Definition foo_absent : string -> completed :=
  answers [("apt remove -y foo",
            Completed 100 "" "E: Package 'foo' is not installed, so not removed")]
          not_found.

Definition foo_absent_locked : string -> completed :=
  answers [("apt remove -y foo",
            Completed 100 ""
              ("W: Package 'foo' is not installed, so not removed"
               ++ String LF
                    "E: Could not open lock file /var/lib/dpkg/lock-frontend - open (13: Permission denied)"))]
          not_found.

Definition foo_absent_exit0 : string -> completed :=
  answers [("apt remove -y foo",
            Completed 0 "" "W: Package 'foo' is not installed, so not removed")]
          not_found.

(** Removing four tools: none of them is installed; or one of them is
    unknown to the package manager. *)
Definition remove_four : list string := ["nmap"; "wireshark"; "sqlmap"; "ghost-tool"].

Definition none_installed : string -> completed :=
  fun _ => Completed 100 "" "E: The package is not installed, so not removed".

Definition one_unknown : string -> completed :=
  answers [("apt remove -y nmap", ok); ("apt remove -y wireshark", ok);
           ("apt remove -y sqlmap", ok);
           ("apt remove -y ghost-tool",
            Completed 100 "" "E: Unable to locate package ghost-tool")]
          not_found.

(** Upgrading four tools: one is already the newest version, one makes
    [dpkg] fail. *)
Definition update_four : list string := ["nmap"; "wireshark"; "sqlmap"; "hydra"].

Definition one_newest_one_broken : string -> completed :=
  answers [("apt install --only-upgrade -y nmap", ok);
           ("apt install --only-upgrade -y wireshark",
            Completed 100 "" "wireshark is already the newest version (4.2.2-1).");
           ("apt install --only-upgrade -y sqlmap", ok);
           ("apt install --only-upgrade -y hydra", Completed 100 "" dpkg_failure)]
          not_found.

(** Upgrading [nmap] alone: the package manager fails and only says that
    the package is already the newest version. *)
Definition newest_and_failed : string -> completed :=
  answers [("apt install --only-upgrade -y nmap",
            Completed 100 "" "nmap is already the newest version (7.94+git20230807).")]
          not_found.

(** Removing four tools, one of which makes [dpkg] fail. *)
Definition one_interrupted : string -> completed :=
  answers [("apt remove -y nmap", ok); ("apt remove -y wireshark", ok);
           ("apt remove -y sqlmap", Completed 100 "" dpkg_failure);
           ("apt remove -y ghost-tool", ok)]
          not_found.

(** A command whose two output streams come with white space around them. *)
Definition padded_output : string -> completed :=
  fun _ => Completed 0 ("  Setting up nmap (7.94) ..." ++ String LF "")
                       (String LF " W: Some index files failed to download. ").

(** A matcher for [re.match] that accepts every text. *)
Definition match_anything : string -> string -> result bool := fun _ _ => Ret true.

(** A host with a file system in memory.  Its world holds the commands that
    were run, oldest first, the cache files by path, and the time of the
    clock; the answer of a command may depend on the world in which it is
    run.  [json_dump] always goes through. *)
Record ram : Type := mkRam {
  ran : list string;
  files : list (string * cache_file);
  clock : Q
}.

Definition ram_host (reply : string) (answer : ram -> string -> completed) : Host :=
  {| World := ram;
     subprocess_run := fun command w =>
       (answer w command, mkRam (ran w ++ [command]) (files w) (clock w));
     safe_input := fun _ w => (Ret reply, w);
     add_repository := fun w => (Ret true, w) |}.

Definition ram_disk (reply : string) (answer : ram -> string -> completed)
  : Disk (ram_host reply answer) :=
  Build_Disk (ram_host reply answer)
    (fun w : ram => clock w)
    (fun path (w : ram) =>
       match dict_get (files w) path with Some _ => true | None => false end)
    (fun path (w : ram) =>
       match dict_get (files w) path with Some file => file | None => Unreadable end)
    (fun path timestamp value (w : ram) =>
       (true, mkRam (ran w)
                (dict_set (files w) path (Document (Some timestamp) (Some value)))
                (clock w))).

(** A terminal at which the same thing happens at every prompt. *)
Definition fixed_terminal (host : Host) (what : typed) : Terminal host :=
  Build_Terminal host (fun _ w => (what, w)).

(** [textwrap.wrap] for a text that fits on one line. *)
Definition one_line : string -> Z -> list string := fun text _ => [text].

#[export] Existing Instance ram_disk.

(** The start of a run on that host: nothing run, no file, the clock at 0. *)
Definition ram_boot (reply : string) (answer : ram -> string -> completed)
  : @State (ram_host reply answer) :=
  @mkState (ram_host reply answer) (mkRam [] [] 0) [] fresh_shared.

(** The same run some seconds later. *)
Definition ram_later (reply : string) (answer : ram -> string -> completed) (seconds : Q)
    (st : @State (ram_host reply answer)) : @State (ram_host reply answer) :=
  @mkState (ram_host reply answer)
    (mkRam (ran (world st)) (files (world st)) (clock (world st) + seconds))
    (console st) (shared st).

(** What [apt-cache show ghost-phisher] prints. *)
Definition ghost_phisher_record : string :=
  "Package: ghost-phisher" ++ String LF
  ("Version: 1.64-1kali2" ++ String LF
  ("Description: GUI suite for phishing and penetration attacks" ++ String LF
  ("Homepage: https://github.com/savio-code/ghost-phisher"))).

(** A package index that knows [ghost-phisher] and nothing else. *)
Definition knows_ghost_phisher : ram -> string -> completed :=
  fun _ command =>
    if String.eqb command "apt-cache show ghost-phisher"
    then Completed 0 ghost_phisher_record ""
    else Completed 100 "" "E: No packages found".

(** A package index that cannot be reached by the first command and
    answers from the second command on. *)
Definition down_at_first : ram -> string -> completed :=
  fun w command =>
    match ran w with
    | [] => Completed 100 "" "E: Failed to fetch the package lists"
    | _ :: _ => knows_ghost_phisher w command
    end.

(* ===================================================================== *)
(** * Vocabulary of the statements *)
(* ===================================================================== *)

(** [p] occurs in [s]. *)
Definition is_substring (p s : string) : Prop := exists a b, s = a ++ p ++ b.

Section Vocabulary.
Context {host : Host}.

(** [m] does not write the variables shared by the workers. *)
Definition keeps_shared {A} (m : M A) : Prop :=
  forall st, shared (snd (m st)) = shared st.

(** [m] always returns. *)
Definition never_raises {A} (m : M A) : Prop :=
  forall st, exists a st', m st = (Ret a, st').

(** The updates that the workers make to the shared variables. *)
Definition count_completed (st : State) : State :=
  mkState (world st) (console st)
    (mkShared (completed_tools (shared st) + 1) (failed_tools (shared st))
       (skipped_tools (shared st)) (not_installed (shared st)) (already_newest (shared st))).

Definition add_failed (entry : string * string) (st : State) : State :=
  mkState (world st) (console st)
    (mkShared (completed_tools (shared st)) (failed_tools (shared st) ++ [entry])
       (skipped_tools (shared st)) (not_installed (shared st)) (already_newest (shared st))).

Definition add_skipped (entry : string * string) (st : State) : State :=
  mkState (world st) (console st)
    (mkShared (completed_tools (shared st)) (failed_tools (shared st))
       (skipped_tools (shared st) ++ [entry]) (not_installed (shared st))
       (already_newest (shared st))).

Definition count_not_installed (st : State) : State :=
  mkState (world st) (console st)
    (mkShared (completed_tools (shared st)) (failed_tools (shared st))
       (skipped_tools (shared st)) (not_installed (shared st) + 1)
       (already_newest (shared st))).

Definition count_already_newest (st : State) : State :=
  mkState (world st) (console st)
    (mkShared (completed_tools (shared st)) (failed_tools (shared st))
       (skipped_tools (shared st)) (not_installed (shared st))
       (already_newest (shared st) + 1)).

(** The names of the tools that [failed_tools] holds. *)
Definition failed_names (st : State) : list string := map fst (failed_tools (shared st)).

(** The names of the tools that [skipped_tools] holds. *)
Definition skipped_names (st : State) : list string := map fst (skipped_tools (shared st)).

(** What a worker of a batch does to the failure list: it returns [True]
    and leaves the list alone, or returns [False] and appends its tool. *)
Definition worker_step (worker : string -> M bool) : Prop :=
  forall tool st,
    exists b st',
      worker tool st = (Ret b, st') /\
      (if b then failed_tools (shared st') = failed_tools (shared st)
       else exists error,
           failed_tools (shared st') = (failed_tools (shared st) ++ [(tool, error)])%list).

(** The tools of a batch whose worker returned [False], in order. *)
Fixpoint failures_of (tools : list string) (results : list bool) : list string :=
  match tools, results with
  | tool :: tools', r :: results' =>
      if r then failures_of tools' results' else tool :: failures_of tools' results'
  | _, _ => []
  end.

(** [m] prints and does nothing else. *)
Definition prints_only (m : M unit) : Prop :=
  forall st, exists lines,
    m st = (Ret tt, mkState (world st) (console st ++ lines) (shared st)).

(** The message of the error raised when too many installations failed. *)
Definition too_many (failed installable : Z) : string :=
  "Too many installation failures: " ++ str_of_int failed ++ "/" ++ str_of_int installable
  ++ " installable tools failed".

(** The verdict of [_parallel_install_tools] as a function of the three
    numbers it compares, with the tolerance written on integers. *)
Definition install_verdict (successful failed installable : Z) : result bool :=
  if installable =? 0 then Ret false
  else if successful =? installable then Ret true
  else if failed =? 0 then Ret true
  else if 10 * failed <=? 3 * installable then Ret true
  else Raise (simple_exn ToolInstallationError
                ("Error during parallel installation: " ++ too_many failed installable)).

(** The state in which the workers of [_parallel_install_tools] start. *)
Definition install_start (st : State) : State :=
  mkState (world st)
    (console st ++ [Colors.CYAN ++ "[*] Installing tools in parallel... This may take a while."
                    ++ Colors.RESET])
    fresh_shared.

(** The lines that [_parallel_install_tools] prints before it raises. *)
Definition critical_header : string :=
  Colors.RED ++ "[!] Critical failures:" ++ Colors.RESET.

Definition and_more (failed : Z) : string :=
  Colors.RED ++ "    ... and " ++ str_of_int (failed - 5) ++ " more" ++ Colors.RESET.

(** The line that the handler of a parallel batch prints for [msg]. *)
Definition handler_line (msg : string) : string :=
  String LF (Colors.RED ++ "[!] " ++ msg ++ Colors.RESET).

(** [name] is a maximal run of characters other than white space that
    follows an occurrence of [p] in [s]. *)
Definition word_after (p name s : string) : Prop :=
  exists a b,
    s = a ++ p ++ name ++ b
    /\ name <> ""
    /\ (forall c, In c (list_ascii_of_string name) -> isspace c = false)
    /\ (b = "" \/ exists c b', b = String c b' /\ isspace c = true).

(** The occurrence of [p] that follows [a] is the first one in
    [a ++ p ++ rest]: [p] starts at no earlier position. *)
Definition first_occurrence (p a rest : string) : Prop :=
  forall a1 a2, a = a1 ++ a2 -> a2 <> "" -> startswith p (a2 ++ p ++ rest) = false.

(** [name] is a word: not empty, without white space. *)
Definition is_word (name : string) : Prop :=
  name <> "" /\ forall c, In c (list_ascii_of_string name) -> isspace c = false.

(** [b] is empty or starts with white space. *)
Definition ends_word (b : string) : Prop :=
  b = "" \/ exists c b', b = String c b' /\ isspace c = true.

(** The patterns that the small batches look for in [stderr]. *)
Definition network_text (stderr : string) : Prop :=
  is_substring "Could not resolve" stderr \/ is_substring "Failed to fetch" stderr.

Definition permission_text (stderr : string) : Prop :=
  is_substring "Permission denied" stderr \/ is_substring "requires root privileges" stderr.

(** What [run_command] reports, with [capture_output=True], for an answer
    of the host: the exit code and the stripped error stream, or code 1
    and the text of the exception when the call itself raised. *)
Definition exit_code_of (answer : completed) : Z :=
  match answer with
  | Completed rc _ _ => rc
  | RunRaised _ => 1
  end.

Definition stdout_of (answer : completed) : string :=
  match answer with
  | Completed _ out _ => if truthy out then strip out else ""
  | RunRaised _ => ""
  end.

Definition stderr_of (answer : completed) : string :=
  match answer with
  | Completed _ _ err => if truthy err then strip err else ""
  | RunRaised text => text
  end.

(** No dangerous pattern occurs in the command. *)
Definition passes_check (command : string) : Prop :=
  forall p, In p dangerous_patterns -> ~ is_substring p command.

(** The state in which [install_tools] hands the batch over, once the
    repository is in place (no confirmation asked). *)
Definition install_ready (st : State) (w0 : World) (tools : list string) : State :=
  mkState w0
    ((console st ++ [Colors.CYAN ++ "[*] Checking repositories..." ++ Colors.RESET])
     ++ [Colors.CYAN ++ "[*] Preparing to install " ++ str_of_int (len_list tools)
         ++ " tools..." ++ Colors.RESET])
    (shared st).

(** The classification of one package of a batch. *)
Inductive classification : Type :=
| Success
| Skipped (reason : string)
| Failed (reason : string).

(** The classification of a failed install command by its error text. *)
Definition classify_failure (stderr : string) : classification :=
  if _is_skippable_error stderr then Skipped (_get_error_reason stderr)
  else Failed (_get_error_reason stderr).

(** What a worker recorded for its tool, read from the shared lists before
    and after it ran: a new entry of [failed_tools] (shown with its
    reason), a new entry of [skipped_tools], or nothing. *)
Definition recorded (before after : Shared) : classification :=
  match skipn (List.length (failed_tools before)) (failed_tools after) with
  | (_, error) :: _ => Failed (_get_error_reason error)
  | [] =>
      match skipn (List.length (skipped_tools before)) (skipped_tools after) with
      | (_, reason) :: _ => Skipped reason
      | [] => Success
      end
  end.

(** The state in which the fallback strategies of [install_single_tool]
    start, after the command of [tool] was run in [st]. *)
Definition after_install_command (tool : string) (st : State) : State :=
  count_completed
    (mkState (snd (subprocess_run ("apt install -y " ++ tool) (world st)))
       (console st) (shared st)).

(** The install command of [tool] passes the security check and fails in [st]. *)
Definition install_fails (tool : string) (st : State) : Prop :=
  passes_check ("apt install -y " ++ tool)
  /\ exit_code_of (fst (subprocess_run ("apt install -y " ++ tool) (world st))) <> 0.

(** The error text of the install command of [tool] in [st]. *)
Definition install_stderr (tool : string) (st : State) : string :=
  stderr_of (fst (subprocess_run ("apt install -y " ++ tool) (world st))).

(** The states in which the workers of the parallel remove and update
    batches start. *)
Definition remove_start (st : State) : State :=
  mkState (world st)
    (console st ++ [Colors.CYAN ++ "[*] Removing tools in parallel... This may take a while."
                    ++ Colors.RESET])
    fresh_shared.

Definition update_start (st : State) : State :=
  mkState (world st)
    (console st ++ [Colors.CYAN ++ "[*] Updating tools in parallel... This may take a while."
                    ++ Colors.RESET])
    fresh_shared.

(** The error texts that the parallel remove and update workers count
    without recording a failure. *)
Definition remove_informational (stderr : string) : Prop :=
  is_substring "Unable to locate package" stderr \/ is_substring "is not installed" stderr.

Definition update_informational (stderr : string) : Prop :=
  is_substring "is already the newest version" stderr.

(** The answer of the host to the remove or update command of [tool]. *)
Definition remove_answer (tool : string) (st : State) : completed :=
  fst (subprocess_run ("apt remove -y " ++ tool) (world st)).

Definition update_answer (tool : string) (st : State) : completed :=
  fst (subprocess_run ("apt install --only-upgrade -y " ++ tool) (world st)).

(** The state after the remove or update command of [tool] was run and
    counted as completed. *)
Definition after_remove_command (tool : string) (st : State) : State :=
  count_completed
    (mkState (snd (subprocess_run ("apt remove -y " ++ tool) (world st)))
       (console st) (shared st)).

Definition after_update_command (tool : string) (st : State) : State :=
  count_completed
    (mkState (snd (subprocess_run ("apt install --only-upgrade -y " ++ tool) (world st)))
       (console st) (shared st)).

(** The messages of the errors raised by the parallel remove and update
    batches. *)
Definition remove_failure_msg (failed total : Z) : string :=
  "Error during parallel removal: " ++ "Failed to remove " ++ str_of_int failed
  ++ " out of " ++ str_of_int total ++ " tools".

Definition update_failure_msg (failed total : Z) : string :=
  "Error during parallel update: " ++ "Failed to update " ++ str_of_int failed
  ++ " out of " ++ str_of_int total ++ " tools".

(** The question that [remove_tools] asks, and the state in which it
    reads the answer [w1] being the world after the question. *)
Definition remove_prompt : string :=
  String LF (Colors.YELLOW ++ "Are you sure you want to continue? [y/N]: " ++ Colors.RESET).

Definition remove_asked (st : State) (w1 : World) (tools : list string) : State :=
  mkState w1
    (((console st
       ++ [Colors.RED ++ "[!] Warning: You are about to remove " ++ Colors.YELLOW
           ++ str_of_int (len_list tools) ++ Colors.RED ++ " tools:" ++ Colors.RESET])
      ++ map (fun '(i, tool) =>
                Colors.YELLOW ++ "   " ++ str_of_int i ++ ". " ++ tool ++ Colors.RESET)
             (enumerate tools 1))
     ++ [Colors.RED ++ "[!] This action cannot be undone." ++ Colors.RESET])
    (shared st).

(** The remove command of [tool] fails with [is not installed] and no
    permission text, whatever the world. *)
Definition always_reports_absent (tool : string) : Prop :=
  forall w : World,
    let answer := fst (subprocess_run ("apt remove -y " ++ tool) w) in
    exit_code_of answer <> 0
    /\ is_substring "is not installed" (stderr_of answer)
    /\ ~ permission_text (stderr_of answer).

(** The fallback chain of [_try_installation_fallbacks] without its second
    strategy, the one that goes through [--fix-broken]. *)
Definition fallbacks_without_fix_broken (tool_name stderr : string) : M bool :=
  or_else
    (if str_in "dependency" (lower stderr) && str_in "python" (lower stderr)
     then _resolve_python_dependency_conflicts tool_name stderr
     else ret false)
  (or_else (try_alternative_names (_get_alternative_package_names tool_name))
     (attempt_if_available "which snap" ("snap install " ++ tool_name))).

(** Every exception that [m] raises has one of the [classes]. *)
Definition raises_only {A} (m : M A) (classes : list exn_class) : Prop :=
  forall st e st', m st = (Raise e, st') -> In (klass e) classes.

(** The state in which [update_tools] runs the command of a small batch,
    [w0] being the world once the repository is in place. *)
Definition update_ready (st : State) (w0 : World) (tools : list string) : State :=
  mkState w0
    (((console st ++ [Colors.CYAN ++ "[*] Checking repositories..." ++ Colors.RESET])
      ++ [Colors.CYAN ++ "[*] Preparing to update " ++ str_of_int (len_list tools)
          ++ " tools..." ++ Colors.RESET])
     ++ [Colors.CYAN ++ "[*] Updating tools... This may take a while." ++ Colors.RESET])
    (shared st).

(** The question that [install_tools] asks, and the state in which the
    answer is read, [w1] being the world after the question. *)
Definition install_prompt : string :=
  String LF (Colors.YELLOW ++ "Do you want to continue? [Y/n]: " ++ Colors.RESET).

Definition install_asked (st : State) (w1 : World) (tools : list string) : State :=
  mkState w1
    ((console st
      ++ [Colors.CYAN ++ "[*] You are about to install " ++ Colors.YELLOW
          ++ str_of_int (len_list tools) ++ Colors.CYAN ++ " tools:" ++ Colors.RESET])
     ++ map (fun '(i, tool) =>
               Colors.YELLOW ++ "   " ++ str_of_int i ++ ". " ++ tool ++ Colors.RESET)
            (enumerate tools 1))
    (shared st).

(** The question that [remove_tool] asks. *)
Definition remove_tool_prompt : string :=
  Colors.YELLOW ++ "Are you sure you want to continue? [y/N]: " ++ Colors.RESET.

(** What the prompt gave is neither [y] nor [Y]. *)
Definition not_yes (answer : result string) : Prop :=
  match answer with
  | Ret reply => lower reply <> "y"
  | Raise _ => True
  end.

End Vocabulary.

(** What a call gave, up to the text of the error: the boolean that it
    returned, or the class of the exception that it raised. *)
Definition verdict_of (r : result bool) : bool + exn_class :=
  match r with
  | Ret b => inl b
  | Raise e => inr (klass e)
  end.

(** The classes that [update_tool] and [update_tools] let through. *)
Definition update_classes : list exn_class :=
  [RepositoryError; NetworkError; PermissionError; ToolInstallationError].

(** The verdict of the two update paths as a function of what the command
    reported; [strict] says whether [0 upgraded] is required of a package
    that is already the newest version. *)
Definition update_verdict (strict : bool) (rc : Z) (stderr : string) : bool + exn_class :=
  if rc =? 0 then inl true
  else if str_in "Could not resolve" stderr || str_in "Failed to fetch" stderr
  then inr NetworkError
  else if str_in "Permission denied" stderr || str_in "requires root privileges" stderr
  then inr PermissionError
  else if str_in "Unable to locate package" stderr then inr ToolInstallationError
  else if str_in "is already the newest version" stderr
          && (negb strict || str_in "0 upgraded" stderr)
  then inl true
  else inr ToolInstallationError.

(** The two filters of [validate_input], one after the other. *)
Definition filtered (allowed_chars disallowed_chars : option string) (s : string) : string :=
  let s := match allowed_chars with
           | Some allowed =>
               if truthy allowed then keep_chars (fun c => char_in c allowed) s else s
           | None => s
           end in
  match disallowed_chars with
  | Some disallowed =>
      if truthy disallowed then keep_chars (fun c => negb (char_in c disallowed)) s else s
  | None => s
  end.

(** Two names of the same length that differ only where neither has a
    letter or a digit. *)
Fixpoint alike (a b : string) : bool :=
  match a, b with
  | EmptyString, EmptyString => true
  | String c a', String d b' =>
      (Ascii.eqb c d || (negb (isalnum c) && negb (isalnum d))) && alike a' b'
  | _, _ => false
  end.

(** The key under which the wrapper of [get_tool_info] caches a tool. *)
Definition tool_info_key (self_str tool_name : string) : string :=
  join ":" ["tool_info"; "get_tool_info"; self_str; tool_name].

(** The key under which the wrapper of [get_installed_version] caches a
    tool. *)
Definition tool_version_key (self_str tool_name : string) : string :=
  join ":" ["tool_version"; "get_installed_version"; self_str; tool_name].

(** The entry of a tool that [check_for_updates] takes for not installed. *)
Definition not_installed_entry : update_entry := mkEntry PNone PNone "not_installed".

(** [s] has no line boundary. *)
Definition one_line_text (s : string) : Prop :=
  forall c, char_in c s = true -> is_linebreak c = false.

(** The text that [apt-cache show] prints for one package: the fields in
    the order of the package index, the description with its continuation
    lines, each of them indented by one space. *)
Fixpoint continuation_lines (more : list string) (rest : string) : string :=
  match more with
  | [] => rest
  | m :: more' => " " ++ m ++ String LF (continuation_lines more' rest)
  end.

Definition apt_record (name version description : string) (more : list string)
    (homepage : string) : string :=
  "Package: " ++ name ++ String LF
  ("Version: " ++ version ++ String LF
  ("Description: " ++ description ++ String LF
  (continuation_lines more ("Homepage: " ++ homepage)))).

(** The keys that [get_tool_info] writes. *)
Definition tool_info_keys : list string := ["name"; "version"; "homepage"; "description"].

(* ===================================================================== *)
(** * Properties of the string primitives *)
(* ===================================================================== *)

Lemma startswith_spec (p s : string) :
  startswith p s = true <-> exists b, s = p ++ b.
Proof.
  revert s. induction p as [|a p IH]; intros s; simpl.
  - split; [intros _; exists s; reflexivity | reflexivity].
  - destruct s as [|b s].
    + split; [discriminate | intros [r Hr]; discriminate].
    + rewrite andb_true_iff, Ascii.eqb_eq, IH. split.
      * intros [-> [r ->]]. exists r. reflexivity.
      * intros [r Hr]. injection Hr as -> ->. split; [reflexivity | exists r; reflexivity].
Qed.

Lemma str_in_spec (p s : string) :
  str_in p s = true <-> is_substring p s.
Proof.
  unfold is_substring. induction s as [|c s IH].
  - simpl. rewrite orb_false_r, startswith_spec. split.
    + intros [b Hb]. exists "", b. exact Hb.
    + intros [a [b Hab]]. destruct a; [exists b; exact Hab | discriminate].
  - cbn [str_in]. rewrite orb_true_iff, startswith_spec, IH. split.
    + intros [[b Hb] | [a [b Hab]]].
      * exists "", b. exact Hb.
      * exists (String c a), b. simpl. rewrite Hab. reflexivity.
    + intros [a [b Hab]]. destruct a as [|c' a].
      * left. exists b. exact Hab.
      * right. simpl in Hab. injection Hab as _ Hs. exists a, b. exact Hs.
Qed.

Lemma str_in_false_spec (p s : string) :
  str_in p s = false <-> ~ is_substring p s.
Proof.
  rewrite <- str_in_spec. destruct (str_in p s); split; intros H;
    try reflexivity; try discriminate; try (intros H'; discriminate).
  exfalso. apply H. reflexivity.
Qed.

Lemma str_in_middle (a p b : string) : str_in p (a ++ p ++ b) = true.
Proof. apply str_in_spec. exists a, b. reflexivity. Qed.

Lemma append_assoc (a b c : string) : (a ++ b) ++ c = a ++ (b ++ c).
Proof. induction a as [|x a IH]; simpl; [reflexivity | rewrite IH; reflexivity]. Qed.

(* ===================================================================== *)
(** * The pure helpers on sample texts *)
(* ===================================================================== *)

Example alternative_names_enum4linux :
  _get_alternative_package_names "enum4linux"
  = ["enum4linux-ng"; "samba-enum"; "enum4linux-kali"; "kali-enum4linux"; "enum4linux";
     "enum4linux"; "python3-enum4linux"; "enum4linux-ng"].
Proof. reflexivity. Qed.

Example alternative_names_with_separators :
  _get_alternative_package_names "set_tool-kit"
  = ["set_tool-kit-kali"; "kali-set_tool-kit"; "set_toolkit"; "set-tool-kit";
     "python3-set_tool-kit"; "set_tool-kit-ng"].
Proof. reflexivity. Qed.

Example skippable_unknown_package :
  _is_skippable_error "E: Unable to locate package foo" = true.
Proof. reflexivity. Qed.

Example skippable_python_pin :
  _is_skippable_error
    "sqlmap : Depends: python3-psycopg2 but it is not installable; python3 (>= 3.13~)"
  = true.
Proof. reflexivity. Qed.

Example not_skippable_dpkg : _is_skippable_error dpkg_failure = false.
Proof. reflexivity. Qed.

Example reason_of_unknown_package :
  _get_error_reason "E: Unable to locate package foo" = "Package not found in repositories".
Proof. reflexivity. Qed.

Example reason_is_case_insensitive_for_broken :
  _get_error_reason "E: Broken packages" = "Broken dependencies".
Proof. reflexivity. Qed.

Example reason_prefers_the_error_line :
  _get_error_reason ("W: some warning" ++ String LF "   Error: disk quota exceeded  ")
  = "Error: disk quota exceeded".
Proof. reflexivity. Qed.

Example reason_is_the_first_line_otherwise :
  _get_error_reason (String LF ("  E: dpkg was interrupted  " ++ String LF "more"))
  = "E: dpkg was interrupted".
Proof. reflexivity. Qed.

Example reason_of_nothing : _get_error_reason "" = "Unknown error".
Proof. reflexivity. Qed.

Example reason_is_cut_at_80 :
  _get_error_reason
    "0123456789012345678901234567890123456789012345678901234567890123456789012345678901234"
  = "01234567890123456789012345678901234567890123456789012345678901234567890123456789...".
Proof. reflexivity. Qed.

Example pattern_match_takes_the_word :
  re_search_word_after "Unable to locate package "
    ("Reading package lists..." ++ String LF "E: Unable to locate package foo-bar"
     ++ String LF "E: Unable to locate package baz")
  = Some "foo-bar".
Proof. reflexivity. Qed.

Example str_exn_of_security_error :
  str_exn (security_error ";")
  = "Command contains potentially dangerous pattern: ;"
    ++ String LF "Details: The pattern ';' could be used for command injection"
    ++ String LF "Suggestion: Please review the command for security issues".
Proof. reflexivity. Qed.

(* ===================================================================== *)
(** * The security check: [sanitize_command] and [run_command] *)
(* ===================================================================== *)

Lemma sanitize_scan_clean (patterns : list string) (command : string) :
  (forall p, In p patterns -> str_in p command = false) ->
  sanitize_scan patterns command = Ret command.
Proof.
  induction patterns as [|p ps IH]; intros H; simpl; [reflexivity|].
  rewrite (H p (or_introl eq_refl)). apply IH. intros q Hq. apply H. right. exact Hq.
Qed.

Lemma sanitize_scan_hit (patterns : list string) (command : string) :
  (exists p, In p patterns /\ str_in p command = true) ->
  exists p, In p patterns /\ str_in p command = true
            /\ sanitize_scan patterns command = Raise (security_error p).
Proof.
  induction patterns as [|p ps IH]; intros [q [Hq Hin]]; simpl.
  - destruct Hq.
  - destruct (str_in p command) eqn:Hp.
    + exists p. auto.
    + destruct Hq as [-> | Hq]; [congruence|].
      destruct IH as [r [Hr [Hr1 Hr2]]]; [exists q; auto|].
      exists r. auto.
Qed.

Lemma sanitize_scan_cases (patterns : list string) (command : string) :
  sanitize_scan patterns command = Ret command \/
  exists p, In p patterns /\ str_in p command = true
            /\ sanitize_scan patterns command = Raise (security_error p).
Proof.
  induction patterns as [|p ps IH]; simpl; [left; reflexivity|].
  destruct (str_in p command) eqn:Hp.
  - right. exists p. auto.
  - destruct IH as [IH | [r [Hr [Hr1 Hr2]]]]; [left; exact IH | right; exists r; auto].
Qed.

Lemma sanitize_scan_ret_inv (patterns : list string) (command c : string) :
  sanitize_scan patterns command = Ret c ->
  c = command /\ forall p, In p patterns -> str_in p command = false.
Proof.
  induction patterns as [|p ps IH]; simpl.
  - intros H. injection H as <-. split; [reflexivity | intros p []].
  - destruct (str_in p command) eqn:Hp; [discriminate|].
    intros H. destruct (IH H) as [-> Hall]. split; [reflexivity|].
    intros q [<- | Hq]; auto.
Qed.

Section SecurityCheck.
Context {host : Host}.

(** A command that passes the security check is handed to the shell as it is. *)
Lemma run_command_clean (command : string) (capture : bool) (st : State) :
  sanitize_command command = Ret command ->
  run_command command capture true st =
    let '(r, w) := subprocess_run command (world st) in
    let st' := mkState w (console st) (shared st) in
    match r with
    | Completed rc out err =>
        if capture
        then (Ret (Captured rc (if truthy out then strip out else "")
                            (if truthy err then strip err else "")), st')
        else (Ret (ExitCode rc), st')
    | RunRaised text =>
        if capture then (Ret (Captured 1 "" text), st') else (Ret (ExitCode 1), st')
    end.
Proof.
  intros Hs. unfold run_command, bind, lift_result, host_call. rewrite Hs.
  destruct (subprocess_run command (world st)) as [r w].
  destruct r; destruct capture; reflexivity.
Qed.

(** A command that the security check refuses never reaches the shell. *)
Lemma run_command_refused (command : string) (capture : bool) (st : State) (e : exn) :
  sanitize_command command = Raise e ->
  run_command command capture true st = (Raise e, st).
Proof.
  intros Hs. unfold run_command, bind, lift_result. rewrite Hs. reflexivity.
Qed.

(** Whatever [run_command] raises is the [SecurityError] of the security check. *)
Lemma run_command_raise_inv (command : string) (capture : bool) (st st' : State) (e : exn) :
  run_command command capture true st = (Raise e, st') ->
  sanitize_command command = Raise e /\ st' = st.
Proof.
  unfold run_command, bind, lift_result, host_call.
  destruct (sanitize_command command) as [c|e0] eqn:Hs.
  - destruct (subprocess_run c (world st)) as [r w].
    destruct r; destruct capture; discriminate.
  - intros H. injection H as <- <-. auto.
Qed.

End SecurityCheck.

(** C9.  [sanitize_command] raises a [SecurityError] exactly when the
    command contains one of the dangerous substrings, and returns the
    command unchanged otherwise; [run_command] with its default
    [check_security=True] raises under the same condition, runs nothing in
    that case, and otherwise hands the very same command to the shell. *)
Theorem sanitize_command_raises_iff_dangerous :
  forall (host : Host) (command : string) (capture : bool) (st : State),
    let dangerous := exists p, In p dangerous_patterns /\ is_substring p command in
    ((exists e, sanitize_command command = Raise e /\ klass e = SecurityError)
       <-> dangerous)
    /\ (~ dangerous <-> sanitize_command command = Ret command)
    /\ ((exists e st', run_command command capture true st = (Raise e, st')
                       /\ klass e = SecurityError /\ world st' = world st)
          <-> dangerous)
    /\ (~ dangerous <->
        exists r, run_command command capture true st
                  = (Ret r, mkState (snd (subprocess_run command (world st)))
                                    (console st) (shared st)))
    /\ (forall e st', run_command command capture true st = (Raise e, st') ->
                      klass e = SecurityError /\ st' = st).
Proof.
  intros host command capture st dangerous.
  assert (Hd : dangerous <-> exists p, In p dangerous_patterns /\ str_in p command = true).
  { unfold dangerous. split; intros [p [Hp Hs]]; exists p; split; auto;
      apply str_in_spec; exact Hs. }
  assert (Hclean : ~ dangerous -> sanitize_command command = Ret command).
  { intros Hn. apply sanitize_scan_clean. intros p Hp.
    destruct (str_in p command) eqn:E; [|reflexivity].
    exfalso. apply Hn, Hd. exists p. auto. }
  assert (Hhit : dangerous -> exists p, sanitize_command command = Raise (security_error p)).
  { intros H. apply Hd in H. destruct (sanitize_scan_hit _ _ H) as [p [_ [_ Hp]]].
    exists p. exact Hp. }
  repeat split.
  - intros [e [He _]]. destruct (sanitize_scan_cases dangerous_patterns command)
      as [Hc | [p [Hp [Hs _]]]].
    + unfold sanitize_command in He. congruence.
    + apply Hd. exists p. auto.
  - intros H. destruct (Hhit H) as [p Hp]. exists (security_error p). auto.
  - exact Hclean.
  - intros Hr Hdg. destruct (Hhit Hdg) as [p Hp]. congruence.
  - intros [e [st' [Hrun _]]]. apply run_command_raise_inv in Hrun as [Hs _].
    destruct (sanitize_scan_cases dangerous_patterns command) as [Hc | [p [Hp [Hs' _]]]].
    + unfold sanitize_command in Hs. congruence.
    + apply Hd. exists p. auto.
  - intros H. destruct (Hhit H) as [p Hp].
    exists (security_error p), st. rewrite (run_command_refused command capture st _ Hp). auto.
  - intros Hn. rewrite (run_command_clean command capture st (Hclean Hn)).
    destruct (subprocess_run command (world st)) as [r w]. simpl.
    destruct r; destruct capture; eexists; reflexivity.
  - intros [r Hr] Hdg. destruct (Hhit Hdg) as [p Hp].
    rewrite (run_command_refused command capture st _ Hp) in Hr. discriminate.
  - apply run_command_raise_inv in H as [Hs _].
    destruct (sanitize_scan_cases dangerous_patterns command) as [Hc | [p [_ [_ Hp]]]];
      unfold sanitize_command in Hs; [congruence|].
    rewrite Hp in Hs. injection Hs as <-. reflexivity.
  - apply run_command_raise_inv in H as [_ Hst]. exact Hst.
Qed.

(** C9, witness: a plain install command passes unchanged, a command with
    a semicolon is refused. *)
Lemma sanitize_command_raises_iff_dangerous_witness :
  sanitize_command "apt install -y nmap" = Ret "apt install -y nmap"
  /\ exists e, sanitize_command "apt install -y nmap; reboot" = Raise e
               /\ klass e = SecurityError.
Proof.
  split.
  - destruct (sanitize_command_raises_iff_dangerous (scripted_host "y" (fun _ => ok))
                "apt install -y nmap" true (boot "y" (fun _ => ok))) as [_ [H _]].
    apply H. intros [p [Hp Hs]]. apply str_in_spec in Hs. simpl in Hp.
    repeat (destruct Hp as [<- | Hp]; [vm_compute in Hs; discriminate|]). destruct Hp.
  - destruct (sanitize_command_raises_iff_dangerous (scripted_host "y" (fun _ => ok))
                "apt install -y nmap; reboot" true (boot "y" (fun _ => ok))) as [[_ H] _].
    apply H. exists ";". split; [simpl; auto | apply str_in_spec; reflexivity].
Defined.

(** C10.  For every tool name the command of [check_installed] contains
    the substrings [>] and [|]; [run_command] refuses it with a
    [SecurityError] before anything is run, and [check_installed] turns
    that into a [ToolInstallationError]: it never returns a boolean. *)
Theorem check_installed_always_raises :
  forall (host : Host) (tool_name : string) (st : State),
    let check_cmd := "dpkg -s " ++ tool_name
                     ++ " 2>/dev/null | grep -q 'Status: install ok installed'" in
    is_substring ">" check_cmd /\ is_substring "|" check_cmd /\
    exists p,
      In p dangerous_patterns /\
      run_command check_cmd false true st = (Raise (security_error p), st) /\
      let error_msg := "Error checking if tool " ++ tool_name ++ " is installed: "
                       ++ str_exn (security_error p) in
      check_installed tool_name st =
        (Raise (simple_exn ToolInstallationError error_msg),
         mkState (world st)
                 (console st ++ [Colors.RED ++ "Error: " ++ error_msg ++ Colors.RESET])
                 (shared st)).
Proof.
  intros host tool_name st check_cmd.
  assert (Hgt : is_substring ">" check_cmd).
  { exists ("dpkg -s " ++ tool_name ++ " 2"),
      "/dev/null | grep -q 'Status: install ok installed'".
    unfold check_cmd. simpl. rewrite append_assoc. reflexivity. }
  assert (Hpipe : is_substring "|" check_cmd).
  { exists ("dpkg -s " ++ tool_name ++ " 2>/dev/null "),
      " grep -q 'Status: install ok installed'".
    unfold check_cmd. simpl. rewrite append_assoc. reflexivity. }
  split; [exact Hgt|]. split; [exact Hpipe|].
  destruct (sanitize_scan_hit dangerous_patterns check_cmd) as [p [Hp [_ Hs]]].
  { exists ">". split; [simpl; tauto | apply str_in_spec; exact Hgt]. }
  exists p. split; [exact Hp|].
  assert (Hrun : run_command check_cmd false true st = (Raise (security_error p), st)).
  { apply run_command_refused. exact Hs. }
  split; [exact Hrun|].
  unfold check_installed, try_except, bind. fold check_cmd. rewrite Hrun.
  reflexivity.
Qed.

(* ===================================================================== *)
(** * What a computation leaves untouched, and what never raises *)
(* ===================================================================== *)

Section Frames.
Context {host : Host}.

Lemma keeps_ret {A} (a : A) : keeps_shared (ret a).
Proof. intros st. reflexivity. Qed.

Lemma keeps_raise {A} (e : exn) : keeps_shared (@raise _ A e).
Proof. intros st. reflexivity. Qed.

Lemma keeps_print (line : string) : keeps_shared (print line).
Proof. intros st. reflexivity. Qed.

Lemma keeps_lift {A} (r : result A) : keeps_shared (lift_result r).
Proof. intros st. reflexivity. Qed.

Lemma keeps_host_call {A} (f : World -> A * World) : keeps_shared (host_call f).
Proof. intros st. unfold host_call. destruct (f (world st)). reflexivity. Qed.

Lemma keeps_host_call_result {A} (f : World -> result A * World) :
  keeps_shared (host_call_result f).
Proof. intros st. unfold host_call_result. destruct (f (world st)). reflexivity. Qed.

Lemma keeps_bind {A B} (m : M A) (k : A -> M B) :
  keeps_shared m -> (forall a, keeps_shared (k a)) -> keeps_shared (bind m k).
Proof.
  intros Hm Hk st. unfold bind. specialize (Hm st).
  destruct (m st) as [[a|e] st1]; simpl in *.
  - rewrite (Hk a st1). exact Hm.
  - exact Hm.
Qed.

Lemma keeps_try {A} (m : M A) (h : exn -> M A) :
  keeps_shared m -> (forall e, keeps_shared (h e)) -> keeps_shared (try_except m h).
Proof.
  intros Hm Hh st. unfold try_except. specialize (Hm st).
  destruct (m st) as [[a|e] st1]; simpl in *.
  - exact Hm.
  - rewrite (Hh e st1). exact Hm.
Qed.

Lemma keeps_for_each {A} (l : list A) (body : A -> M unit) :
  (forall x, keeps_shared (body x)) -> keeps_shared (for_each l body).
Proof.
  intros Hb. induction l as [|x xs IH]; simpl.
  - apply keeps_ret.
  - apply keeps_bind; [apply Hb | intros _; exact IH].
Qed.

Lemma never_try {A} (m : M A) (h : exn -> M A) :
  (forall e, never_raises (h e)) -> never_raises (try_except m h).
Proof.
  intros Hh st. unfold try_except. destruct (m st) as [[a|e] st1].
  - exists a, st1. reflexivity.
  - apply Hh.
Qed.

Lemma never_ret {A} (a : A) : never_raises (ret a).
Proof. intros st. exists a, st. reflexivity. Qed.

Lemma never_bind {A B} (m : M A) (k : A -> M B) :
  never_raises m -> (forall a, never_raises (k a)) -> never_raises (bind m k).
Proof.
  intros Hm Hk st. unfold bind. destruct (Hm st) as [a [st1 ->]]. apply Hk.
Qed.

End Frames.

Create HintDb frames.

#[export] Hint Resolve keeps_ret keeps_raise keeps_print keeps_lift keeps_host_call
  keeps_host_call_result never_ret : frames.

(** Decompose a frame goal along the structure of the computation. *)
Ltac frame_step :=
  match goal with
  | |- keeps_shared (bind _ _) => apply keeps_bind
  | |- keeps_shared (try_except _ _) => apply keeps_try
  | |- keeps_shared (for_each _ _) => apply keeps_for_each
  | |- keeps_shared (if ?b then _ else _) => destruct b
  | |- keeps_shared (match ?x with _ => _ end) => destruct x
  | |- never_raises (try_except _ _) => apply never_try
  | |- never_raises (bind _ _) => apply never_bind
  | |- never_raises (if ?b then _ else _) => destruct b
  | |- forall _, _ => intro
  end.

Ltac frame := repeat frame_step; auto with frames.

Section FallbackFrames.
Context {host : Host}.

Lemma keeps_run_command (command : string) (capture check : bool) :
  keeps_shared (run_command command capture check).
Proof. unfold run_command. frame. Qed.

Lemma keeps_unpack3 (r : cmd_result) : keeps_shared (unpack3 r).
Proof. unfold unpack3. frame. Qed.

Hint Resolve keeps_run_command keeps_unpack3 : frames.

Lemma keeps_attempt (prepare : M unit) (cmd : string) :
  keeps_shared prepare -> keeps_shared (attempt prepare cmd).
Proof. intros Hp. unfold attempt. frame. Qed.

Lemma keeps_attempt_if_available (probe cmd : string) :
  keeps_shared (attempt_if_available probe cmd).
Proof. unfold attempt_if_available. frame. Qed.

Lemma never_attempt (prepare : M unit) (cmd : string) :
  never_raises (attempt prepare cmd).
Proof. unfold attempt. frame. Qed.

Lemma never_attempt_if_available (probe cmd : string) :
  never_raises (attempt_if_available probe cmd).
Proof. unfold attempt_if_available. frame. Qed.

Hint Resolve keeps_attempt keeps_attempt_if_available never_attempt
  never_attempt_if_available : frames.

Lemma keeps_or_else (a b : M bool) :
  keeps_shared a -> keeps_shared b -> keeps_shared (or_else a b).
Proof. intros Ha Hb. unfold or_else. frame. Qed.

Lemma never_or_else (a b : M bool) :
  never_raises a -> never_raises b -> never_raises (or_else a b).
Proof. intros Ha Hb. unfold or_else. frame. Qed.

Lemma keeps_resolve_python (tool_name stderr : string) :
  keeps_shared (_resolve_python_dependency_conflicts tool_name stderr).
Proof.
  unfold _resolve_python_dependency_conflicts.
  repeat apply keeps_or_else; frame.
  apply keeps_attempt. frame.
Qed.

Lemma never_resolve_python (tool_name stderr : string) :
  never_raises (_resolve_python_dependency_conflicts tool_name stderr).
Proof.
  unfold _resolve_python_dependency_conflicts.
  repeat apply never_or_else; frame.
Qed.

Lemma keeps_try_alternative_names (alt_names : list string) :
  keeps_shared (try_alternative_names alt_names).
Proof.
  induction alt_names as [|a rest IH]; simpl; [frame|].
  apply keeps_or_else; [frame | exact IH].
Qed.

Lemma never_try_alternative_names (alt_names : list string) :
  never_raises (try_alternative_names alt_names).
Proof.
  induction alt_names as [|a rest IH]; simpl; [frame|].
  apply never_or_else; [frame | exact IH].
Qed.

Lemma keeps_fallbacks (tool_name stderr : string) :
  keeps_shared (_try_installation_fallbacks tool_name stderr).
Proof.
  unfold _try_installation_fallbacks.
  repeat apply keeps_or_else; frame;
    auto using keeps_resolve_python, keeps_try_alternative_names.
Qed.

(** The fallback chain handles every exception of its own steps. *)
Lemma never_fallbacks (tool_name stderr : string) :
  never_raises (_try_installation_fallbacks tool_name stderr).
Proof.
  unfold _try_installation_fallbacks.
  repeat apply never_or_else; frame;
    auto using never_resolve_python, never_try_alternative_names.
Qed.

End FallbackFrames.

(* ===================================================================== *)
(** * The workers of the parallel batches *)
(* ===================================================================== *)

Section Workers.
Context {host : Host}.

(** With [capture_output=True], [run_command] returns a triple. *)
Lemma run_command_captures (command : string) (st st' : State) (r : cmd_result) :
  run_command command true true st = (Ret r, st') ->
  exists rc out err, r = Captured rc out err.
Proof.
  unfold run_command, bind, lift_result, host_call, ret.
  destruct (sanitize_command command) as [c|e]; [|discriminate].
  destruct (subprocess_run c (world st)) as [pr w].
  destruct pr; intros H; injection H as <- _; eauto.
Qed.

(** The course of [install_single_tool], by the outcome of its command. *)
Lemma install_single_tool_cases (tool : string) (st : State) :
  match run_command ("apt install -y " ++ tool) true true st with
  | (Raise e, st1) =>
      install_single_tool tool st = (Ret false, add_failed (tool, str_exn e) st1)
  | (Ret (ExitCode _), _) => False
  | (Ret (Captured rc out err), st1) =>
      if rc =? 0 then install_single_tool tool st = (Ret true, count_completed st1)
      else
        exists recovered st2,
          _try_installation_fallbacks tool err (count_completed st1) = (Ret recovered, st2)
          /\ shared st2 = shared (count_completed st1)
          /\ install_single_tool tool st =
               if recovered then (Ret true, st2)
               else if _is_skippable_error err
                    then (Ret true, add_skipped (tool, _get_error_reason err) st2)
                    else (Ret false, add_failed (tool, err) st2)
  end.
Proof.
  destruct (run_command ("apt install -y " ++ tool) true true st) as [[r|e] st1] eqn:Hrun.
  - destruct (run_command_captures _ _ _ _ Hrun) as [rc [out [err ->]]].
    unfold install_single_tool, try_except, bind. rewrite Hrun. simpl.
    destruct (rc =? 0) eqn:Hrc; simpl; [reflexivity|].
    fold (count_completed st1).
    destruct (never_fallbacks tool err (count_completed st1)) as [recovered [st2 Hfb]].
    exists recovered, st2. rewrite Hfb.
    split; [reflexivity|]. split.
    { pose proof (keeps_fallbacks tool err (count_completed st1)) as Hk.
      rewrite Hfb in Hk. exact Hk. }
    destruct recovered; [reflexivity|].
    destruct (_is_skippable_error err); reflexivity.
  - unfold install_single_tool, try_except, bind. rewrite Hrun. reflexivity.
Qed.

Lemma install_single_tool_step : worker_step install_single_tool.
Proof.
  intros tool st. pose proof (install_single_tool_cases tool st) as H.
  destruct (run_command ("apt install -y " ++ tool) true true st) as [[r|e] st1] eqn:Hrun.
  - pose proof (keeps_run_command ("apt install -y " ++ tool) true true st) as Hk.
    rewrite Hrun in Hk. simpl in Hk.
    destruct r as [c|rc out err]; [contradiction|].
    destruct (rc =? 0).
    + exists true, (count_completed st1). split; [exact H|]. simpl. rewrite Hk. reflexivity.
    + destruct H as [recovered [st2 [_ [Hs H]]]].
      destruct recovered; [|destruct (_is_skippable_error err)].
      * exists true, st2. split; [exact H|]. rewrite Hs. simpl. rewrite Hk. reflexivity.
      * eexists true, _. split; [exact H|]. simpl. rewrite Hs. simpl. rewrite Hk. reflexivity.
      * eexists false, _. split; [exact H|]. exists err. simpl. rewrite Hs. simpl.
        rewrite Hk. reflexivity.
  - pose proof (keeps_run_command ("apt install -y " ++ tool) true true st) as Hk.
    rewrite Hrun in Hk. simpl in Hk.
    eexists false, _. split; [exact H|]. exists (str_exn e). simpl. rewrite Hk. reflexivity.
Qed.

(** A worker of [_parallel_install_tools] adds at most its own tool to the
    skipped list, and only when it returns [True]. *)
Lemma install_single_tool_skips (tool : string) (st : State) :
  let st' := snd (install_single_tool tool st) in
  skipped_tools (shared st') = skipped_tools (shared st)
  \/ (fst (install_single_tool tool st) = Ret true
      /\ exists reason,
         skipped_tools (shared st') = (skipped_tools (shared st) ++ [(tool, reason)])%list).
Proof.
  pose proof (install_single_tool_cases tool st) as H.
  pose proof (keeps_run_command ("apt install -y " ++ tool) true true st) as Hk.
  destruct (run_command ("apt install -y " ++ tool) true true st) as [[r|e] st1] eqn:Hrun;
    simpl in Hk.
  - destruct r as [c|rc out err]; [contradiction|].
    destruct (rc =? 0).
    + rewrite H. left. simpl. rewrite Hk. reflexivity.
    + destruct H as [recovered [st2 [_ [Hs H]]]]. rewrite H.
      destruct recovered; [|destruct (_is_skippable_error err)]; simpl.
      * left. rewrite Hs. simpl. rewrite Hk. reflexivity.
      * right. split; [reflexivity|]. eexists. rewrite Hs. simpl. rewrite Hk. reflexivity.
      * left. rewrite Hs. simpl. rewrite Hk. reflexivity.
  - rewrite H. left. simpl. rewrite Hk. reflexivity.
Qed.

End Workers.

(* ===================================================================== *)
(** * Running a batch of workers *)
(* ===================================================================== *)

Lemma sum_bools_cons (b : bool) (results : list bool) :
  sum_bools (b :: results) = (if b then 1 else 0) + sum_bools results.
Proof.
  unfold sum_bools. destruct b; cbn [filter List.length];
    generalize (List.length (filter (fun b : bool => b) results)); intros n; lia.
Qed.

Lemma sum_bools_bounds (results : list bool) :
  0 <= sum_bools results <= len_list results.
Proof.
  induction results as [|b rs IH].
  - unfold sum_bools, len_list. simpl. lia.
  - rewrite sum_bools_cons. unfold len_list in *. simpl List.length. destruct b; lia.
Qed.

Lemma failures_of_length (tools : list string) (results : list bool) :
  List.length results = List.length tools ->
  len_list (failures_of tools results) = len_list tools - sum_bools results.
Proof.
  revert results. induction tools as [|t ts IH]; intros [|r rs] H; simpl in H;
    try discriminate.
  - reflexivity.
  - injection H as H. specialize (IH rs H). rewrite sum_bools_cons.
    unfold len_list in *. destruct r; cbn [failures_of List.length]; lia.
Qed.

Lemma failures_of_all (tools : list string) (results : list bool) :
  List.length results = List.length tools ->
  (all_bools results = true <-> failures_of tools results = []).
Proof.
  revert results. induction tools as [|t ts IH]; intros [|r rs] H; simpl in H;
    try discriminate.
  - simpl. tauto.
  - injection H as H. specialize (IH rs H). simpl. destruct r; simpl.
    + exact IH.
    + split; discriminate.
Qed.

Lemma failures_of_subset (tools : list string) (results : list bool) (t : string) :
  In t (failures_of tools results) -> In t tools.
Proof.
  revert results. induction tools as [|x xs IH]; intros [|r rs]; simpl; try tauto.
  destruct r; simpl; intros H.
  - right. exact (IH rs H).
  - destruct H as [H|H]; [left; exact H | right; exact (IH rs H)].
Qed.

Section Batches.
Context {host : Host}.

Lemma bind_ret_eq {A B} {m : M A} {k : A -> M B} {st st1 : State} {a : A} :
  m st = (Ret a, st1) -> bind m k st = k a st1.
Proof. intros H. unfold bind. rewrite H. reflexivity. Qed.

Lemma bind_raise_eq {A B} {m : M A} {k : A -> M B} {st st1 : State} {e : exn} :
  m st = (Raise e, st1) -> bind m k st = (Raise e, st1).
Proof. intros H. unfold bind. rewrite H. reflexivity. Qed.

(** A loop that only prints adds one line per element. *)
Lemma for_each_print {A} (f : A -> string) (l : list A) (body : A -> M unit) (st : State) :
  (forall x, body x = print (f x)) ->
  for_each l body st =
    (Ret tt, mkState (world st) (console st ++ map f l) (shared st)).
Proof.
  intros Hb. revert st. induction l as [|x xs IH]; intros st; simpl.
  - unfold ret. rewrite app_nil_r. destruct st; reflexivity.
  - unfold bind. rewrite Hb. simpl. rewrite IH. simpl.
    rewrite <- app_assoc. reflexivity.
Qed.

(** The workers of a batch all return; the failure list grows by the
    tools whose worker returned [False], in the order of the schedule. *)
Lemma executor_map_tally (worker : string -> M bool) :
  worker_step worker ->
  forall (tools : list string) (st : State),
    exists results st',
      executor_map worker tools st = (Ret results, st')
      /\ List.length results = List.length tools
      /\ failed_names st' = (failed_names st ++ failures_of tools results)%list.
Proof.
  intros Hw tools. induction tools as [|t ts IH]; intros st.
  - exists [], st. simpl. unfold ret. rewrite app_nil_r. auto.
  - destruct (Hw t st) as [b [st1 [Hrun Hb]]].
    destruct (IH st1) as [rs [st2 [Hmap [Hlen Hnames]]]].
    exists (b :: rs), st2. simpl executor_map.
    rewrite (bind_ret_eq Hrun), (bind_ret_eq Hmap).
    split; [reflexivity|]. split; [simpl; congruence|].
    rewrite Hnames. unfold failed_names. destruct b; simpl.
    + rewrite Hb. reflexivity.
    + destruct Hb as [error ->]. rewrite map_app, <- app_assoc. reflexivity.
Qed.

(** The skipped list of an install batch: every entry is a tool of the
    batch whose worker returned [True]. *)
Lemma executor_map_install_skips (tools : list string) (st : State) :
  forall results st',
    executor_map install_single_tool tools st = (Ret results, st') ->
    len_list (skipped_tools (shared st'))
      <= len_list (skipped_tools (shared st)) + sum_bools results
    /\ forall t, In t (skipped_names st') -> In t (skipped_names st) \/ In t tools.
Proof.
  revert st. induction tools as [|t ts IH]; intros st results st' H.
  - simpl in H. injection H as <- <-. unfold sum_bools. simpl. split; [lia | auto].
  - simpl executor_map in H.
    pose proof (install_single_tool_skips t st) as Hs.
    destruct (install_single_tool_step t st) as [b [st1 [Hrun _]]].
    rewrite Hrun in Hs. simpl in Hs.
    rewrite (bind_ret_eq Hrun) in H.
    destruct (executor_map install_single_tool ts st1) as [[rs|e] st2] eqn:Hmap.
    + rewrite (bind_ret_eq Hmap) in H. injection H as <- <-.
      destruct (IH st1 rs st2 Hmap) as [IHlen IHin].
      rewrite sum_bools_cons. unfold len_list, skipped_names in *. split.
      * destruct Hs as [Hs | [Hb [reason Hs]]]; rewrite Hs in IHlen.
        -- destruct b; lia.
        -- injection Hb as ->. rewrite length_app in IHlen. simpl in IHlen. lia.
      * intros x Hx. destruct (IHin x Hx) as [Hin | Hin]; [|right; right; exact Hin].
        destruct Hs as [Hs | [_ [reason Hs]]]; rewrite Hs in Hin; [left; exact Hin|].
        rewrite map_app in Hin. apply in_app_or in Hin. destruct Hin as [Hin | Hin].
        -- left. exact Hin.
        -- right. left. simpl in Hin. destruct Hin as [<- | []]. reflexivity.
    + rewrite (bind_raise_eq Hmap) in H. discriminate.
Qed.

End Batches.

(* ===================================================================== *)
(** * The verdict of a parallel install batch *)
(* ===================================================================== *)

Lemma append_nil_r (s : string) : s ++ "" = s.
Proof. induction s as [|c s IH]; simpl; [reflexivity | rewrite IH; reflexivity]. Qed.

Lemma str_exn_simple (c : exn_class) (msg : string) : str_exn (simple_exn c msg) = msg.
Proof. unfold str_exn, simple_exn. simpl. apply append_nil_r. Qed.

Lemma within_tolerance_spec (f i : Z) :
  0 < i -> within_tolerance (failure_rate f i) = (10 * f <=? 3 * i).
Proof.
  intros Hi. destruct i as [|p|p]; try lia.
  unfold within_tolerance, failure_rate, Qle_bool, Qdiv, Qinv, Qmult, inject_Z.
  cbn [Qnum Qden].
  match goal with |- (?a <=? ?b) = (?c <=? ?d) =>
    destruct (Z.leb_spec a b); destruct (Z.leb_spec c d); try reflexivity; lia end.
Qed.

Section PrintsOnly.
Context {host : Host}.

Lemma prints_only_print (line : string) : prints_only (print line).
Proof. intros st. exists [line]. reflexivity. Qed.

Lemma prints_only_ret : prints_only (ret tt).
Proof. intros st. exists []. unfold ret. rewrite app_nil_r. destruct st; reflexivity. Qed.

Lemma prints_only_bind (m : M unit) (k : unit -> M unit) :
  prints_only m -> prints_only (k tt) -> prints_only (bind m k).
Proof.
  intros Hm Hk st. destruct (Hm st) as [l1 H1]. rewrite (bind_ret_eq H1).
  destruct (Hk (mkState (world st) (console st ++ l1) (shared st))) as [l2 H2].
  exists (l1 ++ l2)%list. rewrite H2. simpl. rewrite app_assoc. reflexivity.
Qed.

Lemma prints_only_for_each {A} (l : list A) (body : A -> M unit) :
  (forall x, prints_only (body x)) -> prints_only (for_each l body).
Proof.
  intros Hb. induction l as [|x xs IH]; simpl.
  - apply prints_only_ret.
  - apply prints_only_bind; [apply Hb | exact IH].
Qed.

Lemma bind_prints {B} (m : M unit) (k : unit -> M B) (st : State) :
  prints_only m ->
  exists lines,
    bind m k st = k tt (mkState (world st) (console st ++ lines) (shared st)).
Proof.
  intros Hm. destruct (Hm st) as [lines H]. exists lines. apply (bind_ret_eq H).
Qed.

End PrintsOnly.

Ltac prints :=
  repeat match goal with
  | |- prints_only (bind _ _) => apply prints_only_bind
  | |- prints_only (print _) => apply prints_only_print
  | |- prints_only (ret tt) => apply prints_only_ret
  | |- prints_only (for_each _ _) => apply prints_only_for_each
  | |- prints_only (if ?b then _ else _) => destruct b
  | |- prints_only (let '(_, _) := ?p in _) => destruct p
  | |- forall _, _ => intro
  end.

(** Run the printing statement at the head of the computation in [Hrun]. *)
Ltac skip_prints_in Hrun :=
  match type of Hrun with
  | context [bind ?m ?k ?s] =>
      let H := fresh "Hprints" in
      let Hl := fresh "Hl" in
      let lines := fresh "lines" in
      assert (H : prints_only m) by prints;
      destruct (bind_prints m k s H) as [lines Hl]; clear H;
      rewrite Hl in Hrun; clear Hl;
      cbn [world console shared] in Hrun
  end.

(** Reduce the monadic plumbing of a computation applied to a state. *)
Ltac run_m :=
  cbv beta iota zeta delta [bind print ret raise fst snd world console shared].

(** Settle the integer tests of a verdict from the hypotheses. *)
Ltac decide_tests :=
  repeat match goal with
  | |- context [?a =? ?b] => destruct (Z.eqb_spec a b); try lia
  | |- context [?a <=? ?b] => destruct (Z.leb_spec a b); try lia
  end.

Section InstallVerdict.
Context {host : Host}.

(** [_parallel_install_tools] in one equation: the workers all return, the
    verdict is [install_verdict] of the three counts, and a raised error is
    preceded on the console by the critical failures, five at most. *)
Lemma parallel_install_outcome (tools : list string) (st : State) :
  exists results st1,
    executor_map install_single_tool tools (install_start st) = (Ret results, st1) /\
    let failed := len_list (failed_tools (shared st1)) in
    let skipped := len_list (skipped_tools (shared st1)) in
    let installable := len_list tools - skipped in
    let run := _parallel_install_tools tools st in
    sum_bools results + failed = len_list tools
    /\ 0 <= skipped <= sum_bools results
    /\ failed_names st1 = failures_of tools results
    /\ (forall t, In t (skipped_names st1) -> In t tools)
    /\ fst run = install_verdict (sum_bools results) failed installable
    /\ shared (snd run) = shared st1
    /\ world (snd run) = world st1
    /\ (forall e, fst run = Raise e ->
        exists before,
          console (snd run) =
            (before
             ++ [critical_header]
             ++ map failure_line (firstn 5 (failed_tools (shared st1)))
             ++ (if failed >? 5 then [and_more failed] else [])
             ++ [handler_line (message e)])%list).
Proof.
  destruct (executor_map_tally _ install_single_tool_step tools (install_start st))
    as [results [st1 [Hmap [Hlen Hnames]]]].
  pose proof (executor_map_install_skips _ _ _ _ Hmap) as [Hskip Hskipin].
  assert (Hfailed : len_list (failed_tools (shared st1)) = len_list tools - sum_bools results).
  { rewrite <- (failures_of_length tools results Hlen).
    unfold failed_names in Hnames. simpl in Hnames. rewrite <- Hnames.
    unfold len_list. rewrite length_map. reflexivity. }
  exists results, st1. split; [exact Hmap|].
  intros failed skipped installable run.
  assert (Hnonneg : 0 <= failed) by (unfold failed, len_list; lia).
  assert (Hsk : 0 <= skipped <= sum_bools results).
  { simpl in Hskip. unfold skipped, len_list in *. lia. }
  assert (Hinst : 0 <= installable).
  { pose proof (sum_bools_bounds results). unfold installable.
    unfold failed, skipped, len_list in *. lia. }
  split; [unfold failed; lia|]. split; [exact Hsk|]. split; [exact Hnames|].
  split. { intros t Ht. destruct (Hskipin t Ht) as [[]|H]. exact H. }
  subst run. remember (_parallel_install_tools tools st) as outcome eqn:Hrun.
  unfold _parallel_install_tools in Hrun.
  unfold bind at 1 in Hrun. cbn [print] in Hrun.
  unfold bind at 1 in Hrun. cbn [set_shared world console shared] in Hrun.
  unfold try_except in Hrun. fold (install_start st) in Hrun.
  rewrite (bind_ret_eq Hmap) in Hrun.
  unfold bind at 1 in Hrun. cbn [get_shared] in Hrun.
  do 6 skip_prints_in Hrun.
  fold failed in Hrun. fold skipped in Hrun. fold installable in Hrun.
  unfold install_verdict.
  destruct (installable =? 0) eqn:E0.
  { subst outcome. cbn. repeat split; try reflexivity. intros e He; discriminate. }
  destruct (sum_bools results =? installable) eqn:E1.
  { subst outcome. cbn. repeat split; try reflexivity. intros e He; discriminate. }
  destruct (failed =? 0) eqn:E2.
  { subst outcome. cbn. repeat split; try reflexivity. intros e He; discriminate. }
  rewrite within_tolerance_spec in Hrun by lia.
  destruct (10 * failed <=? 3 * installable) eqn:E3.
  { subst outcome. cbn. repeat split; try reflexivity. intros e He; discriminate. }
  assert (Hpos : (failed >? 0) = true) by lia.
  rewrite Hpos in Hrun.
  unfold bind at 1 in Hrun. cbn [print world console shared] in Hrun.
  unfold bind at 1 in Hrun. unfold bind at 1 in Hrun.
  cbn [print world console shared] in Hrun.
  unfold bind at 1 in Hrun.
  rewrite (for_each_print failure_line) in Hrun by reflexivity.
  cbn [world console shared] in Hrun.
  destruct (failed >? 5) eqn:E5; subst outcome;
    cbv beta iota zeta delta [bind print ret raise fst snd world console shared];
    rewrite str_exn_simple; (split; [reflexivity|]); (split; [reflexivity|]);
    (split; [reflexivity|]); intros e He; injection He as <-; cbn [message simple_exn];
    match goal with
    | |- context [ (?pre ++ [(Colors.RED ++ "[!] Critical failures:" ++ Colors.RESET)%string])%list ] =>
        exists pre
    end; repeat rewrite <- app_assoc; reflexivity.
Qed.

End InstallVerdict.

(** C1 (defect of the code).  In the parallel install path a tool that is
    skipped is also counted as installed: with four tools of which one is
    unknown to the repositories, the summary reports 4 of 4 installed and
    1 skipped, so the three counts add up to 5 and not to 4. *)
Theorem parallel_install_counts_overlap :
  let run := _parallel_install_tools fake_pkg_tools (boot "y" fake_pkg_apt) in
  fst run = Ret true
  /\ skipped_tools (shared (snd run))
     = [("totally-fake-pkg-xyz", "Package not found in repositories")]
  /\ failed_tools (shared (snd run)) = []
  /\ console (snd run) =
       [ Colors.CYAN ++ "[*] Installing tools in parallel... This may take a while."
         ++ Colors.RESET;
         String LF (Colors.CYAN ++ box_top);
         "║" ++ Colors.YELLOW ++ " Installation Summary " ++ Colors.CYAN ++ "║";
         box_bottom ++ Colors.RESET;
         Colors.GREEN ++ "✓ Successfully installed: 4/4 tools" ++ Colors.RESET;
         Colors.YELLOW ++ "⚠ Skipped (unavailable): 1 tools" ++ Colors.RESET;
         Colors.YELLOW ++ "    - totally-fake-pkg-xyz: Package not found in repositories"
         ++ Colors.RESET;
         String LF (Colors.GREEN
           ++ "[+] Installation completed - all available tools installed successfully"
           ++ Colors.RESET) ]
  /\ 4 + len_list (skipped_tools (shared (snd run)))
       + len_list (failed_tools (shared (snd run)))
     <> len_list fake_pkg_tools.
Proof. vm_compute. repeat split; try reflexivity. discriminate. Qed.

(** In general the counts of the parallel install path satisfy
    [successful + failed = total] and [skipped <= successful]: the three
    of them add up to [total + skipped]. *)
Lemma parallel_install_counts (host : Host) (tools : list string) (st : State) :
  exists results st1,
    executor_map install_single_tool tools (install_start st) = (Ret results, st1)
    /\ sum_bools results + len_list (skipped_tools (shared st1))
         + len_list (failed_tools (shared st1))
       = len_list tools + len_list (skipped_tools (shared st1)).
Proof.
  destruct (parallel_install_outcome tools st) as [results [st1 [Hmap H]]].
  exists results, st1. split; [exact Hmap|]. cbv zeta in H. lia.
Qed.

(** C2 (as amended).  For an install batch run by the parallel path, with
    [installable = total - skipped]: when [installable] is 0 the call
    returns [False]; when nothing failed it returns [True]; when something
    failed and the number of failures differs from the number of skipped
    tools, the call returns [True] if [failed / installable <= 0.3] and
    otherwise raises a [ToolInstallationError] whose message gives the two
    numbers, after printing the first five failed tools at most. *)
Theorem parallel_install_threshold :
  forall (host : Host) (tools : list string) (st : State),
    let run := _parallel_install_tools tools st in
    let failed_list := failed_tools (shared (snd run)) in
    let failed := len_list failed_list in
    let skipped := len_list (skipped_tools (shared (snd run))) in
    let installable := len_list tools - skipped in
    (installable = 0 -> fst run = Ret false)
    /\ (installable <> 0 -> failed = 0 -> fst run = Ret true)
    /\ (failed <> 0 -> failed <> skipped -> 10 * failed <= 3 * installable ->
        fst run = Ret true)
    /\ (failed <> 0 -> failed <> skipped -> 3 * installable < 10 * failed ->
        let msg := "Error during parallel installation: "
                   ++ "Too many installation failures: " ++ str_of_int failed ++ "/"
                   ++ str_of_int installable ++ " installable tools failed" in
        fst run = Raise (simple_exn ToolInstallationError msg)
        /\ exists before,
            console (snd run) =
              (before
               ++ [critical_header]
               ++ map failure_line (firstn 5 failed_list)
               ++ (if failed >? 5 then [and_more failed] else [])
               ++ [handler_line msg])%list).
Proof.
  intros host tools st. cbv zeta.
  destruct (parallel_install_outcome tools st)
    as [results [st1 [_ [Hsum [Hsk [_ [_ [Hv [Hsh [_ Hcon]]]]]]]]]].
  rewrite Hsh.
  set (run := _parallel_install_tools tools st) in *.
  set (f := len_list (failed_tools (shared st1))) in *.
  set (k := len_list (skipped_tools (shared st1))) in *.
  set (s := sum_bools results) in *.
  assert (Hf : 0 <= f) by (unfold f, len_list; lia).
  unfold install_verdict in Hv.
  assert (Hraise : f <> 0 -> f <> k -> 3 * (len_list tools - k) < 10 * f ->
                   fst run = Raise (simple_exn ToolInstallationError
                     ("Error during parallel installation: "
                      ++ too_many f (len_list tools - k)))).
  { intros Hn Hd Hlt. rewrite Hv. decide_tests. reflexivity. }
  repeat split.
  - intros H0. rewrite Hv. decide_tests. reflexivity.
  - intros Hn H0. rewrite Hv. decide_tests; reflexivity.
  - intros Hn Hd Hle. rewrite Hv. decide_tests. reflexivity.
  - apply Hraise; assumption.
  - destruct (Hcon _ (Hraise H H0 H1)) as [before Hb]. exists before. exact Hb.
Qed.

(** C2, witness: ten tools of which four fail, none skipped. *)
Lemma parallel_install_threshold_witness :
  fst (_parallel_install_tools ten_tools (boot "y" ten_tools_apt))
  = Raise (simple_exn ToolInstallationError
             "Error during parallel installation: Too many installation failures: 4/10 installable tools failed").
Proof.
  destruct (parallel_install_threshold (scripted_host "y" ten_tools_apt) ten_tools
              (boot "y" ten_tools_apt)) as [_ [_ [_ H]]].
  apply H; vm_compute; congruence.
Defined.

(** C2, as stated, fails in two ways.  First, the error that is raised
    carries the two counts and none of the failed packages: with ten tools
    of which four fail, its text names none of them.  Second, with two
    skipped and two failed tools out of four the rate is 2/2 and the call
    returns [True]. *)
Lemma parallel_install_threshold_counterexample :
  (let run := _parallel_install_tools ten_tools (boot "y" ten_tools_apt) in
   exists e,
     fst run = Raise e
     /\ klass e = ToolInstallationError
     /\ str_exn e = "Error during parallel installation: Too many installation failures: 4/10 installable tools failed"
     /\ details e = None /\ suggestion e = None
     /\ failed_names (snd run) = ["hydra"; "nikto"; "burpsuite"; "maltego"]
     /\ forall p, In p (failed_names (snd run)) -> str_in p (str_exn e) = false)
  /\
  (let run := _parallel_install_tools two_two_tools (boot "y" two_two_apt) in
   let failed := len_list (failed_tools (shared (snd run))) in
   let installable := len_list two_two_tools - len_list (skipped_tools (shared (snd run))) in
   fst run = Ret true
   /\ failed = 2 /\ installable = 2
   /\ ~ (failure_rate failed installable <= 3 # 10)%Q).
Proof.
  split.
  - eexists. vm_compute. repeat split; try reflexivity.
    intros p [<- | [<- | [<- | [<- | []]]]]; reflexivity.
  - vm_compute. repeat split; try reflexivity. intros H. apply H. reflexivity.
Qed.

(* ===================================================================== *)
(** * The small batches *)
(* ===================================================================== *)

Lemma drop_prefix_app (p r : string) : drop_prefix p (p ++ r) = Some r.
Proof.
  induction p as [|c p IH]; simpl; [reflexivity|].
  rewrite Ascii.eqb_refl. exact IH.
Qed.

Lemma drop_prefix_spec (p s r : string) : drop_prefix p s = Some r -> s = p ++ r.
Proof.
  revert s. induction p as [|c p IH]; intros s; simpl.
  - intros H. injection H as ->. reflexivity.
  - destruct s as [|d s]; [discriminate|].
    destruct (Ascii.eqb c d) eqn:E; [|discriminate].
    apply Ascii.eqb_eq in E. subst d. intros H. rewrite (IH _ H). reflexivity.
Qed.

Lemma take_nonspace_spec (s : string) :
  exists b,
    s = take_nonspace s ++ b
    /\ (forall c, In c (list_ascii_of_string (take_nonspace s)) -> isspace c = false)
    /\ (b = "" \/ exists c b', b = String c b' /\ isspace c = true).
Proof.
  induction s as [|c s [b [Hs [Hw Hb]]]]; simpl.
  - exists "". simpl. split; [reflexivity|]. split; [intros c []| left; reflexivity].
  - destruct (isspace c) eqn:E.
    + exists (String c s). simpl. split; [reflexivity|]. split; [intros d []|].
      right. exists c, s. auto.
    + exists b. simpl. split; [rewrite <- Hs; reflexivity|]. split; [|exact Hb].
      intros d [<- | Hd]; [exact E | apply Hw; exact Hd].
Qed.

(** What the pattern match returns is a word that follows the literal. *)
Lemma re_search_word_after_sound (p s g : string) :
  re_search_word_after p s = Some g -> word_after p g s.
Proof.
  induction s as [|c s IH].
  - simpl. destruct (drop_prefix p "") as [rest|] eqn:Hd.
    + destruct (take_nonspace rest) as [|d w] eqn:Hw; [discriminate|].
      intros H. injection H as <-.
      destruct (take_nonspace_spec rest) as [b [Hs [Hns Hb]]]. rewrite Hw in Hs, Hns.
      exists "", b. simpl. split.
      * rewrite (drop_prefix_spec _ _ _ Hd). rewrite Hs at 1. reflexivity.
      * split; [discriminate | split; assumption].
    + discriminate.
  - cbn [re_search_word_after].
    destruct (drop_prefix p (String c s)) as [rest|] eqn:Hd.
    + destruct (take_nonspace rest) as [|d w] eqn:Hw.
      * intros H. destruct (IH H) as [a [b [Hs Hrest]]].
        exists (String c a), b. simpl. rewrite Hs. auto.
      * intros H. injection H as <-.
        destruct (take_nonspace_spec rest) as [b [Hs [Hns Hb]]]. rewrite Hw in Hs, Hns.
        exists "", b. simpl. split.
        -- rewrite (drop_prefix_spec _ _ _ Hd). rewrite Hs at 1. reflexivity.
        -- split; [discriminate | split; assumption].
    + intros H. destruct (IH H) as [a [b [Hs Hrest]]].
      exists (String c a), b. simpl. rewrite Hs. auto.
Qed.

(** The pattern match finds a word as soon as the literal is followed by a
    character other than white space somewhere in the text. *)
Lemma re_search_word_after_finds (p a : string) (c : ascii) (b : string) :
  isspace c = false ->
  exists g, re_search_word_after p (a ++ p ++ String c b) = Some g.
Proof.
  intros Hc. induction a as [|d a [g IH]].
  - simpl append. destruct (p ++ String c b) as [|x y] eqn:Hs.
    + destruct p; discriminate.
    + cbn [re_search_word_after]. rewrite <- Hs, drop_prefix_app. simpl. rewrite Hc.
      eexists. reflexivity.
  - simpl append. cbn [re_search_word_after].
    destruct (drop_prefix p (String d (a ++ p ++ String c b))) as [rest|].
    + destruct (take_nonspace rest); [exists g; exact IH | eexists; reflexivity].
    + exists g. exact IH.
Qed.

Lemma startswith_drop_prefix (p s : string) :
  startswith p s = false -> drop_prefix p s = None.
Proof.
  revert s. induction p as [|c p IH]; intros s; simpl; [discriminate|].
  destruct s as [|d s]; [reflexivity|].
  destruct (Ascii.eqb c d); simpl; [apply IH | reflexivity].
Qed.

Lemma take_nonspace_word (name b : string) :
  (forall c, In c (list_ascii_of_string name) -> isspace c = false) ->
  ends_word b ->
  take_nonspace (name ++ b) = name.
Proof.
  intros Hw Hb. induction name as [|c name IH]; simpl.
  - destruct Hb as [-> | [c [b' [-> Hc]]]]; simpl; [reflexivity | rewrite Hc; reflexivity].
  - rewrite (Hw c (or_introl eq_refl)). rewrite IH; [reflexivity|].
    intros d Hd. apply Hw. right. exact Hd.
Qed.

(** The pattern match returns the word that follows the first occurrence
    of the literal, when a word follows it. *)
Lemma re_search_word_after_first (p a name b : string) :
  first_occurrence p a (name ++ b) ->
  is_word name ->
  ends_word b ->
  re_search_word_after p (a ++ p ++ name ++ b) = Some name.
Proof.
  intros Hfirst [Hne Hw] Hb. induction a as [|d a IH].
  - simpl append.
    assert (Hhere : match drop_prefix p (p ++ name ++ b) with
                    | Some rest => match take_nonspace rest with
                                   | "" => None
                                   | w => Some w
                                   end
                    | None => None
                    end = Some name).
    { rewrite drop_prefix_app, (take_nonspace_word name b Hw Hb).
      destruct name; [congruence | reflexivity]. }
    destruct (p ++ name ++ b) as [|x y] eqn:Hs; cbn [re_search_word_after];
      rewrite Hhere; reflexivity.
  - simpl append. cbn [re_search_word_after].
    rewrite (startswith_drop_prefix p (String d (a ++ p ++ name ++ b))).
    + apply IH. intros a1 a2 Ha Hn. apply (Hfirst (String d a1) a2); [|exact Hn].
      simpl. rewrite Ha. reflexivity.
    + apply (Hfirst "" (String d a)); [reflexivity | discriminate].
Qed.

Section SmallBatches.
Context {host : Host}.

(** [_batch_install_tools] from the answer of its one command on. *)
Lemma batch_install_after_run (tools : list string) (st st1 : State)
    (rc : Z) (out stderr : string) :
  run_command ("apt install -y " ++ join " " tools) true true
    (mkState (world st)
       (console st ++ [Colors.CYAN ++ "[*] Installing tools... This may take a while."
                       ++ Colors.RESET])
       (shared st))
  = (Ret (Captured rc out stderr), st1) ->
  let run := _batch_install_tools tools st in
  world (snd run) = world st1
  /\ shared (snd run) = shared st1
  /\ fst run =
       if rc =? 0 then Ret true
       else if str_in "Could not resolve" stderr || str_in "Failed to fetch" stderr then
         Raise (simple_exn NetworkError
                  "Network error while installing tools: Could not fetch packages")
       else if str_in "Permission denied" stderr
               || str_in "requires root privileges" stderr then
         Raise (simple_exn PermissionError
                  "Permission denied while installing tools. Please run as root.")
       else if str_in "Unable to locate package" stderr then
         Raise (simple_exn ToolInstallationError
                  ("Package "
                   ++ match re_search_word_after "Unable to locate package " stderr with
                      | Some g => g
                      | None => "some packages"
                      end
                   ++ " not found in the repositories"))
       else Raise (simple_exn ToolInstallationError "Failed to install some tools").
Proof.
  intros Hrun run. subst run.
  remember (_batch_install_tools tools st) as outcome eqn:Ho.
  unfold _batch_install_tools in Ho.
  unfold bind at 1 in Ho. cbn [print] in Ho. rewrite (bind_ret_eq Hrun) in Ho.
  unfold bind at 1 in Ho. cbn [unpack3 ret] in Ho.
  destruct (rc =? 0);
    [|destruct (str_in "Could not resolve" stderr || str_in "Failed to fetch" stderr);
      [|destruct (str_in "Permission denied" stderr
                  || str_in "requires root privileges" stderr);
        [|destruct (str_in "Unable to locate package" stderr)]]];
    subst outcome; run_m; repeat split; reflexivity.
Qed.

(** A command that passes the security check is run once, and [run_command] reports
    the answer of the host. *)
Lemma run_command_reports (command : string) (st : State) :
  passes_check command ->
  run_command command true true st =
    (Ret (Captured (exit_code_of (fst (subprocess_run command (world st))))
                   (stdout_of (fst (subprocess_run command (world st))))
                   (stderr_of (fst (subprocess_run command (world st))))),
     mkState (snd (subprocess_run command (world st))) (console st) (shared st)).
Proof.
  intros Hg. rewrite run_command_clean.
  - destruct (subprocess_run command (world st)) as [[rc out err|text] w]; reflexivity.
  - apply sanitize_scan_clean. intros p Hp. apply str_in_false_spec. apply Hg. exact Hp.
Qed.

Lemma check_refuses (command : string) :
  (exists p, In p dangerous_patterns /\ is_substring p command) ->
  exists p, In p dangerous_patterns /\ sanitize_command command = Raise (security_error p).
Proof.
  intros [p [Hp Hs]].
  destruct (sanitize_scan_hit dangerous_patterns command) as [q [Hq [_ Hr]]].
  - exists p. split; [exact Hp | apply str_in_spec; exact Hs].
  - exists q. auto.
Qed.

End SmallBatches.

Lemma either_text (a b s : string) :
  str_in a s || str_in b s = true <-> is_substring a s \/ is_substring b s.
Proof. rewrite orb_true_iff, !str_in_spec. tauto. Qed.

Lemma neither_text (a b s : string) :
  ~ (is_substring a s \/ is_substring b s) -> str_in a s || str_in b s = false.
Proof.
  intros H. destruct (str_in a s || str_in b s) eqn:E; [|reflexivity].
  exfalso. apply H. apply either_text. exact E.
Qed.

Lemma no_text (a s : string) : ~ is_substring a s -> str_in a s = false.
Proof. apply str_in_false_spec. Qed.

Lemma word_after_found (p name s : string) :
  word_after p name s -> re_search_word_after p s <> None.
Proof.
  intros [a [b [Hs [Hne [Hns _]]]]]. destruct name as [|c name]; [congruence|].
  subst s. simpl append.
  destruct (re_search_word_after_finds p a c (name ++ b)) as [g Hg].
  - apply Hns. simpl. left. reflexivity.
  - rewrite Hg. discriminate.
Qed.

(** C3 (as amended).  A small install batch builds one command with the
    package names joined by spaces.  When the command contains a dangerous
    pattern, nothing is run and a [SecurityError] is raised.  Otherwise the
    command is run exactly once and its answer decides, first match first:
    exit code 0 returns [True]; a network text raises [NetworkError]; a
    permission text raises [PermissionError]; [Unable to locate package]
    raises a [ToolInstallationError] that names the word found after it by
    the pattern match (or [some packages] when there is no such word);
    anything else raises the generic [ToolInstallationError]. *)
Theorem batch_install_typed_errors :
  forall (host : Host) (tools : list string) (st : State),
    let cmd := "apt install -y " ++ join " " tools in
    let run := _batch_install_tools tools st in
    let answer := fst (subprocess_run cmd (world st)) in
    let rc := exit_code_of answer in
    let stderr := stderr_of answer in
    ((exists p, In p dangerous_patterns /\ is_substring p cmd) ->
     exists e, fst run = Raise e /\ klass e = SecurityError /\ world (snd run) = world st)
    /\
    (passes_check cmd ->
     world (snd run) = snd (subprocess_run cmd (world st))
     /\ (rc = 0 -> fst run = Ret true)
     /\ (rc <> 0 -> network_text stderr ->
         fst run = Raise (simple_exn NetworkError
                     "Network error while installing tools: Could not fetch packages"))
     /\ (rc <> 0 -> ~ network_text stderr -> permission_text stderr ->
         fst run = Raise (simple_exn PermissionError
                     "Permission denied while installing tools. Please run as root."))
     /\ (rc <> 0 -> ~ network_text stderr -> ~ permission_text stderr ->
         is_substring "Unable to locate package" stderr ->
         exists package,
           fst run = Raise (simple_exn ToolInstallationError
                       ("Package " ++ package ++ " not found in the repositories"))
           /\ (word_after "Unable to locate package " package stderr
               \/ (package = "some packages"
                   /\ forall name, ~ word_after "Unable to locate package " name stderr))
           /\ (forall a name b,
                 stderr = a ++ "Unable to locate package " ++ name ++ b ->
                 first_occurrence "Unable to locate package " a (name ++ b) ->
                 is_word name -> ends_word b ->
                 package = name))
     /\ (rc <> 0 -> ~ network_text stderr -> ~ permission_text stderr ->
         ~ is_substring "Unable to locate package" stderr ->
         fst run = Raise (simple_exn ToolInstallationError "Failed to install some tools"))).
Proof.
  intros host tools st cmd run answer rc stderr. split.
  - intros Hd. destruct (check_refuses cmd Hd) as [p [_ Hp]].
    exists (security_error p).
    assert (Heq : run = (Raise (security_error p),
                         mkState (world st)
                           (console st ++ [Colors.CYAN
                              ++ "[*] Installing tools... This may take a while."
                              ++ Colors.RESET])
                           (shared st))).
    { subst run. unfold _batch_install_tools. unfold bind at 1. cbn [print]. fold cmd.
      apply bind_raise_eq. apply run_command_refused. exact Hp. }
    rewrite Heq. repeat split.
  - intros Hg.
    pose proof (batch_install_after_run tools st _ _ _ _
                  (run_command_reports cmd _ Hg)) as [Hw [_ Hv]].
    cbn [world] in Hw, Hv. fold cmd answer rc stderr run in Hw, Hv.
    split; [exact Hw|].
    split; [intros H0; rewrite Hv; decide_tests; reflexivity|].
    split.
    { intros Hn Hnet. rewrite Hv. decide_tests.
      rewrite (proj2 (either_text _ _ _) Hnet). reflexivity. }
    split.
    { intros Hn Hnet Hperm. rewrite Hv. decide_tests.
      rewrite (neither_text _ _ _ Hnet), (proj2 (either_text _ _ _) Hperm). reflexivity. }
    split.
    { intros Hn Hnet Hperm Hun. rewrite Hv. decide_tests.
      rewrite (neither_text _ _ _ Hnet), (neither_text _ _ _ Hperm),
        (proj2 (str_in_spec _ _) Hun).
      assert (Hfirst : forall a name b,
                 stderr = a ++ "Unable to locate package " ++ name ++ b ->
                 first_occurrence "Unable to locate package " a (name ++ b) ->
                 is_word name -> ends_word b ->
                 re_search_word_after "Unable to locate package " stderr = Some name).
      { intros a name b Hs Hf Hword Hb. rewrite Hs.
        apply re_search_word_after_first; assumption. }
      destruct (re_search_word_after "Unable to locate package " stderr) as [g|] eqn:Hre.
      - exists g. split; [reflexivity|]. split.
        + left. apply re_search_word_after_sound. exact Hre.
        + intros a name b Hs Hf Hword Hb.
          pose proof (Hfirst a name b Hs Hf Hword Hb) as E. congruence.
      - exists "some packages". split; [reflexivity|]. split.
        + right. split; [reflexivity|].
          intros name Hname. apply (word_after_found _ _ _ Hname). exact Hre.
        + intros a name b Hs Hf Hword Hb.
          pose proof (Hfirst a name b Hs Hf Hword Hb) as E. discriminate. }
    intros Hn Hnet Hperm Hun. rewrite Hv. decide_tests.
    rewrite (neither_text _ _ _ Hnet), (neither_text _ _ _ Hperm), (no_text _ _ Hun).
    reflexivity.
Qed.

Section InstallDispatch.
Context {host : Host}.

(** With the confirmation skipped and the repository in place,
    [install_tools] runs a list of at most three tools as one batch. *)
Lemma install_tools_small (tools : list string) (st : State) (w0 : World) :
  add_repository (world st) = (Ret true, w0) ->
  len_list tools <= 3 ->
  install_tools tools true st =
    try_except (_batch_install_tools tools)
      (reraise_or_wrap [RepositoryError; NetworkError; PermissionError; ToolInstallationError]
         "Unexpected error installing tools: ")
      (install_ready st w0 tools).
Proof.
  intros Hrepo Hlen. unfold install_tools, try_except.
  cbn [negb]. unfold bind at 1. cbn [ret negb].
  unfold ensure_repository.
  unfold bind at 1. unfold bind at 1. cbn [print]. unfold bind at 1.
  unfold host_call_result. cbn [world console shared]. rewrite Hrepo. cbn [ret].
  unfold bind at 1. cbn [print world console shared].
  replace (len_list tools <=? 3) with true by (symmetry; apply Z.leb_le; exact Hlen).
  reflexivity.
Qed.

End InstallDispatch.

(** C3, witness: the three tools of which the last is unknown, and the
    package whose name the security check refuses. *)
Lemma batch_install_typed_errors_witness :
  (exists package,
     fst (_batch_install_tools three_tools (boot "y" three_tools_apt))
     = Raise (simple_exn ToolInstallationError
                ("Package " ++ package ++ " not found in the repositories")))
  /\ exists e,
       fst (_batch_install_tools ["mkfs"] (boot "y" three_tools_apt)) = Raise e
       /\ klass e = SecurityError.
Proof.
  split.
  - destruct (batch_install_typed_errors (scripted_host "y" three_tools_apt) three_tools
                (boot "y" three_tools_apt)) as [_ H].
    assert (Hg : passes_check ("apt install -y " ++ join " " three_tools)).
    { intros p Hp. apply str_in_false_spec. simpl in Hp.
      repeat (destruct Hp as [<- | Hp]; [reflexivity|]). destruct Hp. }
    destruct (H Hg) as [_ [_ [_ [_ [Hun _]]]]].
    destruct Hun as [package [Hr _]].
    + vm_compute. discriminate.
    + intros [Hn | Hn]; apply str_in_spec in Hn; vm_compute in Hn; discriminate.
    + intros [Hn | Hn]; apply str_in_spec in Hn; vm_compute in Hn; discriminate.
    + apply str_in_spec. reflexivity.
    + exists package. exact Hr.
  - destruct (batch_install_typed_errors (scripted_host "y" three_tools_apt) ["mkfs"]
                (boot "y" three_tools_apt)) as [H _].
    destruct H as [e [He [Hk _]]].
    + exists "mkfs". split; [simpl; tauto | apply str_in_spec; reflexivity].
    + exists e. auto.
Defined.

(** C3, as stated, fails for a batch whose command the security check refuses: for
    the package [mkfs] no command is run at all and the error is a
    [SecurityError], which [install_tools] turns into a
    [ToolInstallationError]. *)
Lemma batch_install_typed_errors_counterexample :
  (let run := _batch_install_tools ["mkfs"] (boot "y" three_tools_apt) in
   fst run = Raise (security_error "mkfs") /\ world (snd run) = [])
  /\
  (let run := install_tools ["mkfs"] true (boot "y" three_tools_apt) in
   fst run = Raise (simple_exn ToolInstallationError
                      ("Unexpected error installing tools: "
                       ++ str_exn (security_error "mkfs")))
   /\ world (snd run) = []).
Proof. vm_compute. repeat split. Qed.

(** C5 (as amended).  Installing [nmap], [wireshark] and
    [totally-fake-pkg-xyz] together (confirmation skipped, repository in
    place) runs the one combined command; when it
    exits with a non-zero code and an error text that contains
    [Unable to locate package totally-fake-pkg-xyz] (and no network or
    permission text), the call raises a [ToolInstallationError] naming the
    package found by the pattern match.  Nothing is returned and no
    per-package count is made. *)
Theorem small_batch_missing_package_raises :
  forall (host : Host) (st : State) (w0 : World),
    let cmd := "apt install -y nmap wireshark totally-fake-pkg-xyz" in
    let answer := fst (subprocess_run cmd w0) in
    let run := install_tools three_tools true st in
    add_repository (world st) = (Ret true, w0) ->
    exit_code_of answer <> 0 ->
    ~ network_text (stderr_of answer) ->
    ~ permission_text (stderr_of answer) ->
    is_substring "Unable to locate package totally-fake-pkg-xyz" (stderr_of answer) ->
    exists package,
      fst run = Raise (simple_exn ToolInstallationError
                  ("Package " ++ package ++ " not found in the repositories"))
      /\ word_after "Unable to locate package " package (stderr_of answer)
      /\ world (snd run) = snd (subprocess_run cmd w0)
      /\ shared (snd run) = shared st.
Proof.
  intros host st w0 cmd answer run Hrepo Hrc Hnet Hperm Hun.
  assert (Hg : passes_check cmd).
  { intros p Hp. apply str_in_false_spec. simpl in Hp.
    repeat (destruct Hp as [<- | Hp]; [reflexivity|]). destruct Hp. }
  pose proof (batch_install_after_run three_tools (install_ready st w0 three_tools) _ _ _ _
                (run_command_reports cmd _ Hg)) as [Hw [Hsh Hv]].
  cbn [world shared install_ready] in Hw, Hsh, Hv. fold answer in Hv.
  destruct Hun as [a [b Hun]].
  assert (Hlit : is_substring "Unable to locate package" (stderr_of answer)).
  { exists a, (" totally-fake-pkg-xyz" ++ b). rewrite Hun. reflexivity. }
  destruct (re_search_word_after_finds "Unable to locate package " a "t"
              ("otally-fake-pkg-xyz" ++ b) eq_refl) as [g Hg'].
  assert (Hre : re_search_word_after "Unable to locate package " (stderr_of answer) = Some g).
  { rewrite Hun. exact Hg'. }
  rewrite Hre in Hv.
  replace (exit_code_of answer =? 0) with false in Hv by (symmetry; apply Z.eqb_neq; exact Hrc).
  rewrite (neither_text _ _ _ Hnet), (neither_text _ _ _ Hperm),
    (proj2 (str_in_spec _ _) Hlit) in Hv.
  exists g. subst run. rewrite (install_tools_small three_tools st w0 Hrepo) by (vm_compute; discriminate).
  unfold try_except.
  destruct (_batch_install_tools three_tools (install_ready st w0 three_tools)) as [r st'].
  cbn [fst snd] in *. subst r. cbn.
  repeat split; try assumption.
  apply re_search_word_after_sound. exact Hre.
Qed.

(** C5, witness: the package manager that knows [nmap] and [wireshark]. *)
Lemma small_batch_missing_package_raises_witness :
  exists package,
    fst (install_tools three_tools true (boot "y" three_tools_apt))
    = Raise (simple_exn ToolInstallationError
               ("Package " ++ package ++ " not found in the repositories")).
Proof.
  destruct (small_batch_missing_package_raises (scripted_host "y" three_tools_apt)
              (boot "y" three_tools_apt) []) as [package [Hr _]].
  - reflexivity.
  - vm_compute. discriminate.
  - intros [Hn | Hn]; apply str_in_spec in Hn; vm_compute in Hn; discriminate.
  - intros [Hn | Hn]; apply str_in_spec in Hn; vm_compute in Hn; discriminate.
  - apply str_in_spec. reflexivity.
  - exists package. exact Hr.
Defined.

(** C5, as stated, fails: the three tools go through the combined command,
    which the unknown package makes fail, and the call raises instead of
    returning [True]; no tool is counted as skipped. *)
Lemma small_batch_missing_package_counterexample :
  let run := install_tools three_tools true (boot "y" three_tools_apt) in
  fst run = Raise (simple_exn ToolInstallationError
                     "Package totally-fake-pkg-xyz not found in the repositories")
  /\ fst run <> Ret true
  /\ world (snd run) = ["apt install -y nmap wireshark totally-fake-pkg-xyz"]
  /\ skipped_tools (shared (snd run)) = [].
Proof. vm_compute. repeat split. discriminate. Qed.

(* ===================================================================== *)
(** * Skippable errors in the parallel install path *)
(* ===================================================================== *)

Lemma skipn_length_app {A} (l x : list A) : skipn (List.length l) (l ++ x) = x.
Proof. induction l as [|a l IH]; simpl; [reflexivity | exact IH]. Qed.

Lemma skipn_length_self {A} (l : list A) : skipn (List.length l) l = [].
Proof. induction l as [|a l IH]; simpl; [reflexivity | exact IH]. Qed.

Section Skippable.
Context {host : Host}.

(** [install_single_tool] on a tool whose command fails: the fallback
    strategies run, and their result and the error text decide. *)
Lemma install_single_tool_failed_command (tool : string) (st : State) :
  install_fails tool st ->
  exists recovered st2,
    _try_installation_fallbacks tool (install_stderr tool st) (after_install_command tool st)
      = (Ret recovered, st2)
    /\ shared st2 = shared (after_install_command tool st)
    /\ install_single_tool tool st =
         if recovered then (Ret true, st2)
         else if _is_skippable_error (install_stderr tool st)
              then (Ret true, add_skipped (tool, _get_error_reason (install_stderr tool st)) st2)
              else (Ret false, add_failed (tool, install_stderr tool st) st2).
Proof.
  intros [Hg Hrc]. pose proof (install_single_tool_cases tool st) as H.
  rewrite (run_command_reports _ st Hg) in H.
  replace (exit_code_of (fst (subprocess_run ("apt install -y " ++ tool) (world st))) =? 0)
    with false in H by (symmetry; apply Z.eqb_neq; exact Hrc).
  exact H.
Qed.

(** A worker that returns [False] somewhere in a batch, for each failure. *)
Lemma executor_map_failure_origin (worker : string -> M bool) :
  worker_step worker ->
  forall (tools : list string) (st st' : State) (results : list bool),
    executor_map worker tools st = (Ret results, st') ->
    forall t, In t (failures_of tools results) ->
              exists st0, fst (worker t st0) = Ret false.
Proof.
  intros Hw tools. induction tools as [|x xs IH]; intros st st' results Hmap t Ht.
  - simpl in Hmap. injection Hmap as <- _. destruct Ht.
  - simpl executor_map in Hmap.
    destruct (Hw x st) as [b [st1 [Hrun _]]]. rewrite (bind_ret_eq Hrun) in Hmap.
    destruct (executor_map worker xs st1) as [[rs|e] st2] eqn:Hrest.
    + rewrite (bind_ret_eq Hrest) in Hmap. injection Hmap as <- _.
      simpl in Ht. destruct b.
      * exact (IH _ _ _ Hrest t Ht).
      * destruct Ht as [<- | Ht]; [|exact (IH _ _ _ Hrest t Ht)].
        exists st. rewrite Hrun. reflexivity.
    + rewrite (bind_raise_eq Hrest) in Hmap. discriminate.
Qed.

End Skippable.

(** C4 (as amended).  In the parallel install path, a package whose
    install command fails with an error text that [_is_skippable_error]
    accepts is never recorded as failed: its worker returns [True] and
    leaves [failed_tools] alone.  It is recorded as skipped, with the
    reason read from the text, when none of the fallback strategies
    installs it; when one of them does, nothing is recorded.  A tool whose
    command always fails in this way is not among the failures that the
    verdict of the batch counts. *)
Theorem skippable_error_is_not_a_failure :
  forall (host : Host) (tool : string) (st : State),
    install_fails tool st ->
    _is_skippable_error (install_stderr tool st) = true ->
    let run := install_single_tool tool st in
    let fallbacks :=
      _try_installation_fallbacks tool (install_stderr tool st)
        (after_install_command tool st) in
    fst run = Ret true
    /\ failed_tools (shared (snd run)) = failed_tools (shared st)
    /\ (fst fallbacks = Ret false ->
        skipped_tools (shared (snd run))
        = (skipped_tools (shared st)
           ++ [(tool, _get_error_reason (install_stderr tool st))])%list)
    /\ (fst fallbacks = Ret true ->
        skipped_tools (shared (snd run)) = skipped_tools (shared st))
    /\ forall (tools : list string) (st0 : State),
         (forall st1, install_fails tool st1
                      /\ _is_skippable_error (install_stderr tool st1) = true) ->
         ~ In tool (failed_names (snd (_parallel_install_tools tools st0))).
Proof.
  intros host tool st Hf Hskip run fallbacks.
  assert (Hworker : forall st1,
             install_fails tool st1 ->
             _is_skippable_error (install_stderr tool st1) = true ->
             fst (install_single_tool tool st1) = Ret true).
  { intros st1 Hf1 Hs1.
    destruct (install_single_tool_failed_command tool st1 Hf1) as [rec [st2 [_ [_ Hrun]]]].
    rewrite Hrun, Hs1. destruct rec; reflexivity. }
  destruct (install_single_tool_failed_command tool st Hf) as [rec [st2 [Hfb [Hsh Hrun]]]].
  subst run fallbacks. rewrite Hrun, Hfb, Hskip. cbn [fst].
  repeat split.
  - destruct rec; reflexivity.
  - destruct rec; cbn; rewrite Hsh; reflexivity.
  - intros Hr. injection Hr as ->. cbn. rewrite Hsh. reflexivity.
  - intros Hr. injection Hr as ->. cbn. rewrite Hsh. reflexivity.
  - intros tools st0 Hall Hin.
    destruct (parallel_install_outcome tools st0)
      as [results [st1 [Hmap [_ [_ [Hnames [_ [_ [Hshared _]]]]]]]]].
    unfold failed_names in Hin, Hnames. rewrite Hshared, Hnames in Hin.
    destruct (executor_map_failure_origin _ install_single_tool_step _ _ _ _ Hmap _ Hin)
      as [st2' Hfalse].
    destruct (Hall st2') as [Hf2 Hs2]. rewrite (Hworker st2' Hf2 Hs2) in Hfalse.
    discriminate.
Qed.

(** C4, witness: the unknown package of the four-tool scenario is
    recorded as skipped and is not among the failures of the batch. *)
Lemma skippable_error_is_not_a_failure_witness :
  skipped_tools
    (shared (snd (install_single_tool "totally-fake-pkg-xyz" (boot "y" fake_pkg_apt))))
  = [("totally-fake-pkg-xyz", "Package not found in repositories")]
  /\ ~ In "totally-fake-pkg-xyz"
         (failed_names (snd (_parallel_install_tools fake_pkg_tools
                               (boot "y" fake_pkg_apt)))).
Proof.
  assert (Hf : forall st1 : @State (scripted_host "y" fake_pkg_apt),
             install_fails "totally-fake-pkg-xyz" st1).
  { intros st1. split.
    - intros p Hp. apply str_in_false_spec. simpl in Hp.
      repeat (destruct Hp as [<- | Hp]; [reflexivity|]). destruct Hp.
    - vm_compute. discriminate. }
  destruct (skippable_error_is_not_a_failure (scripted_host "y" fake_pkg_apt)
              "totally-fake-pkg-xyz" (boot "y" fake_pkg_apt) (Hf _) eq_refl)
    as [_ [_ [H [_ Hbatch]]]].
  split.
  - apply H. reflexivity.
  - apply Hbatch. intros st1. split; [apply Hf | reflexivity].
Defined.

(** C4, as stated, fails when a fallback strategy installs the package:
    [enum4linux] is unknown to the repositories, its error text is
    skippable, and the alternative name [enum4linux-ng] installs; the tool
    is then counted as installed and is not in the skipped list. *)
Lemma skippable_error_is_not_a_failure_counterexample :
  let st := boot "y" renamed_apt in
  let run := _parallel_install_tools renamed_tools st in
  In "enum4linux" renamed_tools
  /\ exit_code_of (renamed_apt "apt install -y enum4linux") <> 0
  /\ stderr_of (renamed_apt "apt install -y enum4linux")
     = "E: Unable to locate package enum4linux"
  /\ _is_skippable_error (stderr_of (renamed_apt "apt install -y enum4linux")) = true
  /\ fst run = Ret true
  /\ skipped_tools (shared (snd run)) = []
  /\ failed_tools (shared (snd run)) = []
  /\ In (Colors.GREEN ++ "✓ Successfully installed: 4/4 tools" ++ Colors.RESET)
        (console (snd run))
  /\ In "apt install -y enum4linux-ng" (world (snd run)).
Proof.
  vm_compute. repeat split; try reflexivity; try discriminate; auto 20.
Qed.

(* ===================================================================== *)
(** * Determinism of the classification *)
(* ===================================================================== *)

Section Determinism.
Context {host : Host}.

(** What [install_single_tool] records for a tool whose command and
    fallbacks all fail is the classification of the error text. *)
Lemma install_single_tool_records (tool : string) (st : State) :
  install_fails tool st ->
  fst (_try_installation_fallbacks tool (install_stderr tool st)
         (after_install_command tool st)) = Ret false ->
  let run := install_single_tool tool st in
  fst run = Ret (_is_skippable_error (install_stderr tool st))
  /\ recorded (shared st) (shared (snd run)) = classify_failure (install_stderr tool st).
Proof.
  intros Hf Hfb run.
  destruct (install_single_tool_failed_command tool st Hf) as [rec [st2 [Hfb' [Hsh Hrun]]]].
  rewrite Hfb' in Hfb. cbn [fst] in Hfb. injection Hfb as ->.
  subst run. rewrite Hrun. unfold classify_failure, recorded.
  destruct (_is_skippable_error (install_stderr tool st)); cbn; rewrite Hsh; cbn.
  - rewrite skipn_length_self, skipn_length_app. auto.
  - rewrite skipn_length_app. auto.
Qed.

End Determinism.

(** C8.  The classification is a function of the error text alone: two
    equal texts get the same skippable verdict and the same reason from
    [_is_skippable_error] and [_get_error_reason].  Nothing else enters the
    classification that a run records: whatever the host, the tool and the
    state of two runs, two install workers whose commands fail with these
    texts (and whose fallbacks fail) return the same value and record the
    same classification, the one of [classify_failure]. *)
Theorem classification_deterministic :
  forall (stderr1 stderr2 : string),
    stderr1 = stderr2 ->
    (_is_skippable_error stderr1 = _is_skippable_error stderr2
     /\ _get_error_reason stderr1 = _get_error_reason stderr2
     /\ classify_failure stderr1 = classify_failure stderr2)
    /\
    forall (host1 host2 : Host) (tool1 tool2 : string)
           (st1 : @State host1) (st2 : @State host2),
      install_fails tool1 st1 ->
      install_fails tool2 st2 ->
      install_stderr tool1 st1 = stderr1 ->
      install_stderr tool2 st2 = stderr2 ->
      fst (_try_installation_fallbacks tool1 stderr1 (after_install_command tool1 st1))
        = Ret false ->
      fst (_try_installation_fallbacks tool2 stderr2 (after_install_command tool2 st2))
        = Ret false ->
      let run1 := install_single_tool tool1 st1 in
      let run2 := install_single_tool tool2 st2 in
      fst run1 = fst run2
      /\ recorded (shared st1) (shared (snd run1)) = classify_failure stderr1
      /\ recorded (shared st2) (shared (snd run2)) = classify_failure stderr1.
Proof.
  intros stderr1 stderr2 Heq. subst stderr2. split; [repeat split|].
  intros host1 host2 tool1 tool2 st1 st2 Hf1 Hf2 He1 He2 Hfb1 Hfb2 run1 run2.
  rewrite <- He1 in Hfb1. rewrite <- He2 in Hfb2.
  destruct (install_single_tool_records tool1 st1 Hf1 Hfb1) as [Hr1 Hc1].
  destruct (install_single_tool_records tool2 st2 Hf2 Hfb2) as [Hr2 Hc2].
  fold run1 in Hr1, Hc1. fold run2 in Hr2, Hc2.
  rewrite Hr1, Hr2, Hc1, Hc2, He1, He2. repeat split.
Qed.

(** C8, witness: [hydra] on one host and [nikto] on another, in different
    states, fail with the same text of [dpkg] and are both recorded as
    failed with the same reason. *)
Lemma classification_deterministic_witness :
  let st1 := boot "y" ten_tools_apt in
  let st2 := @mkState (scripted_host "n" two_two_apt) ["apt update -qq"] ["ready"]
               (mkShared 3 [("dnmap", "gone")] [] 0 0) in
  recorded (shared st1) (shared (snd (install_single_tool "hydra" st1)))
  = Failed dpkg_failure
  /\ recorded (shared st2) (shared (snd (install_single_tool "nikto" st2)))
     = Failed dpkg_failure.
Proof.
  intros st1 st2.
  assert (Hsafe : forall t, In t ["hydra"; "nikto"] -> passes_check ("apt install -y " ++ t)).
  { intros t Hin p Hp. apply str_in_false_spec. simpl in Hp, Hin.
    destruct Hin as [<- | [<- | []]];
      repeat (destruct Hp as [<- | Hp]; [reflexivity|]); destruct Hp. }
  destruct (classification_deterministic dpkg_failure dpkg_failure eq_refl) as [_ H].
  destruct (H (scripted_host "y" ten_tools_apt) (scripted_host "n" two_two_apt)
              "hydra" "nikto" st1 st2) as [_ [H1 H2]].
  - split; [apply Hsafe; simpl; auto | vm_compute; discriminate].
  - split; [apply Hsafe; simpl; auto | vm_compute; discriminate].
  - reflexivity.
  - reflexivity.
  - reflexivity.
  - reflexivity.
  - split; [rewrite H1 | rewrite H2]; reflexivity.
Defined.

(* ===================================================================== *)
(** * The parallel remove and update batches *)
(* ===================================================================== *)

Section RemoveUpdateWorkers.
Context {host : Host}.

(** The course of [remove_single_tool], by the outcome of its command. *)
Lemma remove_single_tool_cases (tool : string) (st : State) :
  match run_command ("apt remove -y " ++ tool) true true st with
  | (Raise e, st1) =>
      remove_single_tool tool st = (Ret false, add_failed (tool, str_exn e) st1)
  | (Ret (ExitCode _), _) => False
  | (Ret (Captured rc out err), st1) =>
      remove_single_tool tool st =
        if rc =? 0 then (Ret true, count_completed st1)
        else if str_in "Unable to locate package" err || str_in "is not installed" err
             then (Ret true, count_not_installed (count_completed st1))
             else (Ret false, add_failed (tool, err) (count_completed st1))
  end.
Proof.
  destruct (run_command ("apt remove -y " ++ tool) true true st) as [[r|e] st1] eqn:Hrun.
  - destruct (run_command_captures _ _ _ _ Hrun) as [rc [out [err ->]]].
    unfold remove_single_tool, try_except, bind. rewrite Hrun. simpl.
    destruct (rc =? 0); simpl; [reflexivity|].
    destruct (str_in "Unable to locate package" err || str_in "is not installed" err);
      reflexivity.
  - unfold remove_single_tool, try_except, bind. rewrite Hrun. reflexivity.
Qed.

(** The course of [update_single_tool], by the outcome of its command. *)
Lemma update_single_tool_cases (tool : string) (st : State) :
  match run_command ("apt install --only-upgrade -y " ++ tool) true true st with
  | (Raise e, st1) =>
      update_single_tool tool st = (Ret false, add_failed (tool, str_exn e) st1)
  | (Ret (ExitCode _), _) => False
  | (Ret (Captured rc out err), st1) =>
      update_single_tool tool st =
        if rc =? 0 then (Ret true, count_completed st1)
        else if str_in "is already the newest version" err
             then (Ret true, count_already_newest (count_completed st1))
             else (Ret false, add_failed (tool, err) (count_completed st1))
  end.
Proof.
  destruct (run_command ("apt install --only-upgrade -y " ++ tool) true true st)
    as [[r|e] st1] eqn:Hrun.
  - destruct (run_command_captures _ _ _ _ Hrun) as [rc [out [err ->]]].
    unfold update_single_tool, try_except, bind. rewrite Hrun. simpl.
    destruct (rc =? 0); simpl; [reflexivity|].
    destruct (str_in "is already the newest version" err); reflexivity.
  - unfold update_single_tool, try_except, bind. rewrite Hrun. reflexivity.
Qed.

Lemma remove_single_tool_step : worker_step remove_single_tool.
Proof.
  intros tool st. pose proof (remove_single_tool_cases tool st) as H.
  pose proof (keeps_run_command ("apt remove -y " ++ tool) true true st) as Hk.
  destruct (run_command ("apt remove -y " ++ tool) true true st) as [[r|e] st1];
    simpl in Hk.
  - destruct r as [c|rc out err]; [contradiction|].
    destruct (rc =? 0);
      [|destruct (str_in "Unable to locate package" err || str_in "is not installed" err)].
    + eexists true, _. split; [exact H|]. simpl. rewrite Hk. reflexivity.
    + eexists true, _. split; [exact H|]. simpl. rewrite Hk. reflexivity.
    + eexists false, _. split; [exact H|]. exists err. simpl. rewrite Hk. reflexivity.
  - eexists false, _. split; [exact H|]. exists (str_exn e). simpl. rewrite Hk. reflexivity.
Qed.

Lemma update_single_tool_step : worker_step update_single_tool.
Proof.
  intros tool st. pose proof (update_single_tool_cases tool st) as H.
  pose proof (keeps_run_command ("apt install --only-upgrade -y " ++ tool) true true st)
    as Hk.
  destruct (run_command ("apt install --only-upgrade -y " ++ tool) true true st)
    as [[r|e] st1]; simpl in Hk.
  - destruct r as [c|rc out err]; [contradiction|].
    destruct (rc =? 0); [|destruct (str_in "is already the newest version" err)].
    + eexists true, _. split; [exact H|]. simpl. rewrite Hk. reflexivity.
    + eexists true, _. split; [exact H|]. simpl. rewrite Hk. reflexivity.
    + eexists false, _. split; [exact H|]. exists err. simpl. rewrite Hk. reflexivity.
  - eexists false, _. split; [exact H|]. exists (str_exn e). simpl. rewrite Hk. reflexivity.
Qed.

(** [remove_single_tool] on a tool whose command passes the security check. *)
Lemma remove_single_tool_reports (tool : string) (st : State) :
  passes_check ("apt remove -y " ++ tool) ->
  remove_single_tool tool st =
    if exit_code_of (remove_answer tool st) =? 0
    then (Ret true, after_remove_command tool st)
    else if str_in "Unable to locate package" (stderr_of (remove_answer tool st))
            || str_in "is not installed" (stderr_of (remove_answer tool st))
         then (Ret true, count_not_installed (after_remove_command tool st))
         else (Ret false,
               add_failed (tool, stderr_of (remove_answer tool st))
                 (after_remove_command tool st)).
Proof.
  intros Hg. pose proof (remove_single_tool_cases tool st) as H.
  rewrite (run_command_reports _ st Hg) in H. exact H.
Qed.

(** [update_single_tool] on a tool whose command passes the security check. *)
Lemma update_single_tool_reports (tool : string) (st : State) :
  passes_check ("apt install --only-upgrade -y " ++ tool) ->
  update_single_tool tool st =
    if exit_code_of (update_answer tool st) =? 0
    then (Ret true, after_update_command tool st)
    else if str_in "is already the newest version" (stderr_of (update_answer tool st))
         then (Ret true, count_already_newest (after_update_command tool st))
         else (Ret false,
               add_failed (tool, stderr_of (update_answer tool st))
                 (after_update_command tool st)).
Proof.
  intros Hg. pose proof (update_single_tool_cases tool st) as H.
  rewrite (run_command_reports _ st Hg) in H. exact H.
Qed.

(** [_parallel_remove_tools] in one equation. *)
Lemma parallel_remove_outcome (tools : list string) (st : State) :
  exists results st1,
    executor_map remove_single_tool tools (remove_start st) = (Ret results, st1) /\
    let failed := len_list (failed_tools (shared st1)) in
    let run := _parallel_remove_tools tools st in
    failed_names st1 = failures_of tools results
    /\ (all_bools results = true <-> failed_tools (shared st1) = [])
    /\ shared (snd run) = shared st1
    /\ fst run =
         (if all_bools results
          then if not_installed (shared st1) =? len_list tools then Ret false else Ret true
          else Raise (simple_exn ToolInstallationError
                        (remove_failure_msg failed (len_list tools))))
    /\ (all_bools results = false ->
        exists before,
          console (snd run) =
            (before ++ map raw_failure_line (failed_tools (shared st1))
             ++ [handler_line (remove_failure_msg failed (len_list tools))])%list).
Proof.
  destruct (executor_map_tally _ remove_single_tool_step tools (remove_start st))
    as [results [st1 [Hmap [Hlen Hnames]]]].
  exists results, st1. split; [exact Hmap|]. intros failed run.
  simpl in Hnames.
  split; [exact Hnames|]. split.
  { rewrite (failures_of_all tools results Hlen). unfold failed_names in Hnames.
    rewrite <- Hnames. destruct (failed_tools (shared st1)); simpl; split;
      try reflexivity; discriminate. }
  subst run. remember (_parallel_remove_tools tools st) as outcome eqn:Hrun.
  unfold _parallel_remove_tools in Hrun.
  unfold bind at 1 in Hrun. cbn [print] in Hrun.
  unfold bind at 1 in Hrun. cbn [set_shared world console shared] in Hrun.
  unfold try_except in Hrun. fold (remove_start st) in Hrun.
  rewrite (bind_ret_eq Hmap) in Hrun.
  unfold bind at 1 in Hrun. cbn [get_shared] in Hrun. fold failed in Hrun.
  destruct (all_bools results).
  - destruct (not_installed (shared st1) =? len_list tools);
      [|destruct (not_installed (shared st1) >? 0)];
      subst outcome; run_m;
      (split; [reflexivity|]); (split; [reflexivity|]); intros Hfalse; discriminate.
  - unfold bind at 1 in Hrun. cbn [print world console shared] in Hrun.
    unfold bind at 1 in Hrun.
    rewrite (for_each_print raw_failure_line) in Hrun by reflexivity.
    cbn [world console shared] in Hrun.
    subst outcome. run_m. rewrite str_exn_simple.
    split; [reflexivity|]. split; [reflexivity|]. intros _.
    match goal with
    | |- context [ (?pre ++ map raw_failure_line _)%list ] => exists pre
    end.
    unfold handler_line, remove_failure_msg. repeat rewrite <- app_assoc. reflexivity.
Qed.

(** [_parallel_update_tools] in one equation. *)
Lemma parallel_update_outcome (tools : list string) (st : State) :
  exists results st1,
    executor_map update_single_tool tools (update_start st) = (Ret results, st1) /\
    let failed := len_list (failed_tools (shared st1)) in
    let run := _parallel_update_tools tools st in
    failed_names st1 = failures_of tools results
    /\ (all_bools results = true <-> failed_tools (shared st1) = [])
    /\ shared (snd run) = shared st1
    /\ fst run =
         (if all_bools results then Ret true
          else Raise (simple_exn ToolInstallationError
                        (update_failure_msg failed (len_list tools))))
    /\ (all_bools results = false ->
        exists before,
          console (snd run) =
            (before ++ map raw_failure_line (failed_tools (shared st1))
             ++ [handler_line (update_failure_msg failed (len_list tools))])%list).
Proof.
  destruct (executor_map_tally _ update_single_tool_step tools (update_start st))
    as [results [st1 [Hmap [Hlen Hnames]]]].
  exists results, st1. split; [exact Hmap|]. intros failed run.
  simpl in Hnames.
  split; [exact Hnames|]. split.
  { rewrite (failures_of_all tools results Hlen). unfold failed_names in Hnames.
    rewrite <- Hnames. destruct (failed_tools (shared st1)); simpl; split;
      try reflexivity; discriminate. }
  subst run. remember (_parallel_update_tools tools st) as outcome eqn:Hrun.
  unfold _parallel_update_tools in Hrun.
  unfold bind at 1 in Hrun. cbn [print] in Hrun.
  unfold bind at 1 in Hrun. cbn [set_shared world console shared] in Hrun.
  unfold try_except in Hrun. fold (update_start st) in Hrun.
  rewrite (bind_ret_eq Hmap) in Hrun.
  unfold bind at 1 in Hrun. cbn [get_shared] in Hrun. fold failed in Hrun.
  destruct (all_bools results).
  - skip_prints_in Hrun.
    subst outcome. run_m.
    split; [reflexivity|]. split; [reflexivity|]. intros Hfalse; discriminate.
  - unfold bind at 1 in Hrun. cbn [print world console shared] in Hrun.
    unfold bind at 1 in Hrun.
    rewrite (for_each_print raw_failure_line) in Hrun by reflexivity.
    cbn [world console shared] in Hrun.
    subst outcome. run_m. rewrite str_exn_simple.
    split; [reflexivity|]. split; [reflexivity|]. intros _.
    match goal with
    | |- context [ (?pre ++ map raw_failure_line _)%list ] => exists pre
    end.
    unfold handler_line, update_failure_msg. repeat rewrite <- app_assoc. reflexivity.
Qed.

End RemoveUpdateWorkers.

Section RemoveBatches.
Context {host : Host}.

(** [_batch_remove_tools] from the answer of its one command on. *)
Lemma batch_remove_after_run (tools : list string) (st st1 : State)
    (rc : Z) (out stderr : string) :
  run_command ("apt remove -y " ++ join " " tools) true true
    (mkState (world st)
       (console st ++ [Colors.CYAN ++ "[*] Removing " ++ str_of_int (len_list tools)
                       ++ " tools..." ++ Colors.RESET])
       (shared st))
  = (Ret (Captured rc out stderr), st1) ->
  let run := _batch_remove_tools tools st in
  world (snd run) = world st1
  /\ shared (snd run) = shared st1
  /\ fst run =
       if rc =? 0 then Ret true
       else if str_in "Permission denied" stderr
               || str_in "requires root privileges" stderr then
         Raise (simple_exn PermissionError
                  "Permission denied while removing tools. Please run as root.")
       else if str_in "Unable to locate package" stderr || str_in "is not installed" stderr
       then Ret false
       else Raise (simple_exn ToolInstallationError "Failed to remove some tools").
Proof.
  intros Hrun run. subst run.
  remember (_batch_remove_tools tools st) as outcome eqn:Ho.
  unfold _batch_remove_tools in Ho.
  unfold bind at 1 in Ho. cbn [print] in Ho. rewrite (bind_ret_eq Hrun) in Ho.
  unfold bind at 1 in Ho. cbn [unpack3 ret] in Ho.
  destruct (rc =? 0);
    [|destruct (str_in "Permission denied" stderr || str_in "requires root privileges" stderr);
      [|destruct (str_in "Unable to locate package" stderr
                  || str_in "is not installed" stderr)]];
    subst outcome; run_m; repeat split; reflexivity.
Qed.

(** With the confirmation skipped, [remove_tools] runs a list of at most
    three tools as one batch. *)
Lemma remove_tools_small (tools : list string) (st : State) :
  len_list tools <= 3 ->
  remove_tools tools true st =
    try_except (_batch_remove_tools tools)
      (reraise_or_wrap [PermissionError; ToolInstallationError]
         "Unexpected error removing tools: ")
      st.
Proof.
  intros Hlen. unfold remove_tools, try_except.
  cbn [negb]. unfold bind at 1. cbn [ret negb].
  replace (len_list tools <=? 3) with true by (symmetry; apply Z.leb_le; exact Hlen).
  reflexivity.
Qed.

(** With the confirmation asked and answered, [remove_tools] stops unless
    the answer is [y], and otherwise runs a list of at most three tools as
    one batch. *)
Lemma remove_tools_confirmed (tools : list string) (st : State)
    (reply : string) (w1 : World) :
  len_list tools <= 3 ->
  safe_input remove_prompt (world st) = (Ret reply, w1) ->
  remove_tools tools false st =
    if negb (String.eqb (lower reply) "y")
    then (Ret false,
          mkState w1
            (console (remove_asked st w1 tools)
             ++ [Colors.YELLOW ++ "[*] Removal cancelled." ++ Colors.RESET])
            (shared st))
    else try_except (_batch_remove_tools tools)
           (reraise_or_wrap [PermissionError; ToolInstallationError]
              "Unexpected error removing tools: ")
           (remove_asked st w1 tools).
Proof.
  intros Hlen Hin. unfold remove_tools, try_except.
  cbn [negb]. unfold bind at 1. unfold bind at 1. cbn [print].
  unfold bind at 1.
  rewrite (for_each_print (fun '(i, tool) =>
             Colors.YELLOW ++ "   " ++ str_of_int i ++ ". " ++ tool ++ Colors.RESET))
    by (intros [i tool]; reflexivity).
  unfold bind at 1. cbn [print world console shared].
  unfold bind at 1. unfold host_call_result. cbn [world console shared].
  fold remove_prompt. rewrite Hin.
  fold (remove_asked st w1 tools).
  destruct (negb (String.eqb (lower reply) "y")).
  - reflexivity.
  - cbn [ret negb].
    replace (len_list tools <=? 3) with true by (symmetry; apply Z.leb_le; exact Hlen).
    reflexivity.
Qed.

(** A batch of workers whose tools are all reported as not installed. *)
Lemma executor_map_none_installed (tools : list string) (st : State) :
  (forall t st0, In t tools ->
     passes_check ("apt remove -y " ++ t)
     /\ exit_code_of (remove_answer t st0) <> 0
     /\ is_substring "is not installed" (stderr_of (remove_answer t st0))) ->
  exists results st',
    executor_map remove_single_tool tools st = (Ret results, st')
    /\ all_bools results = true
    /\ failed_tools (shared st') = failed_tools (shared st)
    /\ not_installed (shared st') = not_installed (shared st) + len_list tools.
Proof.
  revert st. induction tools as [|t ts IH]; intros st H.
  - exists [], st. unfold len_list. simpl. repeat split; lia.
  - destruct (H t st (or_introl eq_refl)) as [Hg [Hrc Htext]].
    pose proof (remove_single_tool_reports t st Hg) as Hrun.
    replace (exit_code_of (remove_answer t st) =? 0) with false in Hrun
      by (symmetry; apply Z.eqb_neq; exact Hrc).
    rewrite (proj2 (str_in_spec _ _) Htext), orb_true_r in Hrun.
    destruct (IH (count_not_installed (after_remove_command t st))) as
      [rs [st' [Hmap [Hall [Hfail Hcount]]]]].
    { intros t' st0 Hin. apply H. right. exact Hin. }
    exists (true :: rs), st'. simpl executor_map.
    rewrite (bind_ret_eq Hrun), (bind_ret_eq Hmap).
    split; [reflexivity|]. split; [exact Hall|]. split; [rewrite Hfail; reflexivity|].
    rewrite Hcount. unfold len_list. cbn [List.length shared count_not_installed
      after_remove_command count_completed not_installed]. lia.
Qed.

End RemoveBatches.

(** C6 (as amended).  In the parallel path, when the remove command of
    every package fails with an error text that contains
    [is not installed], no package is recorded as failed, every package is
    counted as not installed, and the call returns [False] without
    raising.  In the small-batch path the combined command that fails with
    such a text returns [False] without raising provided the text has no
    permission pattern; this covers [remove_tools] of the single package
    [foo]. *)
Theorem remove_not_installed_is_no_failure :
  forall (host : Host) (tools : list string) (st : State),
    ((forall t st0, In t tools ->
        passes_check ("apt remove -y " ++ t)
        /\ exit_code_of (remove_answer t st0) <> 0
        /\ is_substring "is not installed" (stderr_of (remove_answer t st0))) ->
     let run := _parallel_remove_tools tools st in
     fst run = Ret false
     /\ failed_tools (shared (snd run)) = []
     /\ not_installed (shared (snd run)) = len_list tools)
    /\
    (let cmd := "apt remove -y " ++ join " " tools in
     let answer := fst (subprocess_run cmd (world st)) in
     passes_check cmd ->
     exit_code_of answer <> 0 ->
     is_substring "is not installed" (stderr_of answer) ->
     ~ permission_text (stderr_of answer) ->
     fst (_batch_remove_tools tools st) = Ret false)
    /\
    (let answer := fst (subprocess_run "apt remove -y foo" (world st)) in
     exit_code_of answer <> 0 ->
     is_substring "is not installed" (stderr_of answer) ->
     ~ permission_text (stderr_of answer) ->
     fst (remove_tools ["foo"] true st) = Ret false)
    /\
    (always_reports_absent "foo" ->
     forall (reply : string) (w1 : World),
       safe_input remove_prompt (world st) = (Ret reply, w1) ->
       fst (remove_tools ["foo"] false st) = Ret false).
Proof.
  intros host tools st.
  assert (Hbatch : forall tools' st',
    let cmd := "apt remove -y " ++ join " " tools' in
    let answer := fst (subprocess_run cmd (world st')) in
    passes_check cmd ->
    exit_code_of answer <> 0 ->
    is_substring "is not installed" (stderr_of answer) ->
    ~ permission_text (stderr_of answer) ->
    fst (_batch_remove_tools tools' st') = Ret false).
  { intros tools' st' cmd answer Hg Hrc Htext Hperm.
    pose proof (batch_remove_after_run tools' st' _ _ _ _
                  (run_command_reports cmd _ Hg)) as [_ [_ Hv]].
    cbn [world] in Hv. fold cmd answer in Hv. rewrite Hv.
    replace (exit_code_of answer =? 0) with false by (symmetry; apply Z.eqb_neq; exact Hrc).
    rewrite (neither_text _ _ _ Hperm), (proj2 (str_in_spec _ _) Htext), orb_true_r.
    reflexivity. }
  assert (Hg : passes_check ("apt remove -y " ++ join " " ["foo"])).
  { intros p Hp. apply str_in_false_spec. simpl in Hp.
    repeat (destruct Hp as [<- | Hp]; [reflexivity|]). destruct Hp. }
  split; [|split; [|split]].
  - intros Hall run.
    destruct (parallel_remove_outcome tools st)
      as [results [st1 [Hmap [_ [_ [Hsh [Hv _]]]]]]].
    destruct (executor_map_none_installed tools (remove_start st) Hall)
      as [rs [st' [Hmap' [Hall' [Hfail Hcount]]]]].
    rewrite Hmap in Hmap'. injection Hmap' as <- <-.
    subst run. rewrite Hsh, Hv, Hall', Hfail, Hcount. cbn.
    rewrite Z.eqb_refl. repeat split.
  - apply Hbatch.
  - intros answer Hrc Htext Hperm.
    rewrite remove_tools_small by (vm_compute; discriminate).
    unfold try_except.
    pose proof (Hbatch ["foo"] st Hg Hrc Htext Hperm) as Hfoo.
    destruct (_batch_remove_tools ["foo"] st) as [r st'']. cbn [fst] in Hfoo.
    subst r. reflexivity.
  - intros Habsent reply w1 Hin.
    rewrite (remove_tools_confirmed ["foo"] st reply w1) by (vm_compute; congruence || exact Hin).
    destruct (negb (String.eqb (lower reply) "y")); [reflexivity|].
    unfold try_except.
    destruct (Habsent w1) as [Hrc [Htext Hperm]].
    pose proof (Hbatch ["foo"] (remove_asked st w1 ["foo"]) Hg Hrc Htext Hperm) as Hfoo.
    destruct (_batch_remove_tools ["foo"] (remove_asked st w1 ["foo"])) as [r st''].
    cbn [fst] in Hfoo. subst r. reflexivity.
Qed.

(** C6, witness: [foo] is reported as not installed, and so are the four
    tools of the larger batch. *)
Lemma remove_not_installed_is_no_failure_witness :
  fst (remove_tools ["foo"] true (boot "y" foo_absent)) = Ret false
  /\ fst (remove_tools ["foo"] false (boot "y" foo_absent)) = Ret false
  /\ fst (_parallel_remove_tools remove_four (boot "y" none_installed)) = Ret false.
Proof.
  split; [|split].
  - destruct (remove_not_installed_is_no_failure (scripted_host "y" foo_absent) ["foo"]
                (boot "y" foo_absent)) as [_ [_ [H _]]].
    apply H.
    + vm_compute. discriminate.
    + apply str_in_spec. reflexivity.
    + intros [Hn | Hn]; apply str_in_spec in Hn; vm_compute in Hn; discriminate.
  - destruct (remove_not_installed_is_no_failure (scripted_host "y" foo_absent) ["foo"]
                (boot "y" foo_absent)) as [_ [_ [_ H]]].
    apply (H ltac:(intros w; cbv zeta; split; [vm_compute; discriminate|];
                   split; [apply str_in_spec; reflexivity|];
                   intros [Hn | Hn]; apply str_in_spec in Hn; vm_compute in Hn;
                   discriminate) "y" []).
    reflexivity.
  - destruct (remove_not_installed_is_no_failure (scripted_host "y" none_installed)
                remove_four (boot "y" none_installed)) as [H _].
    apply H. intros t st0 Hin. split; [|split].
    + intros p Hp. apply str_in_false_spec. simpl in Hp, Hin.
      destruct Hin as [<- | [<- | [<- | [<- | []]]]];
        repeat (destruct Hp as [<- | Hp]; [reflexivity|]); destruct Hp.
    + vm_compute. discriminate.
    + apply str_in_spec. reflexivity.
Defined.

(** C6, as stated, fails in two ways for the single package [foo] whose
    error text contains [is not installed]: when the text also holds a
    permission pattern the call raises a [PermissionError]; when the
    command exits with code 0 the text is not read and the call returns
    [True]. *)
Lemma remove_not_installed_is_no_failure_counterexample :
  (is_substring "is not installed" (stderr_of (foo_absent_locked "apt remove -y foo"))
   /\ fst (remove_tools ["foo"] true (boot "y" foo_absent_locked))
      = Raise (simple_exn PermissionError
                 "Permission denied while removing tools. Please run as root."))
  /\
  (is_substring "is not installed" (stderr_of (foo_absent_exit0 "apt remove -y foo"))
   /\ fst (remove_tools ["foo"] true (boot "y" foo_absent_exit0)) = Ret true).
Proof.
  split; (split; [apply str_in_spec; reflexivity | reflexivity]).
Qed.

(** C7 (as amended).  In the parallel remove and update batches a command
    that fails is counted, and not recorded as a failure, exactly when its
    error text contains [Unable to locate package] or [is not installed]
    (remove), or [is already the newest version] (update); any other
    failing command is recorded in [failed_tools].  As soon as one failure
    is recorded the batch prints every failed package with its error text
    and raises a [ToolInstallationError] whose message gives the number of
    failures; no proportion of failures is tolerated. *)
Theorem remove_update_failures_raise :
  forall (host : Host) (tools : list string) (tool : string) (st : State),
    (passes_check ("apt remove -y " ++ tool) ->
     exit_code_of (remove_answer tool st) <> 0 ->
     let stderr := stderr_of (remove_answer tool st) in
     let run := remove_single_tool tool st in
     (remove_informational stderr ->
      fst run = Ret true
      /\ failed_tools (shared (snd run)) = failed_tools (shared st)
      /\ not_installed (shared (snd run)) = not_installed (shared st) + 1)
     /\ (~ remove_informational stderr ->
         fst run = Ret false
         /\ failed_tools (shared (snd run))
            = (failed_tools (shared st) ++ [(tool, stderr)])%list))
    /\
    (passes_check ("apt install --only-upgrade -y " ++ tool) ->
     exit_code_of (update_answer tool st) <> 0 ->
     let stderr := stderr_of (update_answer tool st) in
     let run := update_single_tool tool st in
     (update_informational stderr ->
      fst run = Ret true
      /\ failed_tools (shared (snd run)) = failed_tools (shared st)
      /\ already_newest (shared (snd run)) = already_newest (shared st) + 1)
     /\ (~ update_informational stderr ->
         fst run = Ret false
         /\ failed_tools (shared (snd run))
            = (failed_tools (shared st) ++ [(tool, stderr)])%list))
    /\
    (let run := _parallel_remove_tools tools st in
     let failed := failed_tools (shared (snd run)) in
     (failed = [] -> exists b, fst run = Ret b)
     /\ (failed <> [] ->
         let msg := remove_failure_msg (len_list failed) (len_list tools) in
         fst run = Raise (simple_exn ToolInstallationError msg)
         /\ (forall t, In t (map fst failed) -> In t tools)
         /\ exists before,
             console (snd run)
             = (before ++ map raw_failure_line failed ++ [handler_line msg])%list))
    /\
    (let run := _parallel_update_tools tools st in
     let failed := failed_tools (shared (snd run)) in
     (failed = [] -> fst run = Ret true)
     /\ (failed <> [] ->
         let msg := update_failure_msg (len_list failed) (len_list tools) in
         fst run = Raise (simple_exn ToolInstallationError msg)
         /\ (forall t, In t (map fst failed) -> In t tools)
         /\ exists before,
             console (snd run)
             = (before ++ map raw_failure_line failed ++ [handler_line msg])%list)).
Proof.
  intros host tools tool st. split; [|split; [|split]].
  - intros Hg Hrc stderr run. subst run.
    rewrite (remove_single_tool_reports tool st Hg).
    replace (exit_code_of (remove_answer tool st) =? 0) with false
      by (symmetry; apply Z.eqb_neq; exact Hrc).
    fold stderr. split.
    + intros Hinfo. rewrite (proj2 (either_text _ _ _) Hinfo). repeat split.
    + intros Hinfo. rewrite (neither_text _ _ _ Hinfo). repeat split.
  - intros Hg Hrc stderr run. subst run.
    rewrite (update_single_tool_reports tool st Hg).
    replace (exit_code_of (update_answer tool st) =? 0) with false
      by (symmetry; apply Z.eqb_neq; exact Hrc).
    fold stderr. split.
    + intros Hinfo. rewrite (proj2 (str_in_spec _ _) Hinfo). repeat split.
    + intros Hinfo. rewrite (no_text _ _ Hinfo). repeat split.
  - cbv zeta.
    destruct (parallel_remove_outcome tools st)
      as [results [st1 [_ [Hnames [Hall [Hsh [Hv Hcon]]]]]]].
    rewrite Hsh, Hv. split.
    + intros Hnone. rewrite (proj2 Hall Hnone).
      destruct (not_installed (shared st1) =? len_list tools); eexists; reflexivity.
    + intros Hsome.
      assert (Hf : all_bools results = false).
      { destruct (all_bools results); [|reflexivity]. exfalso. apply Hsome, Hall.
        reflexivity. }
      rewrite Hf. split; [reflexivity|]. split.
      * intros t Ht. fold (failed_names st1) in Ht. rewrite Hnames in Ht.
        exact (failures_of_subset _ _ _ Ht).
      * exact (Hcon Hf).
  - cbv zeta.
    destruct (parallel_update_outcome tools st)
      as [results [st1 [_ [Hnames [Hall [Hsh [Hv Hcon]]]]]]].
    rewrite Hsh, Hv. split.
    + intros Hnone. rewrite (proj2 Hall Hnone). reflexivity.
    + intros Hsome.
      assert (Hf : all_bools results = false).
      { destruct (all_bools results); [|reflexivity]. exfalso. apply Hsome, Hall.
        reflexivity. }
      rewrite Hf. split; [reflexivity|]. split.
      * intros t Ht. fold (failed_names st1) in Ht. rewrite Hnames in Ht.
        exact (failures_of_subset _ _ _ Ht).
      * exact (Hcon Hf).
Qed.

(** C7, witness: one of four removals fails in [dpkg], and so does one of
    four upgrades; an unknown package is counted as not installed. *)
Lemma remove_update_failures_raise_witness :
  fst (_parallel_remove_tools remove_four (boot "y" one_interrupted))
  = Raise (simple_exn ToolInstallationError
             "Error during parallel removal: Failed to remove 1 out of 4 tools")
  /\ fst (_parallel_update_tools update_four (boot "y" one_newest_one_broken))
     = Raise (simple_exn ToolInstallationError
                "Error during parallel update: Failed to update 1 out of 4 tools")
  /\ fst (remove_single_tool "ghost-tool" (boot "y" one_unknown)) = Ret true
  /\ fst (update_single_tool "hydra" (boot "y" one_newest_one_broken)) = Ret false.
Proof.
  assert (Hsafe : forall t, In t ["apt remove -y ghost-tool";
                                  "apt install --only-upgrade -y hydra"] ->
                            passes_check t).
  { intros t Hin p Hp. apply str_in_false_spec. simpl in Hp, Hin.
    destruct Hin as [<- | [<- | []]];
      repeat (destruct Hp as [<- | Hp]; [reflexivity|]); destruct Hp. }
  split; [|split; [|split]].
  - destruct (remove_update_failures_raise (scripted_host "y" one_interrupted) remove_four
                "sqlmap" (boot "y" one_interrupted)) as [_ [_ [[_ H] _]]].
    destruct H as [Hr _]; [vm_compute; discriminate | exact Hr].
  - destruct (remove_update_failures_raise (scripted_host "y" one_newest_one_broken)
                update_four "hydra" (boot "y" one_newest_one_broken)) as [_ [_ [_ [_ H]]]].
    destruct H as [Hr _]; [vm_compute; discriminate | exact Hr].
  - destruct (remove_update_failures_raise (scripted_host "y" one_unknown) remove_four
                "ghost-tool" (boot "y" one_unknown)) as [H _].
    destruct H as [H _].
    + apply Hsafe. simpl. auto.
    + vm_compute. discriminate.
    + destruct H as [Hr _]; [|exact Hr]. left. apply str_in_spec. reflexivity.
  - destruct (remove_update_failures_raise (scripted_host "y" one_newest_one_broken)
                update_four "hydra" (boot "y" one_newest_one_broken)) as [_ [H _]].
    destruct H as [_ H].
    + apply Hsafe. simpl. auto.
    + vm_compute. discriminate.
    + destruct H as [Hr _]; [|exact Hr].
      intros Hn. apply str_in_spec in Hn. vm_compute in Hn. discriminate.
Defined.

(** C7, as stated, fails in three ways.  A removal that fails with
    [Unable to locate package], a text without [is not installed], is
    counted as not installed and is no failure: the batch returns [True].
    The error raised after a failure gives the number of failures, not the
    packages: its text does not name [sqlmap].  And a small upgrade batch
    whose command fails with [is already the newest version] alone raises. *)
Lemma remove_update_failures_raise_counterexample :
  (let run := _parallel_remove_tools remove_four (boot "y" one_unknown) in
   exit_code_of (one_unknown "apt remove -y ghost-tool") <> 0
   /\ ~ is_substring "is not installed" (stderr_of (one_unknown "apt remove -y ghost-tool"))
   /\ fst run = Ret true
   /\ failed_tools (shared (snd run)) = []
   /\ not_installed (shared (snd run)) = 1)
  /\
  (let run := _parallel_remove_tools remove_four (boot "y" one_interrupted) in
   exists e,
     fst run = Raise e
     /\ str_exn e = "Error during parallel removal: Failed to remove 1 out of 4 tools"
     /\ details e = None /\ suggestion e = None
     /\ failed_names (snd run) = ["sqlmap"]
     /\ str_in "sqlmap" (str_exn e) = false)
  /\
  (is_substring "is already the newest version"
     (stderr_of (newest_and_failed "apt install --only-upgrade -y nmap"))
   /\ fst (update_tools ["nmap"] (boot "y" newest_and_failed))
      = Raise (simple_exn ToolInstallationError "Failed to update some tools")).
Proof.
  split; [|split].
  - cbv zeta. split; [vm_compute; discriminate|].
    split; [apply str_in_false_spec; reflexivity|].
    vm_compute. repeat split.
  - eexists. vm_compute. repeat split.
  - split; [apply str_in_spec; reflexivity | reflexivity].
Qed.


(* ===================================================================== *)
(** * Further properties: the classification of error texts *)
(* ===================================================================== *)

Lemma is_substring_within (p a x y : string) :
  is_substring p a -> is_substring p (x ++ a ++ y).
Proof.
  intros [u [v ->]]. exists (x ++ u), (v ++ y).
  rewrite !append_assoc. reflexivity.
Qed.

Lemma str_in_within (p a x y : string) :
  str_in p a = true -> str_in p (x ++ a ++ y) = true.
Proof. rewrite !str_in_spec. apply is_substring_within. Qed.

Lemma is_substring_trans (p q s : string) :
  is_substring p q -> is_substring q s -> is_substring p s.
Proof.
  intros [a [b ->]] [c [d ->]]. exists (c ++ a), (b ++ d).
  rewrite !append_assoc. reflexivity.
Qed.

(** A test made of [in] tests joined by [and] and [or] that holds of [a]
    holds of every text around [a]. *)
Ltac grows a x y :=
  repeat match goal with
  | E : (_ || _) = true |- _ => apply orb_true_iff in E; destruct E as [E | E]
  | E : (_ && _) = true |- _ => apply andb_true_iff in E; destruct E as [? ?]
  | E : str_in ?p a = true |- _ => apply (str_in_within p a x y) in E; rewrite E
  | E : false = true |- _ => discriminate E
  end;
  cbn [orb andb]; rewrite ?orb_true_r; reflexivity.

(** X1.  The skippable verdict only looks for texts: an error text that
    [_is_skippable_error] accepts is still accepted with any output before
    and after it, so more output of the package manager never turns a
    skipped package into a failed one. *)
Theorem skippable_error_survives_context (stderr before after : string) :
  _is_skippable_error stderr = true ->
  _is_skippable_error (before ++ stderr ++ after) = true.
Proof.
  unfold _is_skippable_error, python_version_conflicts, skippable_patterns.
  cbn [existsb]. intros H.
  repeat match type of H with
  | (if ?c then true else _) = true =>
      let E := fresh "E" in
      destruct c eqn:E;
      [ clear H;
        match goal with
        | |- (if ?c' then _ else _) = true =>
            assert (Hc : c' = true) by grows stderr before after;
            rewrite Hc; reflexivity
        end
      | match goal with
        | |- (if ?c' then true else _) = true => destruct c'; [reflexivity|]
        end ]
  end.
  discriminate H.
Qed.

(** X1, witness: the error of an unknown package inside the whole output
    of the package manager. *)
Lemma skippable_error_survives_context_witness :
  _is_skippable_error
    (("Reading package lists..." ++ String LF "")
     ++ "E: Unable to locate package foo"
     ++ String LF "E: Sub-process returned an error code") = true.
Proof.
  apply (skippable_error_survives_context "E: Unable to locate package foo").
  reflexivity.
Defined.

Lemma length_append (a b : string) :
  String.length (a ++ b) = (String.length a + String.length b)%nat.
Proof. induction a as [|c a IH]; simpl; [reflexivity | rewrite IH; reflexivity]. Qed.

Lemma length_slice_to (n : nat) (s : string) :
  String.length (slice_to n s) = Nat.min n (String.length s).
Proof.
  unfold slice_to. revert s. induction n as [|n IH]; intros s.
  - destruct s; reflexivity.
  - destruct s as [|c s]; simpl; [reflexivity|]. rewrite IH. reflexivity.
Qed.

(** X2.  The reason that [_get_error_reason] gives for an error text is
    never empty and has at most 83 characters (80 of the text and the
    three dots), whatever the text. *)
Theorem error_reason_is_short_and_not_empty (stderr : string) :
  1 <= len (_get_error_reason stderr) <= 83.
Proof.
  unfold _get_error_reason.
  repeat match goal with
  | |- context [if ?c then ?a else _] =>
      lazymatch a with
      | String _ _ => destruct c; [vm_compute; split; discriminate|]
      end
  end.
  set (lines := map strip (filter (fun line => truthy (strip line)) (split LF stderr))).
  assert (Hlines : forall line, In line lines -> line <> "").
  { intros line Hin. unfold lines in Hin. apply in_map_iff in Hin.
    destruct Hin as [l [<- Hl]]. apply filter_In in Hl. destruct Hl as [_ Ht].
    destruct (strip l); discriminate. }
  set (error_line := match find _ lines with Some l => l | None => _ end).
  assert (Hne : error_line <> "").
  { unfold error_line. destruct (find _ lines) as [l|] eqn:Hf.
    - apply find_some in Hf. apply Hlines. apply Hf.
    - destruct lines as [|l ls]; [discriminate|]. apply Hlines. left. reflexivity. }
  unfold len. destruct (Z.gtb_spec (Z.of_nat (String.length error_line)) 80) as [Hgt | Hle].
  - rewrite length_append, length_slice_to. simpl String.length. lia.
  - destruct error_line; [contradiction|]. simpl String.length. simpl in Hle. lia.
Qed.

(* ===================================================================== *)
(** * Further properties: the fallback chain and the captured output *)
(* ===================================================================== *)

Section FixBroken.
Context {host : Host}.

(** The command of the second fallback strategy holds [&&]: the security
    check refuses it, and the strategy gives up without running anything. *)
Lemma fix_broken_is_refused (tool_name : string) (st : State) :
  attempt (ret tt) ("apt install -f -y && apt install -y " ++ tool_name) st = (Ret false, st).
Proof.
  destruct (sanitize_scan_hit dangerous_patterns
              ("apt install -f -y && apt install -y " ++ tool_name)) as [p [_ [_ Hs]]].
  { exists "&&". split; [simpl; tauto|].
    apply (str_in_middle "apt install -f -y " "&&" (" apt install -y " ++ tool_name)). }
  unfold attempt, try_except. unfold bind at 1. cbn [ret]. unfold bind at 1.
  rewrite (run_command_refused _ true st _ Hs). reflexivity.
Qed.

End FixBroken.

(** X3.  The second strategy of [_try_installation_fallbacks], which
    chains [apt install -f -y] and the install command with [&&], never
    runs: [run_command] refuses the command, the strategy swallows the
    error, and the chain behaves in every state as the chain without that
    strategy. *)
Theorem fix_broken_strategy_is_dead :
  forall (host : Host) (tool_name stderr : string) (st : State),
    _try_installation_fallbacks tool_name stderr st
    = fallbacks_without_fix_broken tool_name stderr st.
Proof.
  intros host tool_name stderr st.
  unfold _try_installation_fallbacks, fallbacks_without_fix_broken.
  set (first := if str_in "dependency" (lower stderr) && str_in "python" (lower stderr)
               then _resolve_python_dependency_conflicts tool_name stderr
               else ret false).
  set (last := or_else (try_alternative_names (_get_alternative_package_names tool_name))
                 (attempt_if_available "which snap" ("snap install " ++ tool_name))).
  unfold or_else at 1 3. unfold bind.
  destruct (first st) as [[[|]|e] st1]; try reflexivity.
  unfold or_else at 1. unfold bind.
  destruct (str_in "dependency" (lower stderr) || str_in "broken" (lower stderr)).
  - rewrite fix_broken_is_refused. reflexivity.
  - reflexivity.
Qed.

Lemma rstrip_cons (c : ascii) (s : string) :
  rstrip (String c s) =
    if isspace c then (match rstrip s with "" => "" | r => String c r end)
    else String c (rstrip s).
Proof. cbn [rstrip]. destruct (rstrip s); destruct (isspace c); reflexivity. Qed.

Lemma lstrip_rstrip (s : string) : lstrip (rstrip s) = rstrip (lstrip s).
Proof.
  induction s as [|c s IH]; [reflexivity|].
  rewrite rstrip_cons. cbn [lstrip]. destruct (isspace c) eqn:Hc.
  - rewrite <- IH. destruct (rstrip s) as [|d r]; [reflexivity|].
    cbn [lstrip]. rewrite Hc. reflexivity.
  - cbn [lstrip]. rewrite Hc. rewrite rstrip_cons, Hc. reflexivity.
Qed.

Lemma lstrip_idempotent (s : string) : lstrip (lstrip s) = lstrip s.
Proof.
  induction s as [|c s IH]; [reflexivity|].
  cbn [lstrip]. destruct (isspace c) eqn:Hc; [exact IH|].
  cbn [lstrip]. rewrite Hc. reflexivity.
Qed.

Lemma rstrip_idempotent (s : string) : rstrip (rstrip s) = rstrip s.
Proof.
  induction s as [|c s IH]; [reflexivity|].
  rewrite rstrip_cons. destruct (isspace c) eqn:Hc.
  - destruct (rstrip s) as [|d r] eqn:Hr; [reflexivity|].
    rewrite rstrip_cons, Hc, IH. reflexivity.
  - rewrite rstrip_cons, Hc, IH. reflexivity.
Qed.

Lemma strip_idempotent (s : string) : strip (strip s) = strip s.
Proof.
  unfold strip. rewrite lstrip_rstrip, lstrip_idempotent, rstrip_idempotent. reflexivity.
Qed.

(** X4.  With [capture_output=True], whatever [run_command] returns is a
    triple; its standard output is always stripped of the white space
    around it, and so is its error output whenever the process ran to its
    end (when [subprocess.run] itself raised, the error output is the text
    of that exception, as it is). *)
Theorem captured_output_is_stripped :
  forall (host : Host) (command : string) (check : bool) (st st' : State) (r : cmd_result),
    run_command command true check st = (Ret r, st') ->
    exists rc out err,
      r = Captured rc out err
      /\ strip out = out
      /\ ((forall text, fst (subprocess_run command (world st)) <> RunRaised text) ->
          strip err = err).
Proof.
  intros host command check st st' r H.
  assert (Hrun : forall c0, c0 = command ->
            (r0 <- host_call (subprocess_run c0) ;;
             match r0 with
             | Completed returncode out err =>
                 ret (Captured returncode (if truthy out then strip out else "")
                                          (if truthy err then strip err else ""))
             | RunRaised text => ret (Captured 1 "" text)
             end) st = (Ret r, st') ->
            exists rc out err,
              r = Captured rc out err
              /\ strip out = out
              /\ ((forall text, fst (subprocess_run command (world st)) <> RunRaised text) ->
                  strip err = err)).
  { intros c0 -> Hr. unfold bind, host_call, ret in Hr.
    destruct (subprocess_run command (world st)) as [[rc out err|text] w]; cbn [fst];
      injection Hr as <- _.
    - exists rc, (if truthy out then strip out else ""), (if truthy err then strip err else "").
      split; [reflexivity|]. split.
      + destruct (truthy out); [apply strip_idempotent | reflexivity].
      + intros _. destruct (truthy err); [apply strip_idempotent | reflexivity].
    - exists 1, "", text. split; [reflexivity|]. split; [reflexivity|].
      intros Hno. exfalso. apply (Hno text). reflexivity. }
  unfold run_command in H. destruct check.
  - unfold bind at 1, lift_result in H.
    destruct (sanitize_command command) as [c0|e] eqn:Hs; [|discriminate].
    destruct (sanitize_scan_ret_inv _ _ _ Hs) as [Hc _].
    apply (Hrun c0 Hc). exact H.
  - unfold bind at 1, ret at 1 in H. apply (Hrun command eq_refl). exact H.
Qed.

(** X4, witness: a command whose output comes with blank lines and spaces
    around it. *)
Lemma captured_output_is_stripped_witness :
  exists rc out err,
    Captured 0 "Setting up nmap (7.94) ..." "W: Some index files failed to download."
    = Captured rc out err
    /\ strip out = out
    /\ ((forall text,
           fst (@subprocess_run (scripted_host "y" padded_output) "apt install -y nmap" [])
           <> RunRaised text) ->
        strip err = err).
Proof.
  apply (captured_output_is_stripped (scripted_host "y" padded_output)
           "apt install -y nmap" true (boot "y" padded_output)
           (@mkState (scripted_host "y" padded_output) ["apt install -y nmap"] []
              fresh_shared)).
  vm_compute. reflexivity.
Defined.

(* ===================================================================== *)
(** * Further properties: the public methods of [ToolManager] *)
(* ===================================================================== *)

Section Handlers.
Context {host : Host}.

Lemma exn_class_eqb_eq (a b : exn_class) : exn_class_eqb a b = true <-> a = b.
Proof. destruct a, b; simpl; split; intros H; try reflexivity; discriminate. Qed.

Lemma existsb_class (c : exn_class) (l : list exn_class) :
  existsb (exn_class_eqb c) l = true <-> In c l.
Proof.
  rewrite existsb_exists. split.
  - intros [x [Hin Hx]]. apply exn_class_eqb_eq in Hx. subst. exact Hin.
  - intros Hin. exists c. split; [exact Hin | apply exn_class_eqb_eq; reflexivity].
Qed.

(** What passes the last handler of a public method: an expected error as
    it is, anything else as a [ToolInstallationError]; the world is left as
    it was. *)
Lemma reraise_or_wrap_raises (expected : list exn_class) (what : string) (e : exn)
    (st : State) :
  exists e' st', reraise_or_wrap expected what e st = (Raise e', st')
    /\ world st' = world st
    /\ (In (klass e') expected \/ klass e' = ToolInstallationError)
    /\ (In (klass e) expected -> e' = e)
    /\ (~ In (klass e) expected -> klass e' = ToolInstallationError).
Proof.
  unfold reraise_or_wrap. destruct (existsb (exn_class_eqb (klass e)) expected) eqn:E.
  - apply existsb_class in E. exists e, st. repeat split; auto. intros H; contradiction.
  - eexists _, _. run_m. split; [reflexivity|]. split; [reflexivity|].
    split; [right; reflexivity|]. split.
    + intros Hin. apply existsb_class in Hin. congruence.
    + reflexivity.
Qed.

Lemma guarded_raises (m : M bool) (expected : list exn_class) (what : string) :
  In ToolInstallationError expected ->
  raises_only (try_except m (reraise_or_wrap expected what)) expected.
Proof.
  intros Htool st e st'. unfold try_except. destruct (m st) as [[b|e0] st1]; [discriminate|].
  destruct (reraise_or_wrap_raises expected what e0 st1) as [e' [st2 [H [_ [Hk _]]]]].
  rewrite H. intros Heq. injection Heq as <- _.
  destruct Hk as [Hk | Hk]; [exact Hk | rewrite Hk; exact Htool].
Qed.

(** [run_command] with the output captured, in one equation. *)
Lemma run_command_eq (command : string) (st : State) :
  run_command command true true st =
    match sanitize_command command with
    | Raise e => (Raise e, st)
    | Ret _ =>
        let answer := fst (subprocess_run command (world st)) in
        (Ret (Captured (exit_code_of answer) (stdout_of answer) (stderr_of answer)),
         mkState (snd (subprocess_run command (world st))) (console st) (shared st))
    end.
Proof.
  destruct (sanitize_scan_cases dangerous_patterns command) as [Hc | [p [_ [_ Hr]]]];
    unfold sanitize_command.
  - rewrite Hc. rewrite (run_command_clean command true st Hc).
    destruct (subprocess_run command (world st)) as [[rc out err|text] w]; reflexivity.
  - rewrite Hr. apply run_command_refused. exact Hr.
Qed.

Lemma verdict_ret (r : result bool) (b : bool) : verdict_of r = inl b -> r = Ret b.
Proof. destruct r; simpl; intros H; [injection H as -> | discriminate]; reflexivity. Qed.

Lemma verdict_raise (r : result bool) (c : exn_class) :
  verdict_of r = inr c -> exists e, r = Raise e /\ klass e = c.
Proof. destruct r; simpl; intros H; [discriminate | injection H as <-]; eauto. Qed.

(** Two handlers that differ in their text give errors of the same class. *)
Lemma reraise_or_wrap_same_class (expected : list exn_class) (what1 what2 : string)
    (e : exn) (st1 st2 : State) :
  world st1 = world st2 ->
  verdict_of (fst (reraise_or_wrap expected what1 e st1))
    = verdict_of (fst (reraise_or_wrap expected what2 e st2))
  /\ world (snd (reraise_or_wrap expected what1 e st1))
     = world (snd (reraise_or_wrap expected what2 e st2)).
Proof.
  intros Hw.
  destruct (reraise_or_wrap_raises expected what1 e st1) as [e1 [s1 [H1 [Hw1 [_ [Hin1 Hout1]]]]]].
  destruct (reraise_or_wrap_raises expected what2 e st2) as [e2 [s2 [H2 [Hw2 [_ [Hin2 Hout2]]]]]].
  rewrite H1, H2. cbn [fst snd verdict_of]. split; [|congruence].
  destruct (existsb (exn_class_eqb (klass e)) expected) eqn:E.
  - apply existsb_class in E. rewrite (Hin1 E), (Hin2 E). reflexivity.
  - assert (Hout : ~ In (klass e) expected).
    { intros Hin. apply existsb_class in Hin. congruence. }
    rewrite (Hout1 Hout), (Hout2 Hout). reflexivity.
Qed.

End Handlers.

(** X5.  The public methods raise the classes that their documentation
    lists and no other: [install_tools], [update_tools] and [update_tool]
    raise a [RepositoryError], a [NetworkError], a [PermissionError] or a
    [ToolInstallationError]; [remove_tools] and [remove_tool] raise a
    [PermissionError] or a [ToolInstallationError].  Every other exception,
    the [SecurityError] of a refused command and the [UserInputError] of
    the prompt included, leaves as a [ToolInstallationError]. *)
Theorem public_methods_raise_documented_errors :
  forall (host : Host) (tools : list string) (tool : string) (skip : bool),
    raises_only (install_tools tools skip)
      [RepositoryError; NetworkError; PermissionError; ToolInstallationError]
    /\ raises_only (update_tools tools)
         [RepositoryError; NetworkError; PermissionError; ToolInstallationError]
    /\ raises_only (update_tool tool)
         [RepositoryError; NetworkError; PermissionError; ToolInstallationError]
    /\ raises_only (remove_tools tools skip) [PermissionError; ToolInstallationError]
    /\ raises_only (remove_tool tool skip) [PermissionError; ToolInstallationError].
Proof.
  intros host tools tool skip.
  repeat split; apply guarded_raises; simpl; tauto.
Qed.

(** X6.  [update_repositories] returns [True] exactly when
    [apt-get update -m] exits with code 0.  Otherwise it raises a
    [RepositoryError] whose message is the one of its last handler around
    the message of the failure, after two error lines: it never raises the
    [NetworkError] or the [PermissionError] of its documentation. *)
Theorem update_repositories_outcome :
  forall (host : Host) (st : State),
    let answer := fst (subprocess_run "apt-get update -m" (world st)) in
    let w := snd (subprocess_run "apt-get update -m" (world st)) in
    update_repositories st =
      if exit_code_of answer =? 0 then
        (Ret true,
         mkState w
           (console st
            ++ [Colors.GREEN ++ "[+] Repositories updated successfully" ++ Colors.RESET])
           (shared st))
      else
        (Raise (simple_exn RepositoryError
                  "Unexpected error updating repositories: Failed to update repositories"),
         mkState w
           ((console st
             ++ [Colors.RED ++ "Error: Failed to update repositories" ++ Colors.RESET])
            ++ [Colors.RED
                ++ "Error: Unexpected error updating repositories: Failed to update repositories"
                ++ Colors.RESET])
           (shared st)).
Proof.
  intros host st answer w. subst answer w.
  unfold update_repositories, try_except. unfold bind at 1.
  rewrite (run_command_clean "apt-get update -m" false st) by reflexivity.
  destruct (subprocess_run "apt-get update -m" (world st)) as [[rc out err|text] w].
  - cbn [fst snd exit_code_of result_is]. destruct (rc =? 0); reflexivity.
  - reflexivity.
Qed.

Section OneTool.
Context {host : Host}.

(** [remove_tool] with the confirmation skipped, by the outcome of its
    command. *)
Lemma remove_tool_skipped (tool : string) (st : State) :
  let st0 := mkState (world st)
               (console st ++ [Colors.CYAN ++ "[*] Removing " ++ tool ++ "..." ++ Colors.RESET])
               (shared st) in
  let run := remove_tool tool true st in
  match run_command ("apt remove -y " ++ tool) true true st0 with
  | (Raise e, st1) =>
      run = reraise_or_wrap [PermissionError; ToolInstallationError]
              ("Unexpected error removing tool " ++ tool ++ ": ") e st1
  | (Ret (ExitCode _), _) => False
  | (Ret (Captured rc out stderr), st1) =>
      world (snd run) = world st1
      /\ fst run =
           if rc =? 0 then Ret true
           else if str_in "Permission denied" stderr
                   || str_in "requires root privileges" stderr then
             Raise (simple_exn PermissionError
                      ("Permission denied while removing " ++ tool ++ ". Please run as root."))
           else if str_in "Unable to locate package" stderr || str_in "is not installed" stderr
           then Ret false
           else Raise (simple_exn ToolInstallationError ("Failed to remove " ++ tool))
  end.
Proof.
  intros st0 run.
  destruct (run_command ("apt remove -y " ++ tool) true true st0) as [[r|e] st1] eqn:Hrun.
  - destruct (run_command_captures _ _ _ _ Hrun) as [rc [out [err ->]]].
    subst run. remember (remove_tool tool true st) as outcome eqn:Ho.
    unfold remove_tool, try_except in Ho. cbn [negb] in Ho.
    unfold bind at 1 in Ho. cbn [ret negb] in Ho.
    unfold bind at 1 in Ho. cbn [print] in Ho. fold st0 in Ho.
    rewrite (bind_ret_eq Hrun) in Ho.
    unfold bind at 1 in Ho. cbn [unpack3 ret] in Ho.
    destruct (rc =? 0);
      [|destruct (str_in "Permission denied" err || str_in "requires root privileges" err);
        [|destruct (str_in "Unable to locate package" err
                    || str_in "is not installed" err)]];
      subst outcome; run_m; split; reflexivity.
  - subst run. unfold remove_tool, try_except. cbn [negb].
    unfold bind at 1. cbn [ret negb].
    unfold bind at 1. cbn [print]. fold st0.
    rewrite (bind_raise_eq Hrun). reflexivity.
Qed.

(** [remove_tools] of at most three tools with the confirmation skipped,
    by the outcome of the combined command. *)
Lemma remove_tools_skipped (tools : list string) (st : State) :
  len_list tools <= 3 ->
  let st0 := mkState (world st)
               (console st ++ [Colors.CYAN ++ "[*] Removing " ++ str_of_int (len_list tools)
                               ++ " tools..." ++ Colors.RESET])
               (shared st) in
  let run := remove_tools tools true st in
  match run_command ("apt remove -y " ++ join " " tools) true true st0 with
  | (Raise e, st1) =>
      run = reraise_or_wrap [PermissionError; ToolInstallationError]
              "Unexpected error removing tools: " e st1
  | (Ret (ExitCode _), _) => False
  | (Ret (Captured rc out stderr), st1) =>
      world (snd run) = world st1
      /\ fst run =
           if rc =? 0 then Ret true
           else if str_in "Permission denied" stderr
                   || str_in "requires root privileges" stderr then
             Raise (simple_exn PermissionError
                      "Permission denied while removing tools. Please run as root.")
           else if str_in "Unable to locate package" stderr || str_in "is not installed" stderr
           then Ret false
           else Raise (simple_exn ToolInstallationError "Failed to remove some tools")
  end.
Proof.
  intros Hlen st0 run. subst run. rewrite (remove_tools_small tools st Hlen).
  destruct (run_command ("apt remove -y " ++ join " " tools) true true st0)
    as [[r|e] st1] eqn:Hrun.
  - destruct (run_command_captures _ _ _ _ Hrun) as [rc [out [err ->]]].
    destruct (batch_remove_after_run tools st st1 rc out err Hrun) as [Hw [_ Hf]].
    unfold try_except.
    destruct (_batch_remove_tools tools st) as [[b|e] st2] eqn:Hb; cbn [fst snd] in *.
    + split; [exact Hw | exact Hf].
    + destruct (reraise_or_wrap_raises [PermissionError; ToolInstallationError]
                  "Unexpected error removing tools: " e st2) as [e' [st' [H [Hw' [_ [Hsame _]]]]]].
      rewrite H. cbn [fst snd]. split; [congruence|].
      rewrite Hsame; [exact Hf|].
      destruct (rc =? 0); [discriminate|].
      destruct (str_in "Permission denied" err || str_in "requires root privileges" err).
      { injection Hf as ->. simpl. tauto. }
      destruct (str_in "Unable to locate package" err || str_in "is not installed" err);
        [discriminate|].
      injection Hf as ->. simpl. tauto.
  - unfold try_except, _batch_remove_tools. unfold bind at 1. cbn [print]. fold st0.
    rewrite (bind_raise_eq Hrun). reflexivity.
Qed.

(** [update_tool], by what the repository manager and the command give. *)
Lemma update_tool_cases (tool : string) (st : State) :
  let run := update_tool tool st in
  match add_repository (world st) with
  | (Raise e, w0) =>
      run = reraise_or_wrap update_classes
              ("Unexpected error updating tool " ++ tool ++ ": ") e
              (mkState w0 (console st) (shared st))
  | (Ret false, w0) =>
      run = (Raise (simple_exn RepositoryError "Failed to add repository"),
             mkState w0 (console st) (shared st))
  | (Ret true, w0) =>
      let st0 := mkState w0 (console st) (shared st) in
      match run_command ("apt install --only-upgrade -y " ++ tool) true true st0 with
      | (Raise e, st1) =>
          run = reraise_or_wrap update_classes
                  ("Unexpected error updating tool " ++ tool ++ ": ") e st1
      | (Ret (ExitCode _), _) => False
      | (Ret (Captured rc out stderr), st1) =>
          world (snd run) = world st1
          /\ verdict_of (fst run) = update_verdict false rc stderr
      end
  end.
Proof.
  intros run. subst run.
  destruct (add_repository (world st)) as [[[|]|e] w0] eqn:Hrepo.
  - cbv zeta.
    destruct (run_command ("apt install --only-upgrade -y " ++ tool) true true
                (mkState w0 (console st) (shared st))) as [[r|e] st1] eqn:Hrun.
    + destruct (run_command_captures _ _ _ _ Hrun) as [rc [out [err ->]]].
      remember (update_tool tool st) as outcome eqn:Ho.
      unfold update_tool, try_except in Ho.
      unfold bind at 1 in Ho. unfold host_call_result in Ho. rewrite Hrepo in Ho.
      unfold bind at 1 in Ho. cbn [ret] in Ho.
      rewrite (bind_ret_eq Hrun) in Ho.
      unfold bind at 1 in Ho. cbn [unpack3 ret] in Ho.
      unfold update_verdict.
      destruct (rc =? 0);
        [|destruct (str_in "Could not resolve" err || str_in "Failed to fetch" err);
          [|destruct (str_in "Permission denied" err || str_in "requires root privileges" err);
            [|destruct (str_in "Unable to locate package" err);
              [|destruct (str_in "is already the newest version" err)]]]];
        subst outcome; run_m; split; reflexivity.
    + unfold update_tool, try_except.
      unfold bind at 1. unfold host_call_result. rewrite Hrepo.
      unfold bind at 1. cbn [ret].
      rewrite (bind_raise_eq Hrun). reflexivity.
  - unfold update_tool, try_except.
    unfold bind at 1. unfold host_call_result. rewrite Hrepo.
    unfold bind at 1. reflexivity.
  - unfold update_tool, try_except.
    unfold bind at 1. unfold host_call_result. rewrite Hrepo. reflexivity.
Qed.

(** [update_tools] of at most three tools, in the same terms. *)
Lemma update_tools_cases (tools : list string) (st : State) :
  len_list tools <= 3 ->
  let run := update_tools tools st in
  let st_checked := mkState (world st)
                      (console st ++ [Colors.CYAN ++ "[*] Checking repositories..."
                                      ++ Colors.RESET]) (shared st) in
  match add_repository (world st) with
  | (Raise e, w0) =>
      run = reraise_or_wrap update_classes "Unexpected error updating tools: " e
              (mkState w0 (console st_checked) (shared st))
  | (Ret false, w0) =>
      run = (Raise (simple_exn RepositoryError "Failed to add repository"),
             mkState w0 (console st_checked) (shared st))
  | (Ret true, w0) =>
      match run_command ("apt install --only-upgrade -y " ++ join " " tools) true true
              (update_ready st w0 tools) with
      | (Raise e, st1) =>
          run = reraise_or_wrap update_classes "Unexpected error updating tools: " e st1
      | (Ret (ExitCode _), _) => False
      | (Ret (Captured rc out stderr), st1) =>
          world (snd run) = world st1
          /\ verdict_of (fst run) = update_verdict true rc stderr
          /\ (forall e, fst run = Raise e -> klass e = ToolInstallationError ->
                str_in "Could not resolve" stderr || str_in "Failed to fetch" stderr = false ->
                str_in "Unable to locate package" stderr = false ->
                message e = "Failed to update some tools")
      end
  end.
Proof.
  intros Hlen run st_checked. subst run.
  destruct (add_repository (world st)) as [[[|]|e] w0] eqn:Hrepo.
  - destruct (run_command ("apt install --only-upgrade -y " ++ join " " tools) true true
                (update_ready st w0 tools)) as [[r|e] st1] eqn:Hrun.
    + destruct (run_command_captures _ _ _ _ Hrun) as [rc [out [err ->]]].
      remember (update_tools tools st) as outcome eqn:Ho.
      unfold update_tools, try_except, ensure_repository in Ho.
      unfold bind at 1 in Ho. unfold bind at 1 in Ho. cbn [print] in Ho.
      unfold bind at 1 in Ho. unfold host_call_result in Ho.
      cbn [world console shared] in Ho. rewrite Hrepo in Ho. cbn [ret] in Ho.
      unfold bind at 1 in Ho. cbn [print world console shared] in Ho.
      replace (len_list tools <=? 3) with true in Ho by (symmetry; apply Z.leb_le; exact Hlen).
      unfold _batch_update_tools in Ho.
      unfold bind at 1 in Ho. cbn [print world console shared] in Ho.
      fold (update_ready st w0 tools) in Ho.
      rewrite (bind_ret_eq Hrun) in Ho.
      unfold bind at 1 in Ho. cbn [unpack3 ret] in Ho.
      unfold update_verdict.
      destruct (rc =? 0);
        [|destruct (str_in "Could not resolve" err || str_in "Failed to fetch" err);
          [|destruct (str_in "Permission denied" err || str_in "requires root privileges" err);
            [|destruct (str_in "Unable to locate package" err);
              [|destruct (str_in "is already the newest version" err && str_in "0 upgraded" err)
                  eqn:Enew]]]];
        subst outcome; run_m; cbn [negb orb]; try rewrite Enew;
        (split; [reflexivity|]); (split; [reflexivity|]);
        intros e He Hk; try discriminate; intros Hnet Hun; try discriminate;
        injection He as <-; try discriminate; reflexivity.
    + unfold update_tools, try_except, ensure_repository.
      unfold bind at 1. unfold bind at 1. cbn [print].
      unfold bind at 1. unfold host_call_result.
      cbn [world console shared]. rewrite Hrepo. cbn [ret].
      unfold bind at 1. cbn [print world console shared].
      replace (len_list tools <=? 3) with true by (symmetry; apply Z.leb_le; exact Hlen).
      unfold _batch_update_tools.
      unfold bind at 1. cbn [print world console shared].
      fold (update_ready st w0 tools).
      rewrite (bind_raise_eq Hrun). reflexivity.
  - unfold update_tools, try_except, ensure_repository.
    unfold bind at 1. unfold bind at 1. cbn [print].
    unfold bind at 1. unfold host_call_result.
    cbn [world console shared]. rewrite Hrepo. reflexivity.
  - unfold update_tools, try_except, ensure_repository.
    unfold bind at 1. unfold bind at 1. cbn [print].
    unfold bind at 1. unfold host_call_result.
    cbn [world console shared]. rewrite Hrepo. reflexivity.
Qed.

End OneTool.

(** X7.  With the confirmation skipped, [remove_tool] of one tool and
    [remove_tools] of the list that holds only that tool run the same
    command and agree: they return the same boolean or raise errors of the
    same class, and leave the same world. *)
Theorem remove_tool_agrees_with_small_batch :
  forall (host : Host) (tool : string) (st : State),
    let single := remove_tool tool true st in
    let batch := remove_tools [tool] true st in
    verdict_of (fst single) = verdict_of (fst batch)
    /\ world (snd single) = world (snd batch).
Proof.
  intros host tool st single batch. subst single batch.
  pose proof (remove_tool_skipped tool st) as Hs.
  pose proof (remove_tools_skipped [tool] st) as Hb.
  cbv zeta in Hs, Hb. cbn [join String.concat] in Hb.
  rewrite run_command_eq in Hs, Hb. cbn [world] in Hs, Hb.
  specialize (Hb ltac:(unfold len_list; simpl; lia)).
  destruct (sanitize_command ("apt remove -y " ++ tool)) as [c|e].
  - destruct Hs as [Hw1 Hf1]. destruct Hb as [Hw2 Hf2].
    rewrite Hf1, Hf2, Hw1, Hw2. split; [|reflexivity].
    destruct (exit_code_of _ =? 0); [reflexivity|].
    destruct (str_in "Permission denied" _ || str_in "requires root privileges" _);
      [reflexivity|].
    destruct (str_in "Unable to locate package" _ || str_in "is not installed" _);
      reflexivity.
  - rewrite Hs, Hb. apply reraise_or_wrap_same_class. reflexivity.
Qed.

(** X8.  [update_tool] of one tool and [update_tools] of the list that
    holds only that tool run the same command and leave the same world.
    They agree (same boolean, or errors of the same class) except in one
    case, where [update_tool] returns [True] and [update_tools] raises the
    [ToolInstallationError] [Failed to update some tools]: the small batch
    wants [0 upgraded] beside [is already the newest version].  The case
    occurs: a failed upgrade of [nmap] that only says that the package is
    already the newest version. *)
Theorem update_tool_versus_small_batch :
  (forall (host : Host) (tool : string) (st : State),
     let single := update_tool tool st in
     let batch := update_tools [tool] st in
     world (snd single) = world (snd batch)
     /\ (verdict_of (fst single) = verdict_of (fst batch)
         \/ (fst single = Ret true
             /\ exists e, fst batch = Raise e /\ klass e = ToolInstallationError
                          /\ message e = "Failed to update some tools")))
  /\ fst (update_tool "nmap" (boot "y" newest_and_failed)) = Ret true
  /\ exists e, fst (update_tools ["nmap"] (boot "y" newest_and_failed)) = Raise e.
Proof.
  split; [|split; [vm_compute; reflexivity | eexists; vm_compute; reflexivity]].
  intros host tool st single batch. subst single batch.
  pose proof (update_tool_cases tool st) as Hs.
  pose proof (update_tools_cases [tool] st ltac:(unfold len_list; simpl; lia)) as Hb.
  cbv zeta in Hs, Hb. cbn [join String.concat] in Hb.
  destruct (add_repository (world st)) as [[[|]|e] w0].
  - rewrite !run_command_eq in Hs, Hb. cbn [world update_ready] in Hs, Hb.
    destruct (sanitize_command ("apt install --only-upgrade -y " ++ tool)) as [c|e].
    + cbn [world update_ready] in Hs, Hb.
      destruct Hs as [Hw1 Hv1]. destruct Hb as [Hw2 [Hv2 Hm]].
      split; [congruence|]. rewrite Hv1, Hv2.
      set (rc := exit_code_of _) in *. set (err := stderr_of _) in *.
      unfold update_verdict in *.
      destruct (rc =? 0); [left; reflexivity|].
      destruct (str_in "Could not resolve" err || str_in "Failed to fetch" err) eqn:Enet;
        [left; reflexivity|].
      destruct (str_in "Permission denied" err || str_in "requires root privileges" err);
        [left; reflexivity|].
      destruct (str_in "Unable to locate package" err) eqn:Eun; [left; reflexivity|].
      destruct (str_in "is already the newest version" err); [|left; reflexivity].
      cbn [negb orb andb] in *.
      destruct (str_in "0 upgraded" err); [left; reflexivity|].
      right. split; [apply verdict_ret; exact Hv1|].
      destruct (verdict_raise _ _ Hv2) as [e [He Hk]].
      exists e. split; [exact He|]. split; [exact Hk|].
      apply Hm; auto.
    + rewrite Hs, Hb.
      match goal with |- context [reraise_or_wrap ?l ?w1 e ?s1] =>
        match goal with |- context [reraise_or_wrap l ?w2 e (update_ready ?a ?b ?c)] =>
          destruct (reraise_or_wrap_same_class l w1 w2 e s1 (update_ready a b c) eq_refl)
            as [Hv Hw]
        end
      end.
      split; [exact Hw | left; exact Hv].
  - rewrite Hs, Hb. split; [reflexivity | left; reflexivity].
  - rewrite Hs, Hb.
    match goal with
    | |- world (snd (reraise_or_wrap ?l ?w1 e ?s1))
         = world (snd (reraise_or_wrap _ ?w2 e ?s2)) /\ _ =>
        destruct (reraise_or_wrap_same_class l w1 w2 e s1 s2 eq_refl) as [Hv Hw]
    end.
    split; [exact Hw | left; exact Hv].
Qed.

(** X9.  [install_tools] takes every answer but [n] and [N] for a yes.
    When the prompt gives any other text, the empty text included (which
    is what [safe_input] gives after an interrupt), the call goes on
    exactly as with [skip_confirmation=True], from the state in which the
    list was shown and the question asked; on [n] or [N] it prints that the
    installation is cancelled and returns [False]. *)
Theorem install_declines_only_on_n :
  forall (host : Host) (tools : list string) (st : State) (reply : string) (w1 : World),
    safe_input install_prompt (world st) = (Ret reply, w1) ->
    install_tools tools false st =
      if String.eqb (lower reply) "n"
      then (Ret false,
            mkState w1
              (console (install_asked st w1 tools)
               ++ [Colors.YELLOW ++ "[*] Installation cancelled." ++ Colors.RESET])
              (shared st))
      else install_tools tools true (install_asked st w1 tools).
Proof.
  intros host tools st reply w1 Hin.
  unfold install_tools, try_except. cbn [negb].
  unfold bind at 1. unfold bind at 1. cbn [print].
  unfold bind at 1.
  rewrite (for_each_print (fun '(i, tool) =>
             Colors.YELLOW ++ "   " ++ str_of_int i ++ ". " ++ tool ++ Colors.RESET))
    by (intros [i tool]; reflexivity).
  unfold bind at 1. unfold host_call_result. cbn [world console shared].
  fold install_prompt. rewrite Hin.
  fold (install_asked st w1 tools).
  destruct (String.eqb (lower reply) "n").
  - reflexivity.
  - cbn [ret negb]. unfold bind at 3. cbn [ret negb]. reflexivity.
Qed.

(** X9, witness: ten tools and a prompt that gives the empty text. *)
Lemma install_declines_only_on_n_witness :
  install_tools ten_tools false (boot "" ten_tools_apt)
  = install_tools ten_tools true (install_asked (boot "" ten_tools_apt) [] ten_tools).
Proof.
  rewrite (install_declines_only_on_n (scripted_host "" ten_tools_apt) ten_tools
             (boot "" ten_tools_apt) "" [] eq_refl).
  replace (String.eqb (lower "") "n") with false by reflexivity.
  reflexivity.
Defined.

(** X10.  [remove_tools] and [remove_tool] ask before they act and take
    only [y] and [Y] for a yes: when the prompt gives anything else (any
    other text, or an exception), no command is run, the world is the one
    that the prompt left, and the call does not return [True]. *)
Theorem remove_needs_an_explicit_yes :
  forall (host : Host) (tools : list string) (tool : string) (st : State),
    (not_yes (fst (safe_input remove_prompt (world st))) ->
       world (snd (remove_tools tools false st)) = snd (safe_input remove_prompt (world st))
       /\ fst (remove_tools tools false st) <> Ret true)
    /\ (not_yes (fst (safe_input remove_tool_prompt (world st))) ->
       world (snd (remove_tool tool false st))
         = snd (safe_input remove_tool_prompt (world st))
       /\ fst (remove_tool tool false st) <> Ret true).
Proof.
  intros host tools tool st. split; intros Hno.
  - destruct (safe_input remove_prompt (world st)) as [r w1] eqn:Hin. cbn [fst snd] in *.
    remember (remove_tools tools false st) as outcome eqn:Ho.
    unfold remove_tools, try_except in Ho. cbn [negb] in Ho.
    unfold bind at 1 in Ho. unfold bind at 1 in Ho. cbn [print] in Ho.
    unfold bind at 1 in Ho.
    rewrite (for_each_print (fun '(i, tool) =>
               Colors.YELLOW ++ "   " ++ str_of_int i ++ ". " ++ tool ++ Colors.RESET))
      in Ho by (intros [i t]; reflexivity).
    unfold bind at 1 in Ho. cbn [print world console shared] in Ho.
    unfold bind at 1 in Ho. unfold host_call_result in Ho. cbn [world console shared] in Ho.
    fold remove_prompt in Ho. rewrite Hin in Ho.
    destruct r as [reply|e]; cbn [not_yes] in Hno.
    + apply String.eqb_neq in Hno. rewrite Hno in Ho. cbn [negb] in Ho.
      subst outcome. run_m. split; [reflexivity | discriminate].
    + match type of Ho with context [reraise_or_wrap ?l ?w e ?s] =>
        destruct (reraise_or_wrap_raises l w e s) as [e1 [s1 [H1 [Hw1 _]]]]
      end.
      rewrite H1 in Ho. subst outcome. cbn [fst snd world] in *.
      split; [exact Hw1 | discriminate].
  - destruct (safe_input remove_tool_prompt (world st)) as [r w1] eqn:Hin.
    cbn [fst snd] in *.
    remember (remove_tool tool false st) as outcome eqn:Ho.
    unfold remove_tool, try_except in Ho. cbn [negb] in Ho.
    unfold bind at 1 in Ho. unfold bind at 1 in Ho. cbn [print] in Ho.
    unfold bind at 1 in Ho. cbn [print world console shared] in Ho.
    unfold bind at 1 in Ho. unfold host_call_result in Ho. cbn [world console shared] in Ho.
    fold remove_tool_prompt in Ho. rewrite Hin in Ho.
    destruct r as [reply|e]; cbn [not_yes] in Hno.
    + apply String.eqb_neq in Hno. rewrite Hno in Ho. cbn [negb] in Ho.
      subst outcome. run_m. split; [reflexivity | discriminate].
    + match type of Ho with context [reraise_or_wrap ?l ?w e ?s] =>
        destruct (reraise_or_wrap_raises l w e s) as [e1 [s1 [H1 [Hw1 _]]]]
      end.
      rewrite H1 in Ho. subst outcome. cbn [fst snd world] in *.
      split; [exact Hw1 | discriminate].
Qed.

(** X10, witness: the prompt gives the empty text; nothing is run. *)
Lemma remove_needs_an_explicit_yes_witness :
  world (snd (remove_tools remove_four false (boot "" one_interrupted))) = []
  /\ fst (remove_tools remove_four false (boot "" one_interrupted)) <> Ret true.
Proof.
  apply (proj1 (remove_needs_an_explicit_yes (scripted_host "" one_interrupted)
                  remove_four "nmap" (boot "" one_interrupted))).
  vm_compute. discriminate.
Defined.

(** X5, witness: the small batch with a package that no repository has
    raises, and what it raises is a [ToolInstallationError]. *)
Lemma public_methods_raise_documented_errors_witness :
  exists e st',
    install_tools three_tools true (boot "y" three_tools_apt) = (Raise e, st')
    /\ In (klass e) [RepositoryError; NetworkError; PermissionError; ToolInstallationError].
Proof.
  destruct (install_tools three_tools true (boot "y" three_tools_apt)) as [[b|e] st'] eqn:H.
  - vm_compute in H. discriminate H.
  - exists e, st'. split; [reflexivity|].
    exact (proj1 (public_methods_raise_documented_errors
                    (scripted_host "y" three_tools_apt) three_tools "nmap" true) _ _ _ H).
Defined.

(* ===================================================================== *)
(** * Further properties: names of categories and validation of input *)
(* ===================================================================== *)

Lemma lower_upper_case (c : ascii) :
  (isupper c || islower c) = (isupper (upper_char c) || islower (upper_char c))
  /\ (isupper c || islower c) = (isupper (lower_char c) || islower (lower_char c))
  /\ upper_char (upper_char c) = upper_char c
  /\ lower_char (lower_char c) = lower_char c.
Proof.
  destruct c as [[] [] [] [] [] [] [] []]; vm_compute; repeat split; reflexivity.
Qed.

Lemma title_from_idempotent (b : bool) (s : string) :
  title_from b (title_from b s) = title_from b s.
Proof.
  revert b. induction s as [|c s IH]; intros b; [reflexivity|].
  destruct (lower_upper_case c) as [Hu [Hl [Huu Hll]]].
  cbn [title_from]. destruct b.
  - rewrite Hll, <- Hl, IH. reflexivity.
  - rewrite Huu, <- Hu, IH. reflexivity.
Qed.

Lemma title_from_length (b : bool) (s : string) :
  String.length (title_from b s) = String.length s.
Proof.
  revert b. induction s as [|c s IH]; intros b; [reflexivity|].
  cbn [title_from String.length]. rewrite IH. reflexivity.
Qed.

Lemma replace_char_length (old new : ascii) (s : string) :
  String.length (replace old (String new "") s) = String.length s.
Proof.
  induction s as [|c s IH]; [reflexivity|].
  cbn [replace]. destruct (Ascii.eqb c old); cbn [append String.length]; rewrite IH; reflexivity.
Qed.

Lemma replace_absent (old : ascii) (new s : string) :
  char_in old s = false -> replace old new s = s.
Proof.
  induction s as [|c s IH]; [reflexivity|].
  cbn [char_in replace]. rewrite Ascii.eqb_sym.
  destruct (Ascii.eqb c old); [discriminate|]. cbn [orb]. intros H. rewrite IH by exact H.
  reflexivity.
Qed.

Lemma replace_removes (old new : ascii) (s : string) :
  Ascii.eqb old new = false -> char_in old (replace old (String new "") s) = false.
Proof.
  intros Hne. induction s as [|c s IH]; [reflexivity|].
  cbn [replace]. destruct (Ascii.eqb c old) eqn:Hc; cbn [append char_in].
  - rewrite Hne, IH. reflexivity.
  - rewrite Ascii.eqb_sym, Hc, IH. reflexivity.
Qed.

Lemma title_keeps_underscore_out (b : bool) (s : string) :
  char_in "_"%char s = false -> char_in "_"%char (title_from b s) = false.
Proof.
  revert b. induction s as [|c s IH]; intros b; [reflexivity|].
  cbn [char_in title_from]. intros H. apply orb_false_iff in H. destruct H as [Hc Hs].
  rewrite (IH _ Hs), orb_false_r.
  destruct c as [[] [] [] [] [] [] [] []]; destruct b; try reflexivity; discriminate.
Qed.

(** X11.  [format_category_name] gives a name without underscore and of
    the same length, and formatting a formatted name changes nothing: the
    names that [get_all_categories] and [search_tool] show can be formatted
    again without harm. *)
Theorem format_category_name_is_stable :
  forall category_name : string,
    format_category_name (format_category_name category_name)
      = format_category_name category_name
    /\ char_in "_"%char (format_category_name category_name) = false
    /\ len (format_category_name category_name) = len category_name.
Proof.
  intros s. unfold format_category_name, title.
  assert (Hu : char_in "_"%char (title_from false (replace "_"%char " " s)) = false).
  { apply title_keeps_underscore_out. apply replace_removes. reflexivity. }
  split; [|split].
  - rewrite (replace_absent _ _ _ Hu). apply title_from_idempotent.
  - exact Hu.
  - unfold len. rewrite title_from_length, replace_char_length. reflexivity.
Qed.

Example format_category_name_of_a_table_key :
  format_category_name "web_APPLICATIONS_802.11x" = "Web Applications 802.11X".
Proof. reflexivity. Qed.

Lemma input_scan_ret_inv (patterns : list string) (user_input s : string) :
  input_scan patterns user_input = Ret s ->
  s = user_input /\ forall p, In p patterns -> str_in p user_input = false.
Proof.
  induction patterns as [|p ps IH]; simpl.
  - intros H. injection H as <-. split; [reflexivity | intros p []].
  - destruct (str_in p user_input) eqn:Hp; [discriminate|].
    intros H. destruct (IH H) as [-> Hall]. split; [reflexivity|].
    intros q [<- | Hq]; auto.
Qed.

Lemma input_scan_clean (patterns : list string) (user_input : string) :
  (forall p, In p patterns -> str_in p user_input = false) ->
  input_scan patterns user_input = Ret user_input.
Proof.
  induction patterns as [|p ps IH]; intros H; simpl; [reflexivity|].
  rewrite (H p (or_introl eq_refl)). apply IH. intros q Hq. apply H. right. exact Hq.
Qed.

Lemma str_in_empty (p : string) : p <> "" -> str_in p "" = false.
Proof. destruct p; [intros H; contradiction H; reflexivity | reflexivity]. Qed.

Lemma keep_chars_length (f : ascii -> bool) (s : string) :
  (String.length (keep_chars f s) <= String.length s)%nat.
Proof.
  induction s as [|c s IH]; [apply Nat.le_refl|].
  cbn [keep_chars]. destruct (f c); cbn [String.length]; lia.
Qed.

Lemma keep_chars_in (f : ascii -> bool) (s : string) (c : ascii) :
  char_in c (keep_chars f s) = true <-> f c = true /\ char_in c s = true.
Proof.
  induction s as [|x s IH]; cbn [keep_chars char_in].
  - split; [discriminate | intros [_ H]; discriminate].
  - destruct (f x) eqn:Hx; cbn [char_in].
    + rewrite !orb_true_iff, IH. split.
      * intros [Hc | [Hf Hc]]; [|tauto].
        apply Ascii.eqb_eq in Hc. subst x. split; [exact Hx | left; apply Ascii.eqb_refl].
      * intros [Hf [Hc | Hc]]; [left; exact Hc | right; tauto].
    + rewrite IH, orb_true_iff. split; [tauto|].
      intros [Hf [Hc | Hc]]; [|tauto].
      apply Ascii.eqb_eq in Hc. subst x. congruence.
Qed.

Lemma keep_chars_all (f : ascii -> bool) (s : string) :
  (forall c, char_in c s = true -> f c = true) -> keep_chars f s = s.
Proof.
  induction s as [|x s IH]; intros H; [reflexivity|].
  cbn [keep_chars]. rewrite (H x) by (cbn [char_in]; rewrite Ascii.eqb_refl; reflexivity).
  rewrite IH; [reflexivity|]. intros c Hc. apply H. cbn [char_in]. rewrite Hc.
  apply orb_true_r.
Qed.

Lemma filtered_spec (a d : option string) (u : string) (c : ascii) :
  char_in c (filtered a d u) = true ->
  char_in c u = true
  /\ (forall allowed, a = Some allowed -> allowed <> "" -> char_in c allowed = true)
  /\ (forall disallowed, d = Some disallowed -> disallowed <> "" ->
                         char_in c disallowed = false).
Proof.
  unfold filtered. intros H.
  assert (Hd : char_in c (match a with
                          | Some allowed =>
                              if truthy allowed
                              then keep_chars (fun c => char_in c allowed) u else u
                          | None => u
                          end) = true
               /\ forall disallowed, d = Some disallowed -> disallowed <> "" ->
                                     char_in c disallowed = false).
  { destruct d as [dis|]; [|split; [exact H | discriminate]].
    destruct (truthy dis) eqn:Ht.
    - apply keep_chars_in in H. destruct H as [Hn Hc]. split; [exact Hc|].
      intros x Hx _. injection Hx as <-. apply negb_true_iff in Hn. exact Hn.
    - split; [exact H|]. intros x Hx Hne. injection Hx as <-.
      destruct dis; [contradiction Hne; reflexivity | discriminate]. }
  destruct Hd as [Ha Hd]. split; [|split; [|exact Hd]].
  - destruct a as [al|]; [|exact Ha]. destruct (truthy al); [|exact Ha].
    apply keep_chars_in in Ha. tauto.
  - intros x Hx Hne. subst a. destruct (truthy x) eqn:Ht.
    + apply keep_chars_in in Ha. tauto.
    + destruct x; [contradiction Hne; reflexivity | discriminate].
Qed.

Lemma filtered_fixed (a d : option string) (u : string) :
  filtered a d (filtered a d u) = filtered a d u.
Proof.
  set (s := filtered a d u).
  assert (Hs : forall c, char_in c s = true ->
                 (forall allowed, a = Some allowed -> allowed <> "" -> char_in c allowed = true)
                 /\ (forall disallowed, d = Some disallowed -> disallowed <> "" ->
                                        char_in c disallowed = false)).
  { intros c Hc. apply (filtered_spec a d u c) in Hc. tauto. }
  clearbody s. unfold filtered.
  assert (Ha : match a with
               | Some allowed =>
                   if truthy allowed then keep_chars (fun c => char_in c allowed) s else s
               | None => s
               end = s).
  { destruct a as [al|]; [|reflexivity]. destruct (truthy al) eqn:Ht; [|reflexivity].
    apply keep_chars_all. intros c Hc. apply (proj1 (Hs c Hc) al eq_refl).
    intros ->. discriminate. }
  rewrite Ha.
  destruct d as [dis|]; [|reflexivity]. destruct (truthy dis) eqn:Ht; [|reflexivity].
  apply keep_chars_all. intros c Hc. apply negb_true_iff.
  apply (proj2 (Hs c Hc) dis eq_refl). intros ->. discriminate.
Qed.

Lemma filtered_length (a d : option string) (u : string) :
  (String.length (filtered a d u) <= String.length u)%nat.
Proof.
  unfold filtered.
  assert (Ha : (String.length
                  (match a with
                   | Some allowed =>
                       if truthy allowed then keep_chars (fun c => char_in c allowed) u else u
                   | None => u
                   end) <= String.length u)%nat).
  { destruct a as [al|]; [|apply Nat.le_refl]. destruct (truthy al); [|apply Nat.le_refl].
    apply keep_chars_length. }
  destruct d as [dis|]; [|exact Ha]. destruct (truthy dis); [|exact Ha].
  eapply Nat.le_trans; [apply keep_chars_length | exact Ha].
Qed.

(** What [validate_input] returns: the filtered input, free of the
    patterns, and within the maximal length when there is one. *)
Lemma validate_input_ret_inv (re_match : string -> string -> result bool)
    (u : string) (a d : option string) (m : option Z) (p : option string) (s : string) :
  validate_input re_match u a d m p = Ret s ->
  s = filtered a d u
  /\ (forall q, In q input_dangerous_patterns -> str_in q s = false)
  /\ (forall n, m = Some n -> n <> 0 -> u <> "" -> len u <= n).
Proof.
  unfold validate_input. destruct (truthy u) eqn:Hu; cbn [negb].
  - destruct (match m with Some n => _ | None => false end) eqn:Hlen; [discriminate|].
    destruct (match p with Some p0 => _ | None => Ret true end) as [[|]|e]; try discriminate.
    intros H. apply input_scan_ret_inv in H. destruct H as [-> Hall].
    split; [reflexivity|]. split; [exact Hall|].
    intros n -> Hn _. apply Z.eqb_neq in Hn. rewrite Hn in Hlen. cbn [negb andb] in Hlen.
    rewrite Z.gtb_ltb in Hlen. apply Z.ltb_ge in Hlen. exact Hlen.
  - intros H. injection H as <-. destruct u; [|discriminate].
    split.
    { unfold filtered. destruct a as [a|]; destruct d as [d|];
        try destruct (truthy a); try destruct (truthy d); reflexivity. }
    split.
    { intros q Hq. apply str_in_empty. simpl in Hq.
      repeat (destruct Hq as [<- | Hq]; [discriminate|]). destruct Hq. }
    intros n _ _ H. contradiction H. reflexivity.
Qed.

(** X12.  What [validate_input] returns contains none of the patterns that
    it looks for, whatever the filters, the maximal length and the regular
    expression.  Its list is not the list of [sanitize_command]: a
    validated text passes [sanitize_command] exactly when it holds none of
    ["${"], [mkfs] and [dd if=/dev/zero], the three patterns of
    [sanitize_command] that no pattern of [validate_input] covers. *)
Theorem validated_input_has_no_dangerous_pattern :
  forall (re_match : string -> string -> result bool)
         (user_input : string) (allowed_chars disallowed_chars : option string)
         (max_length : option Z) (pattern : option string) (validated : string),
    validate_input re_match user_input allowed_chars disallowed_chars max_length pattern
      = Ret validated ->
    (forall p, In p input_dangerous_patterns -> ~ is_substring p validated)
    /\ (sanitize_command validated = Ret validated
        <-> ~ (is_substring "${" validated \/ is_substring "mkfs" validated
               \/ is_substring "dd if=/dev/zero" validated)).
Proof.
  intros re_match u a d m p s H.
  destruct (validate_input_ret_inv re_match u a d m p s H) as [_ [Hall _]].
  assert (Hno : forall q, In q input_dangerous_patterns -> ~ is_substring q s).
  { intros q Hq. apply str_in_false_spec. apply Hall. exact Hq. }
  split; [exact Hno|]. split.
  - intros Hs [H1 | [H1 | H1]];
      apply sanitize_scan_ret_inv in Hs; destruct Hs as [_ Hs];
      apply str_in_spec in H1; rewrite Hs in H1; try discriminate; simpl; tauto.
  - intros Hthree. apply sanitize_scan_clean. intros q Hq. apply str_in_false_spec.
    intros Hsub. simpl in Hq.
    repeat match type of Hq with
    | _ \/ _ => destruct Hq as [<- | Hq]
    | False => destruct Hq
    end;
    match type of Hsub with
    | is_substring ?q s =>
        first
          [ apply (Hno q); [simpl; tauto | exact Hsub]
          | apply Hthree; tauto
          | apply (Hno "rm -rf"); [simpl; tauto|];
            apply (is_substring_trans _ "rm -rf /"); [exists "", " /"; reflexivity | exact Hsub]
          | apply (Hno "rm -rf"); [simpl; tauto|];
            apply (is_substring_trans _ "rm -rf /*");
            [exists "", " /*"; reflexivity | exact Hsub]
          | apply (Hno ";"); [simpl; tauto|];
            apply (is_substring_trans _ ":(){:|:&};:");
            [exists ":(){:|:&}", ":"; reflexivity | exact Hsub] ]
    end.
Qed.

(** X12, witness: [mkfs.ext4] passes [validate_input] and is refused by
    [sanitize_command]. *)
Lemma validated_input_has_no_dangerous_pattern_witness :
  validate_input match_anything "mkfs.ext4" None None None None = Ret "mkfs.ext4"
  /\ ~ is_substring ";" "mkfs.ext4"
  /\ sanitize_command "mkfs.ext4" <> Ret "mkfs.ext4".
Proof.
  split; [reflexivity|].
  destruct (validated_input_has_no_dangerous_pattern match_anything "mkfs.ext4"
              None None None None "mkfs.ext4" eq_refl) as [Hno Hiff].
  split; [apply Hno; simpl; tauto|].
  intros Hs. apply Hiff in Hs. apply Hs. right. left. exists "", ".ext4". reflexivity.
Defined.

(** X13.  Without a regular expression, validating a validated input
    gives it back: what [validate_input] returns is no longer than the
    input, is made of characters of the input that are allowed and not
    disallowed (when the two lists are given and not empty), and passes
    [validate_input] unchanged under the same settings. *)
Theorem validate_input_is_idempotent :
  forall (re_match : string -> string -> result bool)
         (user_input : string) (allowed_chars disallowed_chars : option string)
         (max_length : option Z) (validated : string),
    validate_input re_match user_input allowed_chars disallowed_chars max_length None
      = Ret validated ->
    validate_input re_match validated allowed_chars disallowed_chars max_length None
      = Ret validated
    /\ len validated <= len user_input
    /\ forall c, char_in c validated = true ->
         char_in c user_input = true
         /\ (forall allowed, allowed_chars = Some allowed -> allowed <> "" ->
                             char_in c allowed = true)
         /\ (forall disallowed, disallowed_chars = Some disallowed -> disallowed <> "" ->
                                char_in c disallowed = false).
Proof.
  intros re_match u a d m s H.
  destruct (validate_input_ret_inv re_match u a d m None s H) as [Hs [Hall Hlen]].
  assert (Hle : len s <= len u).
  { unfold len. rewrite Hs. apply inj_le. apply filtered_length. }
  split; [|split; [exact Hle|]].
  - unfold validate_input. destruct (truthy s) eqn:Ht; cbn [negb].
    + assert (Hu : u <> "").
      { intros ->. rewrite Hs in Ht. unfold filtered in Ht.
        destruct a as [al|]; destruct d as [dis|];
          try destruct (truthy al); try destruct (truthy dis); discriminate. }
      replace (match m with Some n => negb (n =? 0) && (len s >? n) | None => false end)
        with false.
      * fold (filtered a d s). rewrite Hs, filtered_fixed, <- Hs.
        apply input_scan_clean. exact Hall.
      * destruct m as [n|]; [|reflexivity]. destruct (Z.eqb_spec n 0); [reflexivity|].
        cbn [negb andb]. symmetry. rewrite Z.gtb_ltb. apply Z.ltb_ge.
        specialize (Hlen n eq_refl n0 Hu). lia.
    + destruct s; [reflexivity | discriminate].
  - intros c Hc. rewrite Hs in Hc. apply (filtered_spec a d u c Hc).
Qed.

(** X13, witness: a name with a space and a slash, filtered to letters,
    digits and the hyphen. *)
Lemma validate_input_is_idempotent_witness :
  validate_input match_anything "aircrack-ng"
    (Some "abcdefghijklmnopqrstuvwxyz0123456789-") (Some " ") (Some 40) None
  = Ret "aircrack-ng"
  /\ len "aircrack-ng" <= len "air crack/-ng".
Proof.
  destruct (validate_input_is_idempotent match_anything "air crack/-ng"
              (Some "abcdefghijklmnopqrstuvwxyz0123456789-") (Some " ") (Some 40)
              "aircrack-ng" eq_refl) as [H1 [H2 _]].
  split; [exact H1 | exact H2].
Defined.

(* ===================================================================== *)
(** * The cache and the queries of [ToolManager] *)
(* ===================================================================== *)

Section CacheFacts.
Context {host : Host} {disk : Disk host}.

(** A look into the cache returns and leaves the state as it is. *)
Lemma cache_get_returns (self : Cache.t) (key : string) (default : pyval) (st : State) :
  exists v, Cache.get self key default st = (Ret v, st).
Proof.
  unfold Cache.get, Cache.host_read, bind, ret.
  destruct (path_exists _ (world st)); simpl; [|eauto].
  destruct (json_load _ (world st)) as [timestamp value|]; [|eauto].
  destruct (Qgt_bool _ _); eauto.
Qed.

(** The wrapper of [cached] around a function that returns. *)
Lemma cached_cases (cache : Cache.t) (key_prefix func_name : string) (args : list string)
    (func : M pyval) (st : State) :
  let key := join ":" ([key_prefix; func_name] ++ args)%list in
  exists hit, Cache.get cache key PNone st = (Ret hit, st) /\
    cached cache key_prefix func_name args func st =
      if negb (is_none hit) then (Ret hit, st)
      else match func st with
           | (Ret result, st1) =>
               (Ret result,
                mkState (snd (json_dump (Cache._get_cache_path cache key)
                                (time_time (world st1)) result (world st1)))
                        (console st1) (shared st1))
           | (Raise e, st1) => (Raise e, st1)
           end.
Proof.
  intros key. destruct (cache_get_returns cache key PNone st) as [hit Hhit].
  exists hit. split; [exact Hhit|].
  unfold cached. fold key. rewrite (bind_ret_eq Hhit).
  destruct (negb (is_none hit)); [reflexivity|].
  unfold bind at 1. destruct (func st) as [[result|e] st1]; [|reflexivity].
  unfold Cache.set, Cache.host_read, host_call, bind, ret. simpl.
  destruct (json_dump _ _ _ _) as [b w]; reflexivity.
Qed.

(** [check_installed] raises after one line of output and leaves the world
    as it is. *)
Lemma check_installed_raises (tool_name : string) (st : State) :
  exists e line,
    check_installed tool_name st =
      (Raise e, mkState (world st) (console st ++ [line]) (shared st)).
Proof.
  set (check_cmd := "dpkg -s " ++ tool_name
                    ++ " 2>/dev/null | grep -q 'Status: install ok installed'").
  assert (Hgt : is_substring ">" check_cmd).
  { exists ("dpkg -s " ++ tool_name ++ " 2"),
      "/dev/null | grep -q 'Status: install ok installed'".
    unfold check_cmd. simpl. rewrite append_assoc. reflexivity. }
  destruct (sanitize_scan_hit dangerous_patterns check_cmd) as [p [Hp [_ Hs]]].
  { exists ">". split; [simpl; tauto | apply str_in_spec; exact Hgt]. }
  assert (Hrun : run_command check_cmd false true st = (Raise (security_error p), st)).
  { apply run_command_refused. exact Hs. }
  eexists _, _. unfold check_installed, try_except, bind. fold check_cmd. rewrite Hrun.
  reflexivity.
Qed.

End CacheFacts.

Section QueryFacts.
Context {host : Host} {disk : Disk host}.
Variable self_str : string.
Variable version_dir : string.

(** Without a cache, [get_installed_version] finds nothing: the error of
    [check_installed] ends in its handler. *)
Lemma get_installed_version_wrapped_none (tool_name : string) (st : State) :
  exists line,
    get_installed_version_wrapped tool_name st =
      (Ret PNone, mkState (world st) (console st ++ [line]) (shared st)).
Proof.
  destruct (check_installed_raises tool_name st) as [e [line H]].
  exists line. unfold get_installed_version_wrapped, try_except.
  rewrite (bind_raise_eq H). reflexivity.
Qed.

Lemma get_installed_version_cases (tool_name : string) (st : State) :
  let cache := Cache.mk version_dir 3600 in
  let key := tool_version_key self_str tool_name in
  exists hit, Cache.get cache key PNone st = (Ret hit, st) /\
    if is_none hit then
      exists line,
        get_installed_version self_str version_dir tool_name st =
          (Ret PNone,
           mkState (snd (json_dump (Cache._get_cache_path cache key)
                           (time_time (world st)) PNone (world st)))
                   (console st ++ [line]) (shared st))
    else get_installed_version self_str version_dir tool_name st = (Ret hit, st).
Proof.
  intros cache key.
  destruct (cached_cases cache "tool_version" "get_installed_version"
              [self_str; tool_name] (get_installed_version_wrapped tool_name) st)
    as [hit [Hhit Hc]].
  exists hit. split; [exact Hhit|].
  unfold get_installed_version. fold cache. rewrite Hc.
  destruct (is_none hit); simpl; [|reflexivity].
  destruct (get_installed_version_wrapped_none tool_name st) as [line Hw].
  exists line. rewrite Hw. reflexivity.
Qed.

(** The command by which a worker asks for an upgrade is refused. *)
Lemma upgrade_check_refused (tool_name : string) (capture : bool) (st : State) :
  exists e,
    run_command ("apt-get --simulate --quiet upgrade | grep -q '^Inst " ++ tool_name ++ " '")
      capture true st = (Raise e, st).
Proof.
  destruct (sanitize_scan_hit dangerous_patterns
              ("apt-get --simulate --quiet upgrade | grep -q '^Inst " ++ tool_name ++ " '"))
    as [p [_ [_ Hs]]].
  { exists "|". split; [simpl; tauto|]. apply str_in_spec.
    exists "apt-get --simulate --quiet upgrade ", (" grep -q '^Inst " ++ tool_name ++ " '").
    reflexivity. }
  eexists. apply run_command_refused. exact Hs.
Qed.

(** A worker of [check_for_updates] takes its tool for not installed, or
    raises. *)
Lemma check_tool_update_cases (tool_name : string) (st : State) :
  (exists st', check_tool_update self_str version_dir tool_name st
               = (Ret (tool_name, not_installed_entry), st')) \/
  (exists e st', check_tool_update self_str version_dir tool_name st = (Raise e, st')).
Proof.
  destruct (get_installed_version_cases tool_name st) as [hit [_ H]].
  unfold check_tool_update.
  destruct (is_none hit) eqn:Hn.
  - destruct H as [line H]. left. eexists. rewrite (bind_ret_eq H). reflexivity.
  - right. rewrite (bind_ret_eq H). rewrite Hn.
    destruct (upgrade_check_refused tool_name false st) as [e He].
    exists e, st. rewrite (bind_raise_eq He). reflexivity.
Qed.

Lemma check_tool_update_map (tools : list string) (st : State) :
  (exists st', executor_map (check_tool_update self_str version_dir) tools st
               = (Ret (map (fun tool_name => (tool_name, not_installed_entry)) tools), st')) \/
  (exists e st', executor_map (check_tool_update self_str version_dir) tools st
                 = (Raise e, st')).
Proof.
  revert st. induction tools as [|tool_name rest IH]; intros st; simpl.
  - left. exists st. reflexivity.
  - destruct (check_tool_update_cases tool_name st) as [[st1 H] | [e [st1 H]]].
    + rewrite (bind_ret_eq H).
      destruct (IH st1) as [[st2 H2] | [e [st2 H2]]].
      * left. exists st2. rewrite (bind_ret_eq H2). reflexivity.
      * right. exists e, st2. rewrite (bind_raise_eq H2). reflexivity.
    + right. exists e, st1. rewrite (bind_raise_eq H). reflexivity.
Qed.

End QueryFacts.

Lemma dict_set_in {V} (d : list (string * V)) (key k : string) (value v : V) :
  In (k, v) (dict_set d key value) -> (k, v) = (key, value) \/ In (k, v) d.
Proof.
  induction d as [|[k0 v0] rest IH]; simpl.
  - intros [H | []]. left. symmetry. exact H.
  - destruct (String.eqb_spec k0 key) as [-> | Hne]; simpl.
    + intros [H | H]; [left; symmetry; exact H | right; right; exact H].
    + intros [H | H]; [right; left; exact H|].
      destruct (IH H) as [H1 | H1]; [left; exact H1 | right; right; exact H1].
Qed.

Lemma dict_get_set_same {V} (d : list (string * V)) (key : string) (value : V) :
  dict_get (dict_set d key value) key = Some value.
Proof.
  induction d as [|[k0 v0] rest IH]; simpl.
  - rewrite String.eqb_refl. reflexivity.
  - destruct (String.eqb_spec k0 key) as [-> | Hne]; simpl.
    + rewrite String.eqb_refl. reflexivity.
    + destruct (String.eqb_spec k0 key); [contradiction | exact IH].
Qed.

Lemma dict_get_set_other {V} (d : list (string * V)) (key k : string) (value : V) :
  k <> key -> dict_get (dict_set d key value) k = dict_get d k.
Proof.
  intros Hne. induction d as [|[k0 v0] rest IH]; simpl.
  - destruct (String.eqb_spec key k); [congruence | reflexivity].
  - destruct (String.eqb_spec k0 key) as [-> | Hne0]; simpl.
    + destruct (String.eqb_spec key k); [congruence | reflexivity].
    + destruct (String.eqb_spec k0 k); [reflexivity | exact IH].
Qed.

(** What [collect] makes of workers that all found their tool not
    installed. *)
Lemma collect_in (results update_info : list (string * update_entry))
    (tool_name : string) (info : update_entry) :
  In (tool_name, info) (collect results update_info) ->
  In (tool_name, info) results \/ In (tool_name, info) update_info.
Proof.
  revert update_info. induction results as [|[t e] rest IH]; intros update_info; simpl.
  - auto.
  - intros H. destruct (IH _ H) as [H1 | H1]; [left; right; exact H1|].
    destruct (dict_set_in _ _ _ _ _ H1) as [H2 | H2]; [left; left; symmetry; exact H2 | auto].
Qed.

Lemma collect_not_installed (tools : list string) (update_info : list (string * update_entry))
    (tool_name : string) :
  In tool_name tools \/ dict_get update_info tool_name = Some not_installed_entry ->
  dict_get (collect (map (fun t => (t, not_installed_entry)) tools) update_info) tool_name
    = Some not_installed_entry.
Proof.
  revert update_info. induction tools as [|t rest IH]; intros update_info; simpl.
  - intros [[] | H]. exact H.
  - intros H. apply IH.
    destruct (String.eqb_spec tool_name t) as [-> | Hne].
    + right. apply dict_get_set_same.
    + destruct H as [[H | H] | H]; [congruence | left; exact H |].
      right. rewrite dict_get_set_other by exact Hne. exact H.
Qed.

(** X14.  [check_for_updates()] without a list of tools looks at no
    package: the command that would list the installed packages holds
    [${], so [run_command] refuses it before anything is run, and the
    method prints the error and returns the empty dictionary. *)
Theorem check_for_updates_of_everything_finds_nothing :
  forall (host : Host) (disk : Disk host) (self_str version_dir : string) (st : State),
    check_for_updates self_str version_dir None st =
      (Ret [],
       mkState (world st)
         (console st ++ [Colors.RED ++ "[!] Error checking for updates: "
                         ++ str_exn (security_error "${") ++ Colors.RESET])
         (shared st)).
Proof.
  intros host disk self_str version_dir st.
  unfold check_for_updates, try_except.
  rewrite (bind_raise_eq
             (bind_raise_eq
                (run_command_refused "dpkg-query -W -f='${Package}\n'" true st
                   (security_error "${") eq_refl))).
  reflexivity.
Qed.

(** X15.  [check_for_updates(tools)] always returns, and never reports a
    tool as up to date or as having an update: every entry of the
    dictionary says [not_installed], with no version.  The dictionary is
    empty, or it holds every tool of the list. *)
Theorem check_for_updates_only_reports_not_installed :
  forall (host : Host) (disk : Disk host) (self_str version_dir : string)
         (tools : list string) (st : State),
    exists update_info st',
      check_for_updates self_str version_dir (Some tools) st = (Ret update_info, st') /\
      (forall tool_name info,
         In (tool_name, info) update_info ->
         In tool_name tools /\ info = not_installed_entry) /\
      (update_info = [] \/
       forall tool_name,
         In tool_name tools -> dict_get update_info tool_name = Some not_installed_entry).
Proof.
  intros host disk self_str version_dir tools st.
  unfold check_for_updates, try_except.
  unfold bind at 1. unfold ret at 1.
  unfold bind at 1. unfold print at 1.
  unfold bind at 1.
  rewrite (run_command_clean "apt update -qq" false _ eq_refl).
  cbn [world console shared].
  destruct (subprocess_run "apt update -qq" (world st)) as [answer w].
  set (st1 := mkState w _ _).
  assert (Hrun : exists r, (match answer with
                            | Completed rc _ _ => (Ret (ExitCode rc), st1)
                            | RunRaised _ => (Ret (ExitCode 1), st1)
                            end) = (Ret r, st1)).
  { destruct answer; eauto. }
  destruct Hrun as [r ->].
  unfold bind at 1. unfold print at 1.
  set (st3 := mkState (world st1) _ _).
  destruct (check_tool_update_map self_str version_dir tools st3)
    as [[st2 H] | [e [st2 H]]].
  - rewrite (bind_ret_eq H). unfold ret.
    eexists _, _. split; [reflexivity|]. split.
    + intros tool_name info Hin. apply collect_in in Hin.
      destruct Hin as [Hin | []]. apply in_map_iff in Hin.
      destruct Hin as [t [Heq Ht]]. injection Heq as <- <-. auto.
    + right. intros tool_name Hin. apply collect_not_installed. left. exact Hin.
  - rewrite (bind_raise_eq H). run_m.
    eexists _, _. split; [reflexivity|]. split; [intros ? ? [] | left; reflexivity].
Qed.

(** X16.  [get_installed_version] never asks the package manager: it
    returns what a fresh cache file holds for the tool, and otherwise
    [None], after the error line of [check_installed] and after writing
    [null] into the cache; no command is run. *)
Theorem get_installed_version_only_asks_the_cache :
  forall (host : Host) (disk : Disk host) (self_str version_dir tool_name : string)
         (st : State),
    let cache := Cache.mk version_dir 3600 in
    let key := tool_version_key self_str tool_name in
    exists hit, Cache.get cache key PNone st = (Ret hit, st) /\
      if is_none hit then
        exists line,
          get_installed_version self_str version_dir tool_name st =
            (Ret PNone,
             mkState (snd (json_dump (Cache._get_cache_path cache key)
                             (time_time (world st)) PNone (world st)))
                     (console st ++ [line]) (shared st))
      else get_installed_version self_str version_dir tool_name st = (Ret hit, st).
Proof.
  intros host disk self_str version_dir tool_name st.
  exact (get_installed_version_cases self_str version_dir tool_name st).
Qed.

Section InstallOne.
Context {host : Host} {disk : Disk host}.

Lemma bind_ret_inv {A B} (m : M A) (k : A -> M B) (st st' : State) (b : B) :
  bind m k st = (Ret b, st') ->
  exists a st1, m st = (Ret a, st1) /\ k a st1 = (Ret b, st').
Proof.
  unfold bind. destruct (m st) as [[a|e] st1]; [|discriminate].
  intros H. exists a, st1. auto.
Qed.

(** The probe [which tool 2>/dev/null] is refused. *)
Lemma which_probe_refused (tool_name : string) (capture : bool) (st : State) :
  exists p, In p dangerous_patterns /\
    run_command ("which " ++ tool_name ++ " 2>/dev/null") capture true st
      = (Raise (security_error p), st).
Proof.
  destruct (sanitize_scan_hit dangerous_patterns ("which " ++ tool_name ++ " 2>/dev/null"))
    as [p [Hp [_ Hs]]].
  { exists ">". split; [simpl; tauto|]. apply str_in_spec.
    exists ("which " ++ tool_name ++ " 2"), "/dev/null".
    simpl. rewrite append_assoc. reflexivity. }
  exists p. split; [exact Hp|]. apply run_command_refused. exact Hs.
Qed.

End InstallOne.

(** X17.  [install_tool] never returns [True]: when it returns at all, the
    user has answered [n] at the prompt and the value is [False].  After a
    successful installation the probe [which tool 2>/dev/null] is refused
    by the security check, so the [return True] that follows it is never
    reached. *)
Theorem install_tool_never_returns_true :
  forall (host : Host) (disk : Disk host) (self_str info_dir : string)
         (textwrap_wrap : string -> Z -> list string)
         (tool_name : string) (skip_confirmation : bool) (st st' : State) (b : bool),
    install_tool self_str info_dir textwrap_wrap tool_name skip_confirmation st
      = (Ret b, st') ->
    b = false /\ skip_confirmation = false.
Proof.
  intros host disk self_str info_dir textwrap_wrap tool_name skip st st' b H.
  unfold install_tool, try_except in H.
  match type of H with
  | (let (_, _) := ?body st in _) = _ => destruct (body st) as [[b0|e] st1] eqn:Hb
  end.
  - injection H as <- <-.
    apply bind_ret_inv in Hb. destruct Hb as [go_on [st2 [Hgo Hb]]].
    destruct go_on; cbn [negb] in Hb.
    + exfalso.
      apply bind_ret_inv in Hb. destruct Hb as [[] [st3 [_ Hb]]].
      apply bind_ret_inv in Hb. destruct Hb as [[] [st4 [_ Hb]]].
      apply bind_ret_inv in Hb. destruct Hb as [r [st5 [_ Hb]]].
      apply bind_ret_inv in Hb. destruct Hb as [[[result stdout] stderr] [st6 [_ Hb]]].
      destruct (result =? 0).
      * apply bind_ret_inv in Hb. destruct Hb as [[] [st7 [_ Hb]]].
        apply bind_ret_inv in Hb. destruct Hb as [cmd_result [st8 [Hw _]]].
        destruct (which_probe_refused tool_name false st7) as [p [_ Hp]].
        rewrite Hp in Hw. discriminate.
      * repeat match type of Hb with
               | (if ?c then _ else _) _ = _ => destruct c
               end;
          apply bind_ret_inv in Hb; destruct Hb as [[] [st7 [_ Hb]]]; discriminate.
    + injection Hb as <- _. split; [reflexivity|].
      destruct skip; [|reflexivity].
      simpl in Hgo. discriminate.
  - destruct (reraise_or_wrap_raises
                [RepositoryError; NetworkError; PermissionError; ToolInstallationError]
                ("Unexpected error installing tool " ++ tool_name ++ ": ") e st1)
      as [e' [st2 [Hr _]]].
    rewrite Hr in H. discriminate.
Qed.

(** X17, witness: the user answers [n] at the prompt for [nmap]. *)
Lemma install_tool_never_returns_true_witness :
  fst (install_tool "<ToolManager>" "/tmp/katoolin_cache" one_line "nmap" false
         (ram_boot "n" (fun _ _ => ok))) = Ret false
  /\ (false = false /\ false = false).
Proof.
  split; [vm_compute; reflexivity|].
  apply (install_tool_never_returns_true (ram_host "n" (fun _ _ => ok))
           (ram_disk "n" (fun _ _ => ok))
           "<ToolManager>" "/tmp/katoolin_cache" one_line "nmap" false
           (ram_boot "n" (fun _ _ => ok))
           (snd (install_tool "<ToolManager>" "/tmp/katoolin_cache" one_line "nmap" false
                   (ram_boot "n" (fun _ _ => ok))))
           false).
  vm_compute. reflexivity.
Defined.

(** X18.  A successful installation is reported as a failure.  When the
    confirmation is skipped, the repository is in place and
    [apt install -y tool] exits with code 0, [install_tool] prints that the
    tool was installed and then raises a [ToolInstallationError]: the
    refusal of the probe [which tool 2>/dev/null] by the security check,
    wrapped by the last handler. *)
Theorem install_tool_fails_after_a_successful_install :
  forall (host : Host) (disk : Disk host) (self_str info_dir : string)
         (textwrap_wrap : string -> Z -> list string)
         (tool_name : string) (st : State) (w1 w2 : World) (out err : string),
    sanitize_command ("apt install -y " ++ tool_name) = Ret ("apt install -y " ++ tool_name) ->
    add_repository (world st) = (Ret true, w1) ->
    subprocess_run ("apt install -y " ++ tool_name) w1 = (Completed 0 out err, w2) ->
    exists p,
      In p dangerous_patterns /\
      let error_msg := ("Unexpected error installing tool " ++ tool_name ++ ": ")
                       ++ str_exn (security_error p) in
      install_tool self_str info_dir textwrap_wrap tool_name true st =
        (Raise (simple_exn ToolInstallationError error_msg),
         mkState w2
           (console st ++
            [Colors.CYAN ++ "[*] Checking repositories..." ++ Colors.RESET;
             Colors.CYAN ++ "[*] Installing " ++ tool_name
               ++ "... This may take a while." ++ Colors.RESET;
             Colors.GREEN ++ "[+] Successfully installed " ++ tool_name ++ Colors.RESET;
             Colors.RED ++ "Error: " ++ error_msg ++ Colors.RESET])
           (shared st)).
Proof.
  intros host disk self_str info_dir textwrap_wrap tool_name st w1 w2 out err Hsafe Hrepo Hrun.
  destruct st as [w0 con sh]. cbn [world console shared] in *.
  set (st4 := mkState w2
                (((con ++ [Colors.CYAN ++ "[*] Checking repositories..." ++ Colors.RESET])
                  ++ [Colors.CYAN ++ "[*] Installing " ++ tool_name
                      ++ "... This may take a while." ++ Colors.RESET])
                 ++ [Colors.GREEN ++ "[+] " ++ ("Successfully installed " ++ tool_name)
                     ++ Colors.RESET])
                sh).
  destruct (which_probe_refused tool_name false st4) as [p [Hp Hw]].
  exists p. split; [exact Hp|].
  unfold install_tool, try_except, ensure_repository.
  cbv beta iota zeta delta [bind ret negb host_call_result print world console shared].
  rewrite Hrepo.
  cbv beta iota zeta delta [bind ret negb host_call_result print world console shared].
  rewrite (run_command_clean ("apt install -y " ++ tool_name) true _ Hsafe).
  cbv beta iota zeta delta [bind ret negb host_call_result print world console shared].
  rewrite Hrun.
  cbv beta iota zeta delta [unpack3 Z.eqb bind ret negb print world console shared].
  fold st4. rewrite Hw.
  unfold reraise_or_wrap. cbn [klass security_error existsb exn_class_eqb orb].
  run_m. unfold st4.
  rewrite <- !app_assoc. reflexivity.
Qed.

(** X18, witness: [nmap] on a host where every command succeeds. *)
Lemma install_tool_fails_after_a_successful_install_witness :
  exists p,
    In p dangerous_patterns /\
    fst (install_tool "<ToolManager>" "/tmp/katoolin_cache" one_line "nmap" true
           (ram_boot "y" (fun _ _ => ok)))
    = Raise (simple_exn ToolInstallationError
               ("Unexpected error installing tool nmap: " ++ str_exn (security_error p))).
Proof.
  destruct (install_tool_fails_after_a_successful_install
              (ram_host "y" (fun _ _ => ok)) (ram_disk "y" (fun _ _ => ok))
              "<ToolManager>" "/tmp/katoolin_cache" one_line "nmap"
              (ram_boot "y" (fun _ _ => ok))
              (mkRam [] [] 0) (mkRam ["apt install -y nmap"] [] 0) "" ""
              eq_refl eq_refl eq_refl) as [p [Hp H]].
  exists p. split; [exact Hp|]. rewrite H. reflexivity.
Defined.

(** ** The file of a cache key *)

Lemma map_chars_app (f : ascii -> ascii) (a b : string) :
  map_chars f (a ++ b) = map_chars f a ++ map_chars f b.
Proof. induction a as [|c a IH]; simpl; [reflexivity | rewrite IH; reflexivity]. Qed.

Lemma map_chars_length (f : ascii -> ascii) (s : string) :
  String.length (map_chars f s) = String.length s.
Proof. induction s as [|c s IH]; simpl; [reflexivity | rewrite IH; reflexivity]. Qed.

Lemma map_chars_in (f : ascii -> ascii) (s : string) (c : ascii) :
  char_in c (map_chars f s) = true -> exists d, c = f d.
Proof.
  induction s as [|d s IH]; simpl; [discriminate|].
  intros H. apply orb_true_iff in H. destruct H as [H | H]; [|exact (IH H)].
  apply Ascii.eqb_eq in H. exists d. exact H.
Qed.

Lemma alike_same_file_name (a b : string) :
  alike a b = true ->
  map_chars (fun c => if isalnum c then c else "_"%char) a
  = map_chars (fun c => if isalnum c then c else "_"%char) b.
Proof.
  revert b. induction a as [|c a IH]; intros [|d b]; simpl; try discriminate; [reflexivity|].
  intros H. apply andb_true_iff in H. destruct H as [Hc Hab].
  rewrite (IH b Hab). f_equal.
  apply orb_true_iff in Hc. destruct Hc as [Hc | Hc].
  - apply Ascii.eqb_eq in Hc. subst d. reflexivity.
  - apply andb_true_iff in Hc. destruct Hc as [Hc Hd].
    apply negb_true_iff in Hc, Hd. rewrite Hc, Hd. reflexivity.
Qed.

Lemma alike_same_path (cache : Cache.t) (self_str a b : string) :
  alike a b = true ->
  Cache._get_cache_path cache (tool_info_key self_str a)
  = Cache._get_cache_path cache (tool_info_key self_str b).
Proof.
  intros H. unfold Cache._get_cache_path.
  change (tool_info_key self_str a)
    with ("tool_info:get_tool_info:" ++ (self_str ++ (":" ++ a))).
  change (tool_info_key self_str b)
    with ("tool_info:get_tool_info:" ++ (self_str ++ (":" ++ b))).
  rewrite !map_chars_app. rewrite (alike_same_file_name a b H). reflexivity.
Qed.

(** X19.  The file of a cache key lies in the directory of the cache,
    whatever the key holds: its name has the length of the key, consists of
    letters, digits and underscores, and is followed by [.json]. *)
Theorem cache_file_stays_in_the_cache_directory :
  forall (self : Cache.t) (key : string),
    exists name,
      Cache._get_cache_path self key =
        Cache.cache_dir self
        ++ (if negb (truthy (Cache.cache_dir self)) || endswith "/" (Cache.cache_dir self)
            then "" else "/")
        ++ name ++ ".json" /\
      String.length name = String.length key /\
      forall c, char_in c name = true -> isalnum c = true \/ c = "_"%char.
Proof.
  intros self key.
  exists (map_chars (fun c => if isalnum c then c else "_"%char) key).
  split; [|split].
  - unfold Cache._get_cache_path, path_join.
    assert (Hs : startswith "/"
                   (map_chars (fun c => if isalnum c then c else "_"%char) key ++ ".json")
                 = false).
    { destruct key as [|c key]; [reflexivity|].
      change (Ascii.eqb "/"%char (if isalnum c then c else "_"%char)
              && startswith "" (map_chars (fun c => if isalnum c then c else "_"%char) key
                                ++ ".json") = false).
      destruct (isalnum c) eqn:Hc; [|reflexivity].
      destruct (Ascii.eqb_spec "/"%char c) as [<- | Hne]; [discriminate Hc | reflexivity]. }
    rewrite Hs.
    destruct (negb (truthy (Cache.cache_dir self)) || endswith "/" (Cache.cache_dir self));
      reflexivity.
  - apply map_chars_length.
  - intros c Hc. apply map_chars_in in Hc. destruct Hc as [d ->].
    destruct (isalnum d) eqn:Hd; [left; exact Hd | right; reflexivity].
Qed.

(** ** The cache on a file system in memory *)

Section RamCache.
Variable reply : string.
Variable answer : ram -> string -> completed.
Variables self_str info_dir : string.

(** A command changes neither the files nor the clock. *)
Lemma ram_run_command (command : string) (capture : bool) (st st' : @State (ram_host reply answer))
    (r : result cmd_result) :
  run_command command capture true st = (r, st') ->
  files (world st') = files (world st) /\ clock (world st') = clock (world st)
  /\ shared st' = shared st.
Proof.
  unfold run_command, bind, lift_result, host_call, ret.
  destruct (sanitize_command command) as [c|e].
  - simpl. destruct (answer (world st) c); destruct capture;
      intros H; injection H as _ <-; auto.
  - intros H. injection H as _ <-. auto.
Qed.

(** [get_tool_info] before it is decorated returns a dictionary and
    changes neither the files nor the clock. *)
Lemma ram_get_tool_info_wrapped (tool_name : string) (st : @State (ram_host reply answer)) :
  exists d st',
    get_tool_info_wrapped tool_name st = (Ret (PDict d), st') /\
    files (world st') = files (world st) /\ clock (world st') = clock (world st).
Proof.
  unfold get_tool_info_wrapped, try_except.
  unfold bind at 1.
  destruct (run_command ("apt-cache show " ++ tool_name) true true st) as [[r|e] st1] eqn:Hr;
    apply ram_run_command in Hr; destruct Hr as [Hf [Hc _]].
  - destruct r as [code|code stdout stderr].
    + run_m. eexists _, _. split; [reflexivity|]. cbn [world]. auto.
    + unfold unpack3. run_m.
      destruct (negb (code =? 0)).
      * eexists _, _. split; [reflexivity|]. cbn [world]. auto.
      * unfold lift_result. destruct (parse_tool_info stdout) as [info|e].
        -- eexists _, _. split; [reflexivity|]. auto.
        -- eexists _, _. split; [reflexivity|]. cbn [world]. auto.
  - run_m. eexists _, _. split; [reflexivity|]. cbn [world]. auto.
Qed.

(** A look into the cache at a path that holds a fresh document. *)
Lemma ram_cache_hit (cache : Cache.t) (key : string) (st : @State (ram_host reply answer))
    (timestamp : Q) (value : pyval) :
  dict_get (files (world st)) (Cache._get_cache_path cache key)
    = Some (Document (Some timestamp) (Some value)) ->
  (clock (world st) - timestamp <= inject_Z (Cache.ttl cache))%Q ->
  Cache.get cache key PNone st = (Ret value, st).
Proof.
  intros Hfile Hage.
  unfold Cache.get, Cache.host_read, bind, ret. simpl.
  repeat (rewrite Hfile; simpl).
  unfold Qgt_bool.
  destruct (Qle_bool (clock (world st) - timestamp) (inject_Z (Cache.ttl cache))) eqn:Hq.
  - reflexivity.
  - apply Qle_bool_iff in Hage. congruence.
Qed.

(** A first call that finds nothing in the cache leaves a document that
    answers the later calls for every name with the same file. *)
Lemma ram_tool_info_then_hit (t1 t2 : string) (st st1 st2 : @State (ram_host reply answer)) (v : pyval) :
  alike t1 t2 = true ->
  Cache.get (Cache.mk info_dir 3600) (tool_info_key self_str t1) PNone st = (Ret PNone, st) ->
  get_tool_info self_str info_dir t1 st = (Ret v, st1) ->
  files (world st2) = files (world st1) ->
  (clock (world st2) - clock (world st) <= 3600)%Q ->
  get_tool_info self_str info_dir t2 st2 = (Ret v, st2).
Proof.
  intros Halike Hmiss Hfirst Hfiles Hage.
  destruct (cached_cases (Cache.mk info_dir 3600) "tool_info" "get_tool_info"
              [self_str; t1] (get_tool_info_wrapped t1) st) as [hit [Hhit Hc]].
  change (join ":" (["tool_info"; "get_tool_info"] ++ [self_str; t1])%list)
    with (tool_info_key self_str t1) in Hhit, Hc.
  rewrite Hmiss in Hhit. injection Hhit as <-.
  unfold get_tool_info in Hfirst. rewrite Hc in Hfirst. clear Hc. cbn [is_none negb] in Hfirst.
  destruct (ram_get_tool_info_wrapped t1 st) as [d [st' [Hw [Hf Hclock]]]].
  rewrite Hw in Hfirst. injection Hfirst as <- <-.
  cbn [world] in Hfiles. simpl in Hfiles.
  assert (Hget : Cache.get (Cache.mk info_dir 3600) (tool_info_key self_str t2) PNone st2
                 = (Ret (PDict d), st2)).
  { apply (ram_cache_hit _ _ _ (clock (world st'))).
    - rewrite Hfiles. rewrite <- (alike_same_path _ self_str t1 t2 Halike).
      apply dict_get_set_same.
    - rewrite Hclock. exact Hage. }
  unfold get_tool_info, cached.
  change (join ":" (["tool_info"; "get_tool_info"] ++ [self_str; t2])%list)
    with (tool_info_key self_str t2).
  rewrite (bind_ret_eq Hget). reflexivity.
Qed.

End RamCache.

Lemma alike_refl (a : string) : alike a a = true.
Proof.
  induction a as [|c a IH]; simpl; [reflexivity|].
  rewrite Ascii.eqb_refl, IH. reflexivity.
Qed.

(** X20.  The cache does not tell apart two names that differ only in
    characters other than letters and digits.  On a file system in memory,
    once [get_tool_info] has answered for one name after finding nothing in
    the cache, it gives the same answer for every such name during the next
    hour, and runs no command for it. *)
Theorem tool_info_of_one_name_answers_for_alike_names :
  forall (reply : string) (answer : ram -> string -> completed)
         (self_str info_dir t1 t2 : string)
         (st st1 st2 : @State (ram_host reply answer)) (v : pyval),
    alike t1 t2 = true ->
    Cache.get (Cache.mk info_dir 3600) (tool_info_key self_str t1) PNone st = (Ret PNone, st) ->
    get_tool_info self_str info_dir t1 st = (Ret v, st1) ->
    files (world st2) = files (world st1) ->
    (clock (world st2) - clock (world st) <= 3600)%Q ->
    get_tool_info self_str info_dir t2 st2 = (Ret v, st2).
Proof.
  intros reply answer self_str info_dir t1 t2 st st1 st2 v.
  apply ram_tool_info_then_hit.
Qed.

(** X20, witness: half an hour after [ghost-phisher] was looked up,
    [ghost_phisher], which the package index does not know, gets the record
    of [ghost-phisher]. *)
Lemma tool_info_of_one_name_answers_for_alike_names_witness :
  let first := get_tool_info "<ToolManager>" "/tmp/katoolin_cache" "ghost-phisher"
                 (ram_boot "y" knows_ghost_phisher) in
  let later := ram_later "y" knows_ghost_phisher 1800 (snd first) in
  fst first = Ret (PDict [("name", "ghost-phisher"); ("version", "1.64-1kali2");
                          ("homepage", "https://github.com/savio-code/ghost-phisher");
                          ("description", "GUI suite for phishing and penetration attacks")])
  /\ fst (get_tool_info_wrapped "ghost_phisher" later) = Ret (PDict [])
  /\ get_tool_info "<ToolManager>" "/tmp/katoolin_cache" "ghost_phisher" later
     = (fst first, later).
Proof.
  intros first later.
  split; [vm_compute; reflexivity|].
  split; [vm_compute; reflexivity|].
  replace (fst first)
    with (Ret (PDict [("name", "ghost-phisher"); ("version", "1.64-1kali2");
                      ("homepage", "https://github.com/savio-code/ghost-phisher");
                      ("description", "GUI suite for phishing and penetration attacks")]))
    by (vm_compute; reflexivity).
  apply (tool_info_of_one_name_answers_for_alike_names "y" knows_ghost_phisher
           "<ToolManager>" "/tmp/katoolin_cache" "ghost-phisher" "ghost_phisher"
           (ram_boot "y" knows_ghost_phisher) (snd first) later).
  - vm_compute; reflexivity.
  - vm_compute; reflexivity.
  - vm_compute; reflexivity.
  - vm_compute; reflexivity.
  - vm_compute. discriminate.
Defined.

(** X21.  A lookup that failed is remembered.  On a file system in memory,
    when [apt-cache show] fails for a tool that is not in the cache,
    [get_tool_info] returns the empty dictionary and stores it; during the
    next hour it returns the empty dictionary again without running any
    command, whatever the package manager would answer by then. *)
Theorem failed_tool_lookup_is_remembered :
  forall (reply : string) (answer : ram -> string -> completed)
         (self_str info_dir tool_name : string)
         (st : @State (ram_host reply answer)) (code : Z) (out err : string),
    sanitize_command ("apt-cache show " ++ tool_name) = Ret ("apt-cache show " ++ tool_name) ->
    Cache.get (Cache.mk info_dir 3600) (tool_info_key self_str tool_name) PNone st
      = (Ret PNone, st) ->
    answer (world st) ("apt-cache show " ++ tool_name) = Completed code out err ->
    code <> 0 ->
    exists st1 : @State (ram_host reply answer),
      get_tool_info self_str info_dir tool_name st = (Ret (PDict []), st1) /\
      ran (world st1) = (ran (world st) ++ [("apt-cache show " ++ tool_name)%string])%list /\
      forall st2 : @State (ram_host reply answer),
        files (world st2) = files (world st1) ->
        (clock (world st2) - clock (world st) <= 3600)%Q ->
        get_tool_info self_str info_dir tool_name st2 = (Ret (PDict []), st2).
Proof.
  intros reply answer self_str info_dir tool_name st code out err Hsafe Hmiss Hanswer Hcode.
  assert (Hw : exists st',
             get_tool_info_wrapped tool_name st = (Ret (PDict []), st') /\
             ran (world st') = (ran (world st) ++ [("apt-cache show " ++ tool_name)%string])%list).
  { unfold get_tool_info_wrapped, try_except. unfold bind at 1.
    rewrite (run_command_clean ("apt-cache show " ++ tool_name) true st Hsafe).
    cbn [subprocess_run ram_host]. rewrite Hanswer.
    unfold unpack3. run_m.
    destruct (Z.eqb_spec code 0) as [-> | _]; [contradiction|]. cbn [negb].
    eexists. split; reflexivity. }
  destruct Hw as [st' [Hw Hran]].
  destruct (cached_cases (Cache.mk info_dir 3600) "tool_info" "get_tool_info"
              [self_str; tool_name] (get_tool_info_wrapped tool_name) st) as [hit [Hhit Hc]].
  change (join ":" (["tool_info"; "get_tool_info"] ++ [self_str; tool_name])%list)
    with (tool_info_key self_str tool_name) in Hhit, Hc.
  rewrite Hmiss in Hhit. injection Hhit as <-.
  cbn [is_none negb] in Hc. rewrite Hw in Hc.
  match type of Hc with _ = (_, ?s) => set (st1 := s) in * end.
  exists st1. split; [unfold get_tool_info; exact Hc|].
  split; [exact Hran|].
  intros st2 Hfiles Hage.
  apply (ram_tool_info_then_hit reply answer self_str info_dir tool_name tool_name st st1 st2).
  - apply alike_refl.
  - exact Hmiss.
  - unfold get_tool_info. exact Hc.
  - exact Hfiles.
  - exact Hage.
Qed.

(** X21, witness: the package index cannot be reached by the first
    command; half an hour later it would answer, and is not asked. *)
Lemma failed_tool_lookup_is_remembered_witness :
  let first := get_tool_info "<ToolManager>" "/tmp/katoolin_cache" "ghost-phisher"
                 (ram_boot "y" down_at_first) in
  let later := ram_later "y" down_at_first 1800 (snd first) in
  down_at_first (world later) "apt-cache show ghost-phisher"
    = Completed 0 ghost_phisher_record ""
  /\ get_tool_info "<ToolManager>" "/tmp/katoolin_cache" "ghost-phisher" later
     = (Ret (PDict []), later).
Proof.
  intros first later.
  split; [vm_compute; reflexivity|].
  destruct (failed_tool_lookup_is_remembered "y" down_at_first
              "<ToolManager>" "/tmp/katoolin_cache" "ghost-phisher"
              (ram_boot "y" down_at_first) 100 "" "E: Failed to fetch the package lists")
    as [st1 [Hfirst [_ Hlater]]].
  - vm_compute; reflexivity.
  - vm_compute; reflexivity.
  - vm_compute; reflexivity.
  - discriminate.
  - apply Hlater.
    + fold first in Hfirst. unfold later. rewrite Hfirst. reflexivity.
    + vm_compute. discriminate.
Defined.

(** ** Parsing the output of [apt-cache show] *)

Lemma char_in_app (c : ascii) (a b : string) :
  char_in c (a ++ b) = char_in c a || char_in c b.
Proof.
  induction a as [|d a IH]; simpl; [reflexivity|].
  rewrite IH. apply orb_assoc.
Qed.

Lemma one_line_text_cons (c : ascii) (s : string) :
  one_line_text (String c s) -> is_linebreak c = false /\ one_line_text s.
Proof.
  intros H. split.
  - apply H. simpl. rewrite Ascii.eqb_refl. reflexivity.
  - intros d Hd. apply H. simpl. rewrite Hd. apply orb_true_r.
Qed.

Lemma one_line_text_app (a b : string) :
  one_line_text a -> one_line_text b -> one_line_text (a ++ b).
Proof.
  intros Ha Hb c Hc. rewrite char_in_app in Hc. apply orb_true_iff in Hc.
  destruct Hc as [Hc | Hc]; [exact (Ha c Hc) | exact (Hb c Hc)].
Qed.

Lemma splitlines_plain (c : ascii) (s : string) :
  is_linebreak c = false ->
  splitlines (String c s)
  = match splitlines s with
    | [] => [String c EmptyString]
    | l :: ls => String c l :: ls
    end.
Proof. intros H. cbn [splitlines]. rewrite H. reflexivity. Qed.

(** A line followed by a line feed is the first line of the text. *)
Lemma splitlines_line (a b : string) :
  one_line_text a -> splitlines (a ++ String LF b) = a :: splitlines b.
Proof.
  induction a as [|c a IH]; intros Ha.
  - simpl. destruct b; reflexivity.
  - apply one_line_text_cons in Ha. destruct Ha as [Hc Ha].
    change (String c a ++ String LF b) with (String c (a ++ String LF b)).
    rewrite (splitlines_plain _ _ Hc). rewrite (IH Ha). reflexivity.
Qed.

(** A last line without a line feed. *)
Lemma splitlines_last (s : string) :
  one_line_text s -> s <> EmptyString -> splitlines s = [s].
Proof.
  induction s as [|c s IH]; intros Hs Hne; [congruence|].
  apply one_line_text_cons in Hs. destruct Hs as [Hc Hs].
  rewrite (splitlines_plain _ _ Hc).
  destruct s as [|d s]; [reflexivity|].
  rewrite (IH Hs) by discriminate. reflexivity.
Qed.

Lemma one_line_literal (s : string) :
  forallb (fun c => negb (is_linebreak c)) (list_ascii_of_string s) = true ->
  one_line_text s.
Proof.
  induction s as [|d s IH]; simpl; intros H c Hc; [discriminate|].
  apply andb_true_iff in H. destruct H as [Hd Hs].
  apply orb_true_iff in Hc. destruct Hc as [Hc | Hc].
  - apply Ascii.eqb_eq in Hc. subst c. apply negb_true_iff. exact Hd.
  - exact (IH Hs c Hc).
Qed.

(** The lines of a record. *)
Lemma splitlines_continuation (more : list string) (rest : string) :
  Forall one_line_text more ->
  splitlines (continuation_lines more rest)
  = (map (fun m => (" " ++ m)%string) more ++ splitlines rest)%list.
Proof.
  induction more as [|m more IH]; intros H; [reflexivity|].
  inversion H as [|? ? Hm Hmore]; subst.
  change (continuation_lines (m :: more) rest)
    with ((" " ++ m) ++ String LF (continuation_lines more rest)).
  rewrite splitlines_line.
  - rewrite (IH Hmore). reflexivity.
  - apply one_line_text_app; [apply one_line_literal; reflexivity | exact Hm].
Qed.

Lemma splitlines_record (name version description : string) (more : list string)
    (homepage : string) :
  one_line_text name -> one_line_text version -> one_line_text description ->
  Forall one_line_text more -> one_line_text homepage ->
  splitlines (apt_record name version description more homepage)
  = ("Package: " ++ name) :: ("Version: " ++ version) :: ("Description: " ++ description)
    :: (map (fun m => (" " ++ m)%string) more ++ [("Homepage: " ++ homepage)%string])%list.
Proof.
  intros Hn Hv Hd Hm Hh. unfold apt_record.
  change ("Package: " ++ name ++ String LF ?x) with (("Package: " ++ name) ++ String LF x).
  rewrite splitlines_line
    by (apply one_line_text_app; [apply one_line_literal; reflexivity | exact Hn]).
  change ("Version: " ++ version ++ String LF ?x) with (("Version: " ++ version) ++ String LF x).
  rewrite splitlines_line
    by (apply one_line_text_app; [apply one_line_literal; reflexivity | exact Hv]).
  change ("Description: " ++ description ++ String LF ?x)
    with (("Description: " ++ description) ++ String LF x).
  rewrite splitlines_line
    by (apply one_line_text_app; [apply one_line_literal; reflexivity | exact Hd]).
  rewrite (splitlines_continuation more _ Hm).
  rewrite splitlines_last; [reflexivity | | discriminate].
  apply one_line_text_app; [apply one_line_literal; reflexivity | exact Hh].
Qed.

(** The loop over the continuation lines of a description. *)
Lemma tool_info_continuation (more rest : list string) (info : list (string * string))
    (description_lines : list string) :
  tool_info_lines (map (fun m => (" " ++ m)%string) more ++ rest)%list
    (info, description_lines, true)
  = tool_info_lines rest (info, (description_lines ++ map strip more)%list, true).
Proof.
  revert description_lines. induction more as [|m more IH]; intros description_lines.
  - simpl. rewrite app_nil_r. reflexivity.
  - cbn [map app].
    change (tool_info_lines ((" " ++ m) :: ?l) ?vars)
      with (match tool_info_line vars (" " ++ m) with
            | Ret vars' => tool_info_lines l vars'
            | Raise e => Raise e
            end).
    change (tool_info_line (info, description_lines, true) (" " ++ m))
      with (Ret (info, (description_lines ++ [strip m])%list, true)).
    cbv iota. rewrite IH. rewrite <- app_assoc. reflexivity.
Qed.

(** X22.  [get_tool_info] reads a record of [apt-cache show] back: the
    name, the version and the home page are the fields of the record
    without the white space around them, and the description is the first
    line of the description joined by one space with its continuation
    lines, each without the white space around it. *)
Theorem parse_tool_info_reads_a_record :
  forall (name version description : string) (more : list string) (homepage : string),
    one_line_text name -> one_line_text version -> one_line_text description ->
    Forall one_line_text more -> one_line_text homepage ->
    parse_tool_info (apt_record name version description more homepage)
    = Ret [("name", strip name); ("version", strip version);
           ("homepage", strip homepage);
           ("description", join " " (strip description :: map strip more))].
Proof.
  intros name version description more homepage Hn Hv Hd Hm Hh.
  unfold parse_tool_info.
  rewrite (splitlines_record name version description more homepage Hn Hv Hd Hm Hh).
  cbn [tool_info_lines].
  change (tool_info_line ([], [], false) ("Package: " ++ name))
    with (Ret ([("name", strip name)], @nil string, false)).
  cbv iota.
  change (tool_info_line ([("name", strip name)], [], false) ("Version: " ++ version))
    with (Ret ([("name", strip name); ("version", strip version)], @nil string, false)).
  cbv iota.
  change (tool_info_line ([("name", strip name); ("version", strip version)], [], false)
            ("Description: " ++ description))
    with (Ret ([("name", strip name); ("version", strip version)],
               [strip description], true)).
  cbv iota.
  rewrite tool_info_continuation.
  cbn [tool_info_lines].
  change (tool_info_line
            ([("name", strip name); ("version", strip version)],
             ([strip description] ++ map strip more)%list, true)
            ("Homepage: " ++ homepage))
    with (Ret ([("name", strip name); ("version", strip version);
                ("homepage", strip homepage)],
               ([strip description] ++ map strip more)%list, false)).
  reflexivity.
Qed.

(** X22, witness: the record of [nmap] with one continuation line. *)
Lemma parse_tool_info_reads_a_record_witness :
  parse_tool_info
    (apt_record "nmap" "7.94+git20230807" "The Network Mapper"
       ["Nmap is a utility for network exploration or security auditing."]
       "https://nmap.org/")
  = Ret [("name", "nmap"); ("version", "7.94+git20230807");
         ("homepage", "https://nmap.org/");
         ("description",
          "The Network Mapper Nmap is a utility for network exploration or security auditing.")].
Proof.
  apply (parse_tool_info_reads_a_record "nmap" "7.94+git20230807" "The Network Mapper"
           ["Nmap is a utility for network exploration or security auditing."]
           "https://nmap.org/").
  - apply one_line_literal; reflexivity.
  - apply one_line_literal; reflexivity.
  - apply one_line_literal; reflexivity.
  - repeat constructor; apply one_line_literal; reflexivity.
  - apply one_line_literal; reflexivity.
Defined.

Lemma split_once_two (s : string) :
  char_in ":"%char s = true -> exists a b, split_once ":"%char s = [a; b].
Proof.
  induction s as [|c s IH]; cbn [char_in split_once]; [discriminate|].
  rewrite (Ascii.eqb_sym ":"%char c).
  destruct (Ascii.eqb c ":"%char); cbn [orb].
  - intros _. eauto.
  - intros H. destruct (IH H) as [a [b ->]]. eauto.
Qed.

(** The index [1] of [line.split(":", 1)] is in range for a line that
    starts with the name of a field. *)
Lemma field_of_returns (p line : string) :
  char_in ":"%char p = true -> startswith p line = true ->
  exists value, field_of line = Ret value.
Proof.
  intros Hp Hs. apply startswith_spec in Hs. destruct Hs as [b ->].
  destruct (split_once_two (p ++ b)) as [a [v H]].
  { rewrite char_in_app, Hp. reflexivity. }
  unfold field_of. rewrite H. eauto.
Qed.

Lemma dict_set_keys (info : list (string * string)) (key value : string) :
  In key tool_info_keys ->
  (forall k v, In (k, v) info -> In k tool_info_keys) ->
  forall k v, In (k, v) (dict_set info key value) -> In k tool_info_keys.
Proof.
  intros Hkey Hinfo k v Hin. apply dict_set_in in Hin.
  destruct Hin as [Heq | Hin]; [injection Heq as -> _; exact Hkey | exact (Hinfo k v Hin)].
Qed.

Lemma tool_info_line_returns (info : list (string * string)) (description_lines : list string)
    (in_description : bool) (line : string) :
  (forall k v, In (k, v) info -> In k tool_info_keys) ->
  exists info' description_lines' in_description',
    tool_info_line (info, description_lines, in_description) line
      = Ret (info', description_lines', in_description') /\
    (forall k v, In (k, v) info' -> In k tool_info_keys).
Proof.
  intros Hinfo. unfold tool_info_line.
  destruct (startswith "Package:" line) eqn:H1.
  { destruct (field_of_returns "Package:" line eq_refl H1) as [value ->].
    eexists _, _, _. split; [reflexivity|].
    apply dict_set_keys; [simpl; tauto | exact Hinfo]. }
  destruct (startswith "Version:" line) eqn:H2.
  { destruct (field_of_returns "Version:" line eq_refl H2) as [value ->].
    eexists _, _, _. split; [reflexivity|].
    apply dict_set_keys; [simpl; tauto | exact Hinfo]. }
  destruct (startswith "Description:" line) eqn:H3.
  { destruct (field_of_returns "Description:" line eq_refl H3) as [value ->].
    eexists _, _, _. split; [reflexivity | exact Hinfo]. }
  destruct (startswith " " line && in_description).
  { eexists _, _, _. split; [reflexivity | exact Hinfo]. }
  destruct (startswith "Homepage:" line) eqn:H5.
  { destruct (field_of_returns "Homepage:" line eq_refl H5) as [value ->].
    eexists _, _, _. split; [reflexivity|].
    apply dict_set_keys; [simpl; tauto | exact Hinfo]. }
  destruct (negb (truthy (strip line)));
    eexists _, _, _; (split; [reflexivity | exact Hinfo]).
Qed.

Lemma tool_info_lines_returns (lines : list string) (info : list (string * string))
    (description_lines : list string) (in_description : bool) :
  (forall k v, In (k, v) info -> In k tool_info_keys) ->
  exists info' description_lines' in_description',
    tool_info_lines lines (info, description_lines, in_description)
      = Ret (info', description_lines', in_description') /\
    (forall k v, In (k, v) info' -> In k tool_info_keys).
Proof.
  revert info description_lines in_description.
  induction lines as [|line rest IH]; intros info description_lines in_description Hinfo.
  - exists info, description_lines, in_description. split; [reflexivity | exact Hinfo].
  - destruct (tool_info_line_returns info description_lines in_description line Hinfo)
      as [info1 [dl1 [in1 [H1 Hkeys1]]]].
    cbn [tool_info_lines]. rewrite H1. apply IH. exact Hkeys1.
Qed.

(** X23.  Parsing the output of [apt-cache show] never fails, whatever the
    output is: the index [1] of [line.split(":", 1)] is always in range.
    The dictionary has no key other than [name], [version], [homepage] and
    [description]. *)
Theorem parse_tool_info_never_fails :
  forall stdout : string,
    exists info,
      parse_tool_info stdout = Ret info /\
      forall k v, In (k, v) info -> In k ["name"; "version"; "homepage"; "description"].
Proof.
  intros stdout. unfold parse_tool_info.
  destruct (tool_info_lines_returns (splitlines stdout) [] [] false)
    as [info [dl [ind [H Hkeys]]]]; [intros k v []|].
  rewrite H. destruct dl as [|d dl].
  - exists info. split; [reflexivity | exact Hkeys].
  - eexists. split; [reflexivity|].
    apply dict_set_keys; [simpl; tauto | exact Hkeys].
Qed.

(** ** The prompt *)

(** X24.  [safe_input] called with a prompt alone, as everywhere in the
    repository.  A typed line is returned as it is, it holds none of the
    patterns that [validate_input] refuses, and nothing is printed; a line
    with such a pattern, or the end of the input, raises a
    [UserInputError]; an interrupt prints one line and gives the default,
    or the empty string without a default. *)
Theorem safe_input_with_a_prompt_alone :
  forall (host : Host) (terminal : Terminal host)
         (re_match : string -> string -> result bool)
         (prompt : string) (default : option string) (st : State),
    let outcome := Prompt.safe_input re_match prompt default None None None None st in
    world (snd outcome) = snd (input prompt (world st)) /\
    match fst outcome with
    | Ret s =>
        (fst (input prompt (world st)) = Typed s /\
         (forall p, In p input_dangerous_patterns -> ~ is_substring p s) /\
         console (snd outcome) = console st)
        \/
        (fst (input prompt (world st)) = Interrupted /\
         s = match default with Some d => d | None => "" end /\
         console (snd outcome)
         = (console st ++ [String LF "Operation cancelled by user."])%list)
    | Raise e =>
        klass e = UserInputError /\ console (snd outcome) = console st /\
        fst (input prompt (world st)) <> Interrupted
    end.
Proof.
  intros host terminal re_match prompt default st outcome. subst outcome.
  unfold Prompt.safe_input, validate_input, bind, host_call, lift_result, print, ret, raise.
  destruct (input prompt (world st)) as [[line| |text] w]; cbn [fst snd].
  - destruct (truthy line) eqn:Hl; cbn [negb].
    + destruct (input_scan input_dangerous_patterns line) as [s|e] eqn:Hs.
      * destruct (input_scan_ret_inv _ _ _ Hs) as [-> Hclean].
        rewrite String.eqb_refl. cbn [negb fst snd world console].
        split; [reflexivity|]. left. split; [reflexivity|]. split; [|reflexivity].
        intros p Hp Hsub. apply str_in_spec in Hsub. rewrite (Hclean p Hp) in Hsub.
        discriminate.
      * cbn [fst snd world console]. split; [reflexivity|].
        assert (He : klass e = UserInputError).
        { clear -Hs. revert Hs. generalize input_dangerous_patterns.
          induction l as [|p ps IH]; simpl; [discriminate|].
          destruct (str_in p line); [intros H; injection H as <-; reflexivity | exact IH]. }
        split; [exact He|]. split; [reflexivity | discriminate].
    + rewrite String.eqb_refl. cbn [negb fst snd world console].
      split; [reflexivity|]. left. split; [reflexivity|]. split; [|reflexivity].
      destruct line; [|discriminate].
      intros p Hp [a [b Hab]].
      destruct a; [|discriminate]. simpl in Hab.
      destruct p; [|discriminate].
      simpl in Hp. repeat (destruct Hp as [Hp | Hp]; [discriminate|]). destruct Hp.
  - cbn [fst snd world console]. split; [reflexivity|]. right. auto.
  - cbn [fst snd world console klass].
    split; [reflexivity|]. split; [reflexivity|]. split; [reflexivity | discriminate].
Qed.

(** ** The categories of the plugins *)

Lemma int_dict_get_set_other {V} (d : list (Z * V)) (key k : Z) (value : V) :
  k <> key -> int_dict_get (int_dict_set d key value) k = int_dict_get d k.
Proof.
  intros Hne. induction d as [|[k0 v0] rest IH]; simpl.
  - destruct (Z.eqb_spec key k); [congruence | reflexivity].
  - destruct (Z.eqb_spec k0 key) as [-> | Hne0]; simpl.
    + destruct (Z.eqb_spec key k); [congruence | reflexivity].
    + destruct (Z.eqb_spec k0 k); [reflexivity | exact IH].
Qed.

Lemma fold_max_le (l : list Z) (m : Z) : m <= fold_left Z.max l m.
Proof.
  revert m. induction l as [|x l IH]; intros m; simpl; [lia|].
  specialize (IH (Z.max m x)). lia.
Qed.

Lemma fold_max_in (l : list Z) (m x : Z) : In x l -> x <= fold_left Z.max l m.
Proof.
  revert m. induction l as [|y l IH]; intros m; simpl; [intros []|].
  intros [-> | H]; [|exact (IH _ H)].
  pose proof (fold_max_le l (Z.max m x)). lia.
Qed.

(** No key of a dictionary is above [max_key]. *)
Lemma max_key_bound {V} (d : list (Z * V)) (key : Z) (value : V) :
  int_dict_get d key = Some value -> key <= max_key d.
Proof.
  destruct d as [|[k v] rest]; simpl; [discriminate|].
  destruct (Z.eqb_spec k key) as [-> | Hne].
  - intros _. apply fold_max_le.
  - intros H. apply fold_max_in.
    clear -H. induction rest as [|[k1 v1] rest IH]; simpl in *; [discriminate|].
    destruct (Z.eqb_spec k1 key) as [-> | Hne1]; [left; reflexivity | right; exact (IH H)].
Qed.

(** The loop over the categories of the plugins keeps the built-in
    categories, and keeps [max_id] at or above their identifiers. *)
Lemma add_plugin_categories_keep (built_in : list (Z * category))
    (plugin_categories : list (Z * category)) (categories : list (Z * category)) (max_id : Z) :
  (forall id data, int_dict_get built_in id = Some data ->
                   int_dict_get categories id = Some data /\ id <= max_id) ->
  forall id data, int_dict_get built_in id = Some data ->
    int_dict_get (fst (fold_left add_plugin_category plugin_categories (categories, max_id))) id
    = Some data.
Proof.
  revert categories max_id.
  induction plugin_categories as [|[plugin_id category_data] rest IH];
    intros categories max_id Hinv id data Hid.
  - exact (proj1 (Hinv id data Hid)).
  - cbn [fold_left].
    assert (Hstep : forall id data, int_dict_get built_in id = Some data ->
              int_dict_get (fst (add_plugin_category (categories, max_id)
                                   (plugin_id, category_data))) id = Some data
              /\ id <= snd (add_plugin_category (categories, max_id)
                              (plugin_id, category_data))).
    { intros id0 data0 H0. destruct (Hinv id0 data0 H0) as [Hget Hle].
      unfold add_plugin_category, int_dict_mem.
      destruct (int_dict_get categories plugin_id) as [present|] eqn:Hp; cbn [negb].
      - destruct (Z.eqb_spec (max_id + 1) plugin_id) as [Heq | Hne]; cbn [negb fst snd].
        + split; [|exact Hle]. rewrite int_dict_get_set_other by lia. exact Hget.
        + split; [|lia]. rewrite int_dict_get_set_other by lia. exact Hget.
      - rewrite Z.eqb_refl. cbn [negb fst snd]. split; [|exact Hle].
        rewrite int_dict_get_set_other; [exact Hget|].
        intros ->. congruence. }
    destruct (add_plugin_category (categories, max_id) (plugin_id, category_data))
      as [categories1 max_id1].
    apply (IH categories1 max_id1 Hstep id data Hid).
Qed.

(** X25.  Merging the categories of the plugins never changes or removes a
    built-in category: each identifier of a built-in category leads to the
    same category after the merge, whatever identifiers the plugins ask
    for. *)
Theorem plugins_never_touch_a_built_in_category :
  forall (categories plugin_categories : list (Z * category)) (id : Z) (data : category),
    int_dict_get categories id = Some data ->
    int_dict_get (merge_plugin_categories categories plugin_categories) id = Some data.
Proof.
  intros categories plugin_categories id data H.
  unfold merge_plugin_categories.
  apply (add_plugin_categories_keep categories); [|exact H].
  intros id0 data0 H0. split; [exact H0 | exact (max_key_bound _ _ _ H0)].
Qed.

(** X25, witness: two plugins ask for the identifiers of the two built-in
    categories. *)
Lemma plugins_never_touch_a_built_in_category_witness :
  int_dict_get
    (merge_plugin_categories
       [(1, ("information_gathering", ["nmap"])); (2, ("web_applications", ["sqlmap"]))]
       [(2, ("plugin_tools", ["mytool"])); (1, ("more_tools", ["other"]))])
    2 = Some ("web_applications", ["sqlmap"]).
Proof.
  apply (plugins_never_touch_a_built_in_category
           [(1, ("information_gathering", ["nmap"])); (2, ("web_applications", ["sqlmap"]))]
           [(2, ("plugin_tools", ["mytool"])); (1, ("more_tools", ["other"]))]
           2 ("web_applications", ["sqlmap"])).
  reflexivity.
Defined.

(** X26.  The merge can lose a category of a plugin.  It is not true that
    every category of the plugins, given under distinct identifiers, is
    found under some identifier after the merge: a plugin category that
    took the identifier after the highest built-in one is overwritten by
    the next plugin category whose identifier is taken. *)
Theorem merge_can_lose_a_plugin_category :
  ~ (forall (categories plugin_categories : list (Z * category)),
       NoDup (map fst plugin_categories) ->
       forall id data, In (id, data) plugin_categories ->
         exists new_id,
           int_dict_get (merge_plugin_categories categories plugin_categories) new_id
           = Some data).
Proof.
  intros H.
  destruct (H [(1, ("information_gathering", ["nmap"]))]
              [(2, ("plugin_tools", ["mytool"])); (1, ("more_tools", ["other"]))])
    with (id := 2) (data := ("plugin_tools", ["mytool"])) as [new_id Hget].
  - repeat constructor; simpl; intuition discriminate.
  - left. reflexivity.
  - vm_compute in Hget.
    destruct new_id as [|[p|p|]|p]; try discriminate Hget;
      destruct p; discriminate Hget.
Qed.
